(** * torch/_prims/utils.py : dtype classification, operand checks and
      elementwise type promotion

    A shallow embedding of the helper functions of [torch._prims.utils]
    together with the properties the specification states about them.

    Python exceptions are modelled by an error monad; the process-wide
    default dtype that [torch.get_default_dtype()] reads is an explicit
    state record passed to the functions that read it. *)

From Stdlib Require Import List ZArith String Bool Arith Lia Permutation.
Import ListNotations.
Local Open Scope string_scope.
Local Open Scope nat_scope.

(** ** Values of the [torch] library the module works with *)

Module torch.

(** [torch.dtype].  The first thirteen values are the ones the tables of
    the module list; the quantized dtypes are [torch.dtype] values too,
    and no table of the module lists them. *)
Inductive dtype : Type :=
| bool
| uint8 | int8 | int16 | int32 | int64
| float16 | bfloat16 | float32 | float64
| complex32 | complex64 | complex128
| qint8 | quint8 | qint32.

(** [torch.device]: a device type and an optional ordinal. *)
Record device : Type := mk_device {
  type : string;
  index : option Z
}.

(* the aliases used by the module *)
Definition long := int64.
Definition half := float16.
Definition cfloat := complex64.
Definition cdouble := complex128.

End torch.

Definition dtype_eq_dec (a b : torch.dtype) : {a = b} + {a <> b}.
Proof. decide equality. Defined.

Definition dtype_eqb (a b : torch.dtype) : bool :=
  if dtype_eq_dec a b then true else false.

Definition device_eq_dec (a b : torch.device) : {a = b} + {a <> b}.
Proof.
  decide equality.
  - decide equality. apply Z.eq_dec.
  - apply string_dec.
Defined.

Definition device_eqb (a b : torch.device) : bool :=
  if device_eq_dec a b then true else false.

(** [torch.device("cpu")] *)
Definition cpu : torch.device := torch.mk_device "cpu" None.

(** The process-wide state [torch.get_default_dtype()] reads. *)
Record torch_state : Type := mk_state {
  default_dtype : torch.dtype
}.

Definition get_default_dtype (st : torch_state) : torch.dtype :=
  default_dtype st.

(** ** Python values *)

(** The four Python number types, [Number = (bool, int, float, complex)]. *)
Inductive pytype : Type := py_bool | py_int | py_float | py_complex.

Definition pytype_eq_dec (a b : pytype) : {a = b} + {a <> b}.
Proof. decide equality. Defined.

Definition pytype_eqb (a b : pytype) : bool :=
  if pytype_eq_dec a b then true else false.

(** What the functions read of a [torch.Tensor] or [TensorMeta]. *)
Record TensorLike : Type := mk_tensor {
  shape : list Z;
  stride : list Z;
  dtype : torch.dtype;
  device : torch.device
}.

Definition ndim (a : TensorLike) : nat := List.length (shape a).

(** The objects a caller can pass.  Of a number the functions only read
    [type(x)], so a number is represented by its type; [PyStr] stands for
    an object of any other class. *)
Inductive pyobj : Type :=
| PyNone
| PyNumber (typ : pytype)
| PyTensor (t : TensorLike)
| PyDtype (d : torch.dtype)
| PyStr (s : string).

Definition isinstance_Number (x : pyobj) : bool :=
  match x with PyNumber _ => true | _ => false end.

Definition isinstance_TensorLike (x : pyobj) : bool :=
  match x with PyTensor _ => true | _ => false end.

Definition is_None (x : pyobj) : bool :=
  match x with PyNone => true | _ => false end.

(** ** Exceptions *)

Inductive exception : Type :=
| AssertionError (msg : string)
| RuntimeError (msg : string)
| ValueError (msg : string)
| KeyError
| IndexError.

Inductive result (A : Type) : Type :=
| Ok (a : A)
| Raise (e : exception).
Arguments Ok {A} a.
Arguments Raise {A} e.

Definition bind {A B : Type} (m : result A) (k : A -> result B) : result B :=
  match m with
  | Ok a => k a
  | Raise e => Raise e
  end.

Notation "x <- m ;; k" := (bind m (fun x => k))
  (at level 61, m at next level, right associativity).

Definition raises {A : Type} (m : result A) : Prop :=
  exists e, m = Raise e.

Definition is_ok {A : Type} (m : result A) : bool :=
  match m with Ok _ => true | Raise _ => false end.

(** [d[k]] on a dict given as an association list. *)
Fixpoint getitem {K V : Type} (eqb : K -> K -> Datatypes.bool)
  (d : list (K * V)) (k : K) : result V :=
  match d with
  | [] => Raise KeyError
  | (k', v) :: d' => if eqb k k' then Ok v else getitem eqb d' k
  end.

(** [x in t] for a tuple of dtypes. *)
Definition dtype_in (x : torch.dtype) (t : list torch.dtype) : Datatypes.bool :=
  existsb (dtype_eqb x) t.

(** ** Dtype classification *)

Definition _integer_dtypes : list torch.dtype :=
  [torch.uint8; torch.int8; torch.int16; torch.int32; torch.int64].
Definition _float_dtypes : list torch.dtype :=
  [torch.float16; torch.bfloat16; torch.float32; torch.float64].
Definition _complex_dtypes : list torch.dtype :=
  [torch.complex32; torch.complex64; torch.complex128].

Definition is_boolean_dtype (dtype : torch.dtype) : Datatypes.bool :=
  dtype_eqb dtype torch.bool.

Definition is_integer_dtype (dtype : torch.dtype) : Datatypes.bool :=
  dtype_in dtype _integer_dtypes.

Definition is_float_dtype (dtype : torch.dtype) : Datatypes.bool :=
  dtype_in dtype _float_dtypes.

Definition is_complex_dtype (dtype : torch.dtype) : Datatypes.bool :=
  dtype_in dtype _complex_dtypes.

Definition _complex_to_real_dtype_map : list (torch.dtype * torch.dtype) :=
  [ (torch.complex128, torch.float64);
    (torch.complex64, torch.float32);
    (torch.complex32, torch.float16) ].

Definition _real_to_complex_dtype_map : list (torch.dtype * torch.dtype) :=
  [ (torch.float16, torch.complex32);
    (torch.bfloat16, torch.complex64);
    (torch.float32, torch.complex64);
    (torch.float64, torch.complex128) ].

Definition corresponding_real_dtype (dtype : torch.dtype) : result torch.dtype :=
  getitem dtype_eqb _complex_to_real_dtype_map dtype.

Definition corresponding_complex_dtype (dtype : torch.dtype) : result torch.dtype :=
  getitem dtype_eqb _real_to_complex_dtype_map dtype.

Definition dtype_to_type (dtype : torch.dtype) : result pytype :=
  if dtype_eqb dtype torch.bool then Ok py_bool
  else if dtype_in dtype _integer_dtypes then Ok py_int
  else if dtype_in dtype _float_dtypes then Ok py_float
  else if dtype_in dtype _complex_dtypes then Ok py_complex
  else Raise (ValueError "Invalid dtype!").

Definition _type_to_dtype_map : list (pytype * torch.dtype) :=
  [ (py_bool, torch.bool);
    (py_int, torch.int64);
    (py_float, torch.float64);
    (py_complex, torch.complex128) ].

Definition type_to_dtype (typ : pytype) : result torch.dtype :=
  getitem pytype_eqb _type_to_dtype_map typ.

Definition _ordered_types : list pytype :=
  [py_bool; py_int; py_float; py_complex].

Fixpoint get_higher_type_scan (types : list pytype) (a b : pytype) : result pytype :=
  match types with
  | [] => Raise (ValueError "Unknown Python scalar type!")
  | typ :: rest =>
      if pytype_eqb a typ then Ok b
      else if pytype_eqb b typ then Ok a
      else get_higher_type_scan rest a b
  end.

Definition py_assert (c : Datatypes.bool) : result unit :=
  if c then Ok tt else Raise (AssertionError "").

Definition get_higher_type (a b : pytype) : result pytype :=
  _ <- py_assert (existsb (pytype_eqb a) _ordered_types) ;;
  _ <- py_assert (existsb (pytype_eqb b) _ordered_types) ;;
  if pytype_eqb a b then Ok a
  else get_higher_type_scan _ordered_types a b.

(** *** get_higher_dtype *)

Definition _extract_dtype (x : pyobj) : result (option torch.dtype) :=
  match x with
  | PyNone => Ok None
  | PyDtype d => Ok (Some d)
  | PyTensor t => Ok (Some (dtype t))
  | PyNumber typ => d <- type_to_dtype typ ;; Ok (Some d)
  | PyStr _ => Raise (RuntimeError "Unexpected type given to _extract_dtype!")
  end.

Definition ordered_datatypes : list (list torch.dtype) :=
  [ [torch.bool];
    [torch.uint8; torch.int8];
    [torch.int16];
    [torch.int32];
    [torch.int64];
    [torch.float16; torch.bfloat16];
    [torch.float32];
    [torch.float64];
    [torch.complex32];
    [torch.complex64];
    [torch.complex128] ].

(** The loop [for idx, dtypes in enumerate(ordered_datatypes)], entered
    at position [idx] with the rows [rows] still to visit. *)
Fixpoint get_higher_dtype_scan (rows : list (list torch.dtype)) (idx : nat)
  (a b : torch.dtype) : result (option torch.dtype) :=
  match rows with
  | [] => Raise (RuntimeError "Unexpected termination!")
  | dtypes :: rest =>
      if dtype_in a dtypes && dtype_in b dtypes then
        match nth_error ordered_datatypes (idx + 1) with
        | Some (d :: _) => Ok (Some d)
        | _ => Raise IndexError
        end
      else if dtype_in a dtypes then Ok (Some b)
      else if dtype_in b dtypes then Ok (Some a)
      else get_higher_dtype_scan rest (S idx) a b
  end.

Definition accepts_dtype_like (x : pyobj) : Datatypes.bool :=
  match x with
  | PyNone | PyDtype _ | PyTensor _ | PyNumber _ => true
  | PyStr _ => false
  end.

Definition get_higher_dtype (a b : pyobj) : result (option torch.dtype) :=
  _ <- py_assert (accepts_dtype_like a) ;;
  _ <- py_assert (accepts_dtype_like b) ;;
  a' <- _extract_dtype a ;;
  b' <- _extract_dtype b ;;
  match a', b' with
  | None, None => Ok None
  | None, Some _ => Ok b'
  | Some _, None => Ok a'
  | Some da, Some db =>
      if dtype_eqb da db then Ok a'
      else get_higher_dtype_scan ordered_datatypes 0 da db
  end.

(** *** can_safe_cast_to *)

Definition category_tests : list (torch.dtype -> Datatypes.bool) :=
  [is_complex_dtype; is_float_dtype; is_integer_dtype; is_boolean_dtype].

Fixpoint can_safe_cast_to_scan (fns : list (torch.dtype -> Datatypes.bool))
  (cast_to cast_from : torch.dtype) : result Datatypes.bool :=
  match fns with
  | [] => Raise (ValueError "Received unknown dtypes {0}, {1}!")
  | fn :: rest =>
      if fn cast_to then Ok true
      else if fn cast_from then Ok false
      else can_safe_cast_to_scan rest cast_to cast_from
  end.

Definition can_safe_cast_to (cast_to cast_from : torch.dtype) : result Datatypes.bool :=
  can_safe_cast_to_scan category_tests cast_to cast_from.

(** ** Shape utilities *)

Definition canonicalize_dim (rank idx : Z) : result Z :=
  let _rank := if negb (rank =? 0)%Z then rank else 1%Z in
  if (idx >=? 0)%Z && (idx <? _rank)%Z then Ok idx
  else
    let _idx := if (idx <? 0)%Z then (idx + _rank)%Z else idx in
    if (_idx <? 0)%Z || (_idx >? _rank)%Z then
      Raise (ValueError "Received out of bounds index {0} for tensor of rank {1}!")
    else Ok _idx.

(** ** Tensor metadata comparison *)

(** The loop [for x, y in zip(a.shape, b.shape)]. *)
Fixpoint compare_shape_pairs (pairs : list (Z * Z)) : result unit :=
  match pairs with
  | [] => Ok tt
  | (x, y) :: rest =>
      if negb (x =? y)%Z then
        Raise (AssertionError "Shapes {0} and {1} are not equal!")
      else compare_shape_pairs rest
  end.

Definition compare_tensor_meta (a b : pyobj) : result unit :=
  _ <- py_assert (isinstance_TensorLike a) ;;
  _ <- py_assert (isinstance_TensorLike b) ;;
  match a, b with
  | PyTensor a, PyTensor b =>
      _ <- compare_shape_pairs (combine (shape a) (shape b)) ;;
      if negb (dtype_eqb (dtype a) (dtype b)) then
        Raise (AssertionError "Dtypes {0} and {1} are not equal!")
      else if negb (device_eqb (device a) (device b)) then
        Raise (AssertionError "Devices {0} and {1} are not equal!")
      else Ok tt
  | _, _ => Raise (AssertionError "")
  end.

(** ** Operand compatibility checks *)

Definition is_cpu_scalar_tensor (a : pyobj) : Datatypes.bool :=
  match a with
  | PyTensor t => (ndim t =? 0) && String.eqb (torch.type (device t)) "cpu"
  | _ => false
  end.

(** The loop of [check_same_device], entered with the local [device]. *)
Fixpoint check_same_device_loop (allow_cpu_scalar_tensors : Datatypes.bool)
  (device_ : option torch.device) (args : list pyobj) : result unit :=
  match args with
  | [] => Ok tt
  | arg :: rest =>
      match arg with
      | PyNumber _ => check_same_device_loop allow_cpu_scalar_tensors device_ rest
      | PyTensor t =>
          if allow_cpu_scalar_tensors && is_cpu_scalar_tensor arg then
            check_same_device_loop allow_cpu_scalar_tensors device_ rest
          else
            let device_ :=
              match device_ with None => device t | Some d => d end in
            if negb (device_eqb device_ (device t)) then
              Raise (RuntimeError "Tensor on device {0} is not on the expected device {1}!")
            else check_same_device_loop allow_cpu_scalar_tensors (Some device_) rest
      | _ =>
          Raise (RuntimeError "Unexpected type when checking for same device, {0}!")
      end
  end.

Definition check_same_device (args : list pyobj)
  (allow_cpu_scalar_tensors : Datatypes.bool) : result unit :=
  if (List.length args <=? 1) then Ok tt
  else check_same_device_loop allow_cpu_scalar_tensors None args.

(** The loop of [check_same_dtype], entered with the locals [full_dtype]
    and [scalar_type]. *)
Fixpoint check_same_dtype_loop (full_dtype : option torch.dtype)
  (scalar_type : option pytype) (args : list pyobj) : result unit :=
  match args with
  | [] => Ok tt
  | arg :: rest =>
      match arg with
      | PyNumber _ => check_same_dtype_loop full_dtype scalar_type rest
      | PyTensor t =>
          let full_dtype :=
            match full_dtype with None => dtype t | Some d => d end in
          scalar_type <-
            match scalar_type with
            | None => dtype_to_type (dtype t)
            | Some k => Ok k
            end ;;
          if negb (dtype_eqb full_dtype (dtype t)) then
            Raise (RuntimeError "Tensor with dtype {0} is not the expected dtype of {1}!")
          else
            arg_type <- dtype_to_type (dtype t) ;;
            if negb (pytype_eqb arg_type scalar_type) then
              Raise (RuntimeError
                "Tensor with corresponding Python type {0} is not the expected type of {1}!")
            else check_same_dtype_loop (Some full_dtype) (Some scalar_type) rest
      | _ =>
          Raise (RuntimeError "Unexpected type when checking for same dtype, {0}!")
      end
  end.

Definition check_same_dtype (args : list pyobj) : result unit :=
  check_same_dtype_loop None None args.

(** ** Elementwise type promotion *)

Definition _computation_dtype_map : list (torch.dtype * torch.dtype) :=
  [ (torch.bfloat16, torch.float32);
    (torch.float16, torch.float32);
    (torch.complex32, torch.complex64) ].

(** [_computation_dtype_map.get(dtype, dtype)] *)
Definition _get_computation_dtype (dtype : torch.dtype) : torch.dtype :=
  match getitem dtype_eqb _computation_dtype_map dtype with
  | Ok d => d
  | Raise _ => dtype
  end.

Inductive ELEMENTWISE_TYPE_PROMOTION_KIND : Type :=
| DEFAULT
| INT_TO_FLOAT
| ALWAYS_BOOL
| OP_MATH
| COMPLEX_TO_FLOAT
| BOOL_TO_LONG.

(** Step 1: the loop that folds [get_higher_type] over the operands. *)
Fixpoint highest_type_loop (highest_type : pytype) (args : list pyobj)
  : result pytype :=
  match args with
  | [] => Ok highest_type
  | x :: rest =>
      match x with
      | PyNumber typ =>
          h <- get_higher_type highest_type typ ;;
          highest_type_loop h rest
      | PyTensor t =>
          k <- dtype_to_type (dtype t) ;;
          h <- get_higher_type highest_type k ;;
          highest_type_loop h rest
      | _ =>
          Raise (ValueError
            "Unexpected type {0} when computing elementwise type promotion!")
      end
  end.

Definition optional_dtype (d : option torch.dtype) : pyobj :=
  match d with
  | None => PyNone
  | Some d => PyDtype d
  end.

(** The loop of [_find_highest_dtype_filtered], entered with the locals
    [zero_dim_tensor_dtype] and [one_plus_dim_tensor_dtype]. *)
Fixpoint _find_highest_dtype_filtered_loop
  (filter : torch.dtype -> Datatypes.bool)
  (float_as_complex all_tensors_equal : Datatypes.bool)
  (zero_dim_tensor_dtype one_plus_dim_tensor_dtype : option torch.dtype)
  (args : list pyobj) : result (option torch.dtype * option torch.dtype) :=
  match args with
  | [] => Ok (zero_dim_tensor_dtype, one_plus_dim_tensor_dtype)
  | x :: rest =>
      match x with
      | PyTensor t =>
          if filter (dtype t) then
            _dtype <-
              (if float_as_complex && is_float_dtype (dtype t)
               then corresponding_complex_dtype (dtype t)
               else Ok (dtype t)) ;;
            if (ndim t =? 0) && negb all_tensors_equal then
              z <- get_higher_dtype (optional_dtype zero_dim_tensor_dtype)
                     (PyDtype _dtype) ;;
              _find_highest_dtype_filtered_loop filter float_as_complex
                all_tensors_equal z one_plus_dim_tensor_dtype rest
            else
              o <- get_higher_dtype (optional_dtype one_plus_dim_tensor_dtype)
                     (PyDtype _dtype) ;;
              _find_highest_dtype_filtered_loop filter float_as_complex
                all_tensors_equal zero_dim_tensor_dtype o rest
          else
            _find_highest_dtype_filtered_loop filter float_as_complex
              all_tensors_equal zero_dim_tensor_dtype one_plus_dim_tensor_dtype rest
      | _ =>
          _find_highest_dtype_filtered_loop filter float_as_complex
            all_tensors_equal zero_dim_tensor_dtype one_plus_dim_tensor_dtype rest
      end
  end.

Definition _find_highest_dtype_filtered (args : list pyobj)
  (filter : torch.dtype -> Datatypes.bool)
  (float_as_complex all_tensors_equal : Datatypes.bool)
  : result (option torch.dtype) :=
  p <- _find_highest_dtype_filtered_loop filter float_as_complex
         all_tensors_equal None None args ;;
  match snd p with
  | Some d => Ok (Some d)
  | None => Ok (fst p)
  end.

(** The loop that sets [has_one_plus_dim_complex_tensor]. *)
Definition has_one_plus_dim_complex_tensor (args : list pyobj) : Datatypes.bool :=
  existsb (fun x =>
    match x with
    | PyTensor t => (0 <? ndim t) && is_complex_dtype (dtype t)
    | _ => false
    end) args.

Definition float_or_complex (x : torch.dtype) : Datatypes.bool :=
  is_float_dtype x || is_complex_dtype x.

Definition or_else (d : option torch.dtype) (default : torch.dtype) : torch.dtype :=
  match d with
  | None => default
  | Some d => d
  end.

(** Steps 1 and 2 of [elementwise_dtypes]: the value of [result_dtype]
    when the function reaches the dispatch on [type_promotion_kind]. *)
Definition elementwise_result_dtype (st : torch_state) (_args : list pyobj)
  : result torch.dtype :=
  let args := List.filter (fun x => negb (is_None x)) _args in
  highest_type <- highest_type_loop py_bool args ;;
  match highest_type with
  | py_float =>
      result_dtype <- _find_highest_dtype_filtered args is_float_dtype false false ;;
      Ok (or_else result_dtype (get_default_dtype st))
  | py_complex =>
      result_dtype <-
        (if has_one_plus_dim_complex_tensor args then
           _find_highest_dtype_filtered args float_or_complex true false
         else
           _find_highest_dtype_filtered args float_or_complex true true) ;;
      match result_dtype with
      | None => corresponding_complex_dtype (get_default_dtype st)
      | Some d => Ok d
      end
  | py_int =>
      result_dtype <- _find_highest_dtype_filtered args is_integer_dtype false false ;;
      Ok (or_else result_dtype torch.long)
  | py_bool => Ok torch.bool
  end.

(** Step 3 of [elementwise_dtypes]: the dispatch on [type_promotion_kind]. *)
Definition apply_type_promotion_kind (st : torch_state)
  (type_promotion_kind : ELEMENTWISE_TYPE_PROMOTION_KIND)
  (result_dtype : torch.dtype) : result (torch.dtype * torch.dtype) :=
  match type_promotion_kind with
  | DEFAULT => Ok (result_dtype, result_dtype)
  | OP_MATH => Ok (_get_computation_dtype result_dtype, result_dtype)
  | INT_TO_FLOAT =>
      let result_dtype :=
        if is_integer_dtype result_dtype || is_boolean_dtype result_dtype
        then get_default_dtype st else result_dtype in
      Ok (_get_computation_dtype result_dtype, result_dtype)
  | COMPLEX_TO_FLOAT =>
      if is_complex_dtype result_dtype then
        r <- corresponding_real_dtype result_dtype ;;
        Ok (_get_computation_dtype result_dtype, r)
      else Ok (_get_computation_dtype result_dtype, result_dtype)
  | BOOL_TO_LONG =>
      if is_boolean_dtype result_dtype then Ok (torch.long, torch.long)
      else Ok (result_dtype, result_dtype)
  | ALWAYS_BOOL => Ok (result_dtype, torch.bool)
  end.

Definition elementwise_dtypes (st : torch_state) (_args : list pyobj)
  (type_promotion_kind : ELEMENTWISE_TYPE_PROMOTION_KIND)
  : result (torch.dtype * torch.dtype) :=
  result_dtype <- elementwise_result_dtype st _args ;;
  apply_type_promotion_kind st type_promotion_kind result_dtype.

(** ** The other helpers of the module *)

(** [len(x)] as a Python int. *)
Definition len {A : Type} (l : list A) : Z := Z.of_nat (List.length l).

(** [range(start, stop)] *)
Definition range (start stop : Z) : list Z :=
  map (fun i => (start + Z.of_nat i)%Z) (seq 0 (Z.to_nat (stop - start))).

(** [tuple(f(x) for x in xs)] for an [f] that can raise. *)
Fixpoint map_raising {A B : Type} (f : A -> result B) (xs : list A)
  : result (list B) :=
  match xs with
  | [] => Ok []
  | x :: rest =>
      y <- f x ;;
      ys <- map_raising f rest ;;
      Ok (y :: ys)
  end.

(** [for x in xs: f(x)] for an [f] that can raise. *)
Fixpoint for_each {A : Type} (f : A -> result unit) (xs : list A) : result unit :=
  match xs with
  | [] => Ok tt
  | x :: rest => _ <- f x ;; for_each f rest
  end.

Definition validate_dim_length (length : Z) : result unit :=
  py_assert (length >=? 0)%Z.

Definition validate_shape (shape : list Z) : result unit :=
  for_each validate_dim_length shape.

Definition validate_idx (shape : list Z) (idx : Z) : result unit :=
  let ndim := if negb (len shape =? 0)%Z then len shape else 1%Z in
  py_assert ((idx >=? 0)%Z && (idx <? ndim)%Z).

Definition validate_exclusive_idx (shape : list Z) (ex_idx : Z) : result unit :=
  py_assert ((ex_idx >? 0)%Z && (ex_idx <=? len shape)%Z).

(** [DimsType]: one int or a sequence of ints. *)
Inductive DimsType : Type :=
| DimsInt (idx : Z)
| DimsSeq (indices : list Z).

Definition canonicalize_dims (rank : Z) (indices : DimsType) : result DimsType :=
  match indices with
  | DimsInt idx => i <- canonicalize_dim rank idx ;; Ok (DimsInt i)
  | DimsSeq xs => ys <- map_raising (canonicalize_dim rank) xs ;; Ok (DimsSeq ys)
  end.

(** [sorted(xs)] on ints: the ascending rearrangement of [xs]. *)
Fixpoint insert_ascending (x : Z) (l : list Z) : list Z :=
  match l with
  | [] => [x]
  | y :: l' => if (x <=? y)%Z then x :: l else y :: insert_ascending x l'
  end.

Definition sorted (xs : list Z) : list Z :=
  fold_right insert_ascending [] xs.

Definition ints_eqb (a b : list Z) : Datatypes.bool :=
  if list_eq_dec Z.eq_dec a b then true else false.

Definition is_valid_permutation (rank : Z) (perm : list Z) : Datatypes.bool :=
  if negb (ints_eqb (sorted perm) (range 0 rank)) then false
  else true.

Definition is_same_shape (a b : list Z) : Datatypes.bool :=
  ints_eqb a b.

(** The loop of [check_same_shape], entered with the local [shape]. *)
Fixpoint check_same_shape_loop (allow_cpu_scalar_tensors : Datatypes.bool)
  (shape_ : option (list Z)) (args : list pyobj) : result unit :=
  match args with
  | [] => Ok tt
  | arg :: rest =>
      match arg with
      | PyNumber _ => check_same_shape_loop allow_cpu_scalar_tensors shape_ rest
      | PyTensor t =>
          if allow_cpu_scalar_tensors && is_cpu_scalar_tensor arg then
            check_same_shape_loop allow_cpu_scalar_tensors shape_ rest
          else
            let shape_ :=
              match shape_ with None => shape t | Some s => s end in
            if negb (is_same_shape shape_ (shape t)) then
              Raise (RuntimeError "Shape {0} is not the expected shape {1}!")
            else check_same_shape_loop allow_cpu_scalar_tensors (Some shape_) rest
      | _ =>
          Raise (RuntimeError "Unexpected type when checking for same shape, {0}!")
      end
  end.

Definition check_same_shape (args : list pyobj)
  (allow_cpu_scalar_tensors : Datatypes.bool) : result unit :=
  check_same_shape_loop allow_cpu_scalar_tensors None args.

Fixpoint is_weakly_lesser_type_scan (types : list pytype) (a b : pytype)
  : result Datatypes.bool :=
  match types with
  | [] => Raise (RuntimeError "Unexpected termination!")
  | typ :: rest =>
      if pytype_eqb a typ then Ok true
      else if pytype_eqb b typ then Ok false
      else is_weakly_lesser_type_scan rest a b
  end.

Definition is_weakly_lesser_type (a b : pytype) : result Datatypes.bool :=
  let ordered_types := [py_bool; py_int; py_float; py_complex] in
  _ <- py_assert (existsb (pytype_eqb a) ordered_types) ;;
  _ <- py_assert (existsb (pytype_eqb b) ordered_types) ;;
  is_weakly_lesser_type_scan ordered_types a b.





(** The loop of [make_contiguous_strides_for] over [reversed(shape[1:])],
    entered with the locals [multiplier] and [strides]. *)
Fixpoint make_contiguous_strides_loop (lengths : list Z) (multiplier : Z)
  (strides : list Z) : list Z :=
  match lengths with
  | [] => strides
  | l :: rest =>
      let multiplier := (l * multiplier)%Z in
      make_contiguous_strides_loop rest multiplier (strides ++ [multiplier])
  end.

Definition make_contiguous_strides_for (shape : list Z) : result (list Z) :=
  _ <- validate_shape shape ;;
  match shape with
  | [] => Ok []
  | _ :: tail =>
      let multiplier := 1%Z in
      Ok (rev (make_contiguous_strides_loop (rev tail) multiplier [multiplier]))
  end.

(** The second loop of [compute_reduction_output_shape], over
    [range(len(shape))]. *)
Fixpoint reduction_output_loop (shape : list Z) (dimensions : list Z)
  (idxs : list Z) (new_shape : list Z) : list Z :=
  match idxs with
  | [] => new_shape
  | idx :: rest =>
      if existsb (Z.eqb idx) dimensions then
        reduction_output_loop shape dimensions rest new_shape
      else
        reduction_output_loop shape dimensions rest
          (new_shape ++ [nth (Z.to_nat idx) shape 0%Z])
  end.

Definition compute_reduction_output_shape (shape : list Z) (dimensions : list Z)
  : result (list Z) :=
  _ <- for_each (validate_idx shape) dimensions ;;
  Ok (reduction_output_loop shape dimensions (range 0 (len shape)) []).

Definition reduction_dims (shape : list Z) (dims : option (list Z))
  : result (list Z) :=
  match dims with
  | None => Ok (range 0 (len shape))
  | Some dims =>
      dims <- map_raising (canonicalize_dim (len shape)) dims ;;
      if negb (len dims =? len (nodup Z.eq_dec dims))%Z then
        Raise (RuntimeError "duplicate value in the list of dims")
      else Ok dims
  end.

(** ** Notions the properties are stated with *)

(** The order [bool < int < float < complex] of the number types. *)
Definition kind_rank (k : pytype) : nat :=
  match k with
  | py_bool => 0
  | py_int => 1
  | py_float => 2
  | py_complex => 3
  end.

(** Position of the first test of [fns] that [d] passes. *)
Fixpoint first_match (fns : list (torch.dtype -> Datatypes.bool)) (d : torch.dtype)
  : option nat :=
  match fns with
  | [] => None
  | fn :: rest =>
      if fn d then Some 0
      else option_map S (first_match rest d)
  end.

(** Position of the bucket of [rows] that holds [d]. *)
Fixpoint bucket_in (rows : list (list torch.dtype)) (d : torch.dtype) : option nat :=
  match rows with
  | [] => None
  | dtypes :: rest =>
      if dtype_in d dtypes then Some 0
      else option_map S (bucket_in rest d)
  end.

Definition bucket_of (d : torch.dtype) : option nat :=
  bucket_in ordered_datatypes d.

(** [isinstance(x, (Number, TensorLike))] *)
Definition is_operand (x : pyobj) : Datatypes.bool :=
  isinstance_Number x || isinstance_TensorLike x.

Definition tensors_of (args : list pyobj) : list TensorLike :=
  flat_map (fun x => match x with PyTensor t => [t] | _ => [] end) args.

(** The default complex dtype of a configuration, as line 819 of the
    module computes it. *)
Definition default_complex_dtype (st : torch_state) : result torch.dtype :=
  corresponding_complex_dtype (get_default_dtype st).

(** The arguments [check_same_device] passes over without looking at their
    device. *)
Definition device_exempt (allow_cpu_scalar_tensors : Datatypes.bool) (x : pyobj)
  : Datatypes.bool :=
  isinstance_Number x || (allow_cpu_scalar_tensors && is_cpu_scalar_tensor x).

(** The devices of the tensors that are not exempt, in argument order. *)
Definition checked_devices (allow_cpu_scalar_tensors : Datatypes.bool)
  (args : list pyobj) : list torch.device :=
  map device
    (tensors_of
       (List.filter (fun x => negb (device_exempt allow_cpu_scalar_tensors x)) args)).

(** The complex dtype a float or complex dtype is compared as. *)
Definition as_complex (d : torch.dtype) : torch.dtype :=
  match d with
  | torch.float16 => torch.complex32
  | torch.bfloat16 => torch.complex64
  | torch.float32 => torch.complex64
  | torch.float64 => torch.complex128
  | _ => d
  end.

Definition bucket_index (d : torch.dtype) : nat :=
  match bucket_of d with
  | Some i => i
  | None => List.length ordered_datatypes
  end.

(** The running "highest dtype so far" after seeing [d]. *)
Definition track_highest (acc : option torch.dtype) (d : torch.dtype)
  : option torch.dtype :=
  match acc with
  | None => Some d
  | Some a => Some (if bucket_index a <? bucket_index d then d else a)
  end.

Definition highest_of (ds : list torch.dtype) : option torch.dtype :=
  fold_left track_highest ds None.

(** The scan of the complex branch in the words of the specification: the
    tensors of float or complex dtype, float dtypes taken as their complex
    dtype, the highest among those of rank > 0 if there is one and else the
    highest among those of rank 0; with [ignore_rank] every such tensor
    counts as of rank > 0. *)
Definition spec_complex_scan (ignore_rank : Datatypes.bool) (args : list pyobj)
  : option torch.dtype :=
  let matching := List.filter (fun t => float_or_complex (dtype t)) (tensors_of args) in
  let ranked := List.filter (fun t => ignore_rank || (0 <? ndim t)) matching in
  let unranked := List.filter (fun t => negb (ignore_rank || (0 <? ndim t))) matching in
  match highest_of (map (fun t => as_complex (dtype t)) ranked) with
  | Some d => Some d
  | None => highest_of (map (fun t => as_complex (dtype t)) unranked)
  end.

(** The running values of the scan are absent or complex dtypes. *)
Definition complex_or_none (acc : option torch.dtype) : Datatypes.bool :=
  match acc with
  | None => true
  | Some a => is_complex_dtype a
  end.

(** The tensors the scan puts in the "one or more dimensions" group. *)
Definition counts_as_ranked (all_tensors_equal : Datatypes.bool) (t : TensorLike)
  : Datatypes.bool :=
  all_tensors_equal || (0 <? ndim t).

(** The dtypes the scan compares, of the tensors [keep] selects. *)
Definition compared_dtypes (keep : TensorLike -> Datatypes.bool) (args : list pyobj)
  : list torch.dtype :=
  map (fun t => as_complex (dtype t))
    (List.filter keep
       (List.filter (fun t => float_or_complex (dtype t)) (tensors_of args))).

(** The computation dtype as the table of the specification gives it. *)
Definition computation_mapped (d : torch.dtype) : torch.dtype :=
  match d with
  | torch.float16 => torch.float32
  | torch.bfloat16 => torch.float32
  | torch.complex32 => torch.complex64
  | _ => d
  end.

(** Some argument is neither a number nor a tensor. *)
Definition has_foreign_argument (args : list pyobj) : Prop :=
  exists x, In x args /\ is_operand x = false.

(** Some checked tensor after the first is on another device than the
    first checked tensor. *)
Definition has_device_mismatch (allow_cpu_scalar_tensors : Datatypes.bool)
  (args : list pyobj) : Prop :=
  exists d0 ds d,
    checked_devices allow_cpu_scalar_tensors args = d0 :: ds /\
    In d ds /\ d <> d0.

(** Some tensor after the first has another dtype than the first tensor. *)
Definition has_dtype_mismatch (args : list pyobj) : Prop :=
  exists t0 ts t,
    tensors_of args = t0 :: ts /\ In t ts /\ dtype t <> dtype t0.

(** Some tensor after the first has another number type than the first. *)
Definition has_kind_mismatch (args : list pyobj) : Prop :=
  exists t0 ts t,
    tensors_of args = t0 :: ts /\ In t ts /\
    dtype_to_type (dtype t) <> dtype_to_type (dtype t0).

(** Some tensor has a dtype [dtype_to_type] refuses. *)
Definition has_invalid_dtype (args : list pyobj) : Prop :=
  exists t, In t (tensors_of args) /\ raises (dtype_to_type (dtype t)).

(** Example values used below. *)
Definition float32_default : torch_state := mk_state torch.float32.

Definition tensor_of (shape : list Z) (dtype : torch.dtype) : TensorLike :=
  mk_tensor shape [] dtype cpu.

Definition cuda0 : torch.device := torch.mk_device "cuda" (Some 0%Z).

Definition tensor_on (d : torch.device) (shape : list Z) (dtype : torch.dtype)
  : TensorLike :=
  mk_tensor shape [] dtype d.

(** The dtypes that have a number type. *)
Definition listed (d : torch.dtype) : Datatypes.bool :=
  is_ok (dtype_to_type d).

(** The shapes of the tensors [check_same_shape] looks at, in argument
    order. *)
Definition checked_shapes (allow_cpu_scalar_tensors : Datatypes.bool)
  (args : list pyobj) : list (list Z) :=
  map shape
    (tensors_of
       (List.filter (fun x => negb (device_exempt allow_cpu_scalar_tensors x)) args)).

(** Some checked tensor after the first has another shape than the first
    checked tensor. *)
Definition has_shape_mismatch (allow_cpu_scalar_tensors : Datatypes.bool)
  (args : list pyobj) : Prop :=
  exists s0 ss s,
    checked_shapes allow_cpu_scalar_tensors args = s0 :: ss /\
    In s ss /\ s <> s0.

(** A tensor with other strides. *)
Definition with_strides (t : TensorLike) (strides : list Z) : TensorLike :=
  mk_tensor (shape t) strides (dtype t) (device t).

(** The product of a list of lengths. *)
Definition product (ls : list Z) : Z := fold_right Z.mul 1%Z ls.

(** For each position, the product of the lengths to its right. *)
Fixpoint suffix_products (ls : list Z) : list Z :=
  match ls with
  | [] => []
  | _ :: rest => product rest :: suffix_products rest
  end.

(** The entries of [shape] at the positions that are not in [dimensions]. *)
Definition kept_lengths (shape dimensions : list Z) : list Z :=
  map (fun i => nth (Z.to_nat i) shape 0%Z)
    (List.filter (fun i => negb (existsb (Z.eqb i) dimensions))
       (range 0 (len shape))).

(** The operands [elementwise_dtypes] takes part in promotion: numbers, and
    tensors whose dtype has a number type. *)
Definition promotable (x : pyobj) : Datatypes.bool :=
  match x with
  | PyNumber _ => true
  | PyTensor t => listed (dtype t)
  | _ => false
  end.

(** The number type of an operand. *)
Definition kind_of (x : pyobj) : pytype :=
  match x with
  | PyNumber typ => typ
  | PyTensor t =>
      match dtype_to_type (dtype t) with
      | Ok k => k
      | Raise _ => py_bool
      end
  | _ => py_bool
  end.

Definition max_kind (a b : pytype) : pytype :=
  if kind_rank a <? kind_rank b then b else a.

(** An optional dtype that is absent or in the class [P]. *)
Definition absent_or (P : torch.dtype -> Datatypes.bool) (x : option torch.dtype)
  : Datatypes.bool :=
  match x with
  | None => true
  | Some d => P d
  end.

(** One step of tracking the highest dtype with [get_higher_dtype]. *)
Definition higher_of (acc : option torch.dtype) (d : torch.dtype)
  : option torch.dtype :=
  match get_higher_dtype (optional_dtype acc) (PyDtype d) with
  | Ok r => r
  | Raise _ => acc
  end.

(** The highest dtype of a list, in the sense of [get_higher_dtype]. *)
Definition highest_dtype (ds : list torch.dtype) : option torch.dtype :=
  fold_left higher_of ds None.

(** The dtype a scan compares a tensor dtype as. *)
Definition scan_view (float_as_complex : Datatypes.bool) (d : torch.dtype)
  : torch.dtype :=
  if float_as_complex then as_complex d else d.

(** The dtypes a scan compares: of the tensors whose dtype passes [filter]
    and that [keep] selects, in operand order. *)
Definition scanned_dtypes (filter : torch.dtype -> Datatypes.bool)
  (float_as_complex : Datatypes.bool) (keep : TensorLike -> Datatypes.bool)
  (args : list pyobj) : list torch.dtype :=
  map (fun t => scan_view float_as_complex (dtype t))
    (List.filter keep
       (List.filter (fun t => filter (dtype t)) (tensors_of args))).

(** The result of a scan that prefers the tensors with dimensions. *)
Definition preferred_highest (filter : torch.dtype -> Datatypes.bool)
  (float_as_complex all_tensors_equal : Datatypes.bool) (args : list pyobj)
  : option torch.dtype :=
  match highest_dtype
          (scanned_dtypes filter float_as_complex
             (counts_as_ranked all_tensors_equal) args) with
  | Some d => Some d
  | None =>
      highest_dtype
        (scanned_dtypes filter float_as_complex
           (fun t => negb (counts_as_ranked all_tensors_equal t)) args)
  end.

Definition not_None (x : pyobj) : Datatypes.bool := negb (is_None x).

(** The dtypes passing [filter] of the tensors with one or more
    dimensions, and of the tensors with none. *)
Definition dims_dtypes (filter : torch.dtype -> Datatypes.bool) (args : list pyobj)
  : list torch.dtype :=
  scanned_dtypes filter false (counts_as_ranked false) args.

Definition scalar_dtypes (filter : torch.dtype -> Datatypes.bool) (args : list pyobj)
  : list torch.dtype :=
  scanned_dtypes filter false (fun t => negb (counts_as_ranked false t)) args.

(** * Properties *)

Ltac by_cases_on d := destruct d; vm_compute; try reflexivity; try discriminate.

Lemma dtype_eqb_eq (a b : torch.dtype) : dtype_eqb a b = true <-> a = b.
Proof.
  unfold dtype_eqb. destruct (dtype_eq_dec a b); split; congruence.
Qed.

Lemma dtype_eqb_refl (a : torch.dtype) : dtype_eqb a a = true.
Proof. apply dtype_eqb_eq. reflexivity. Qed.

Lemma device_eqb_eq (a b : torch.device) : device_eqb a b = true <-> a = b.
Proof.
  unfold device_eqb. destruct (device_eq_dec a b); split; congruence.
Qed.

Lemma device_eqb_refl (a : torch.device) : device_eqb a a = true.
Proof. apply device_eqb_eq. reflexivity. Qed.

Lemma pytype_eqb_eq (a b : pytype) : pytype_eqb a b = true <-> a = b.
Proof.
  unfold pytype_eqb. destruct (pytype_eq_dec a b); split; congruence.
Qed.

Lemma raises_Raise {A : Type} (e : exception) : raises (@Raise A e).
Proof. exists e. reflexivity. Qed.

Lemma not_raises_Ok {A : Type} (a : A) : ~ raises (Ok a).
Proof. intros [e H]. discriminate H. Qed.

Lemma raises_or_ok (m : result unit) : raises m <-> m <> Ok tt.
Proof.
  destruct m as [[]|e]; split; intro H.
  - destruct H as [e H]. discriminate H.
  - congruence.
  - discriminate.
  - apply raises_Raise.
Qed.

Create HintDb py.
#[local] Hint Resolve raises_Raise not_raises_Ok : py.

(** ** Dtype classification *)

Section Classification.

(** Every dtype [dtype_to_type] accepts passes exactly one of the four
    category tests. *)
Lemma one_category (d : torch.dtype) (k : pytype) :
  dtype_to_type d = Ok k ->
  (is_boolean_dtype d, is_integer_dtype d, is_float_dtype d, is_complex_dtype d)
  = (pytype_eqb k py_bool, pytype_eqb k py_int,
     pytype_eqb k py_float, pytype_eqb k py_complex).
Proof.
  destruct d; vm_compute; intro H; inversion H; reflexivity.
Qed.

(** C2, as the code has it: [type_to_dtype] reads a fixed table, bool to the
    boolean dtype, int to int64, float to float64 and complex to complex128,
    whatever the process-wide default dtype is; its float and complex
    entries agree with the default float dtype and with the complex dtype of
    the default float dtype exactly when that default is float64. *)
Theorem type_to_dtype_fixed_table (st : torch_state) :
  type_to_dtype py_bool = Ok torch.bool /\
  type_to_dtype py_int = Ok torch.int64 /\
  type_to_dtype py_float = Ok torch.float64 /\
  type_to_dtype py_complex = Ok torch.complex128 /\
  (type_to_dtype py_float = Ok (get_default_dtype st)
     <-> get_default_dtype st = torch.float64) /\
  (type_to_dtype py_complex = default_complex_dtype st
     <-> get_default_dtype st = torch.float64).
Proof.
  repeat split; try reflexivity.
  - intro H. change (Ok torch.float64 = Ok (get_default_dtype st)) in H.
    congruence.
  - intro H. rewrite H. reflexivity.
  - unfold default_complex_dtype. destruct (get_default_dtype st);
      vm_compute; intro H; try discriminate H; reflexivity.
  - intro H. unfold default_complex_dtype. rewrite H. reflexivity.
Qed.

(** C2 as stated fails: with the default float dtype set to float32 (and so
    the default complex dtype complex64), [type_to_dtype] still gives
    float64 for float and complex128 for complex. *)
Lemma type_to_dtype_ignores_default :
  get_default_dtype float32_default = torch.float32 /\
  default_complex_dtype float32_default = Ok torch.complex64 /\
  type_to_dtype py_float <> Ok (get_default_dtype float32_default) /\
  type_to_dtype py_complex <> default_complex_dtype float32_default.
Proof.
  repeat split; vm_compute; discriminate.
Qed.

(** C8: taking the real dtype of a complex dtype and then the complex dtype
    of the result gives the complex dtype back, for complex32, complex64
    and complex128. *)
Theorem complex_real_complex_roundtrip (c : torch.dtype) :
  In c _complex_dtypes ->
  (r <- corresponding_real_dtype c ;; corresponding_complex_dtype r) = Ok c.
Proof.
  unfold _complex_dtypes. simpl.
  intros [<- | [<- | [<- | []]]]; reflexivity.
Qed.

Lemma complex_real_complex_roundtrip_witness :
  In torch.complex64 _complex_dtypes /\
  (r <- corresponding_real_dtype torch.complex64 ;; corresponding_complex_dtype r)
  = Ok torch.complex64.
Proof.
  split.
  - simpl. auto.
  - apply (complex_real_complex_roundtrip torch.complex64). simpl. auto.
Defined.

(** The other direction does not round-trip at bfloat16. *)
Example real_complex_real_bfloat16 :
  (c <- corresponding_complex_dtype torch.bfloat16 ;; corresponding_real_dtype c)
  = Ok torch.float32.
Proof. reflexivity. Qed.

(** The scan of [can_safe_cast_to] compares the positions at which the two
    dtypes are first matched. *)
Lemma can_safe_cast_to_scan_positions
  (fns : list (torch.dtype -> Datatypes.bool)) (cast_to cast_from : torch.dtype)
  (i j : nat) :
  first_match fns cast_to = Some i ->
  first_match fns cast_from = Some j ->
  can_safe_cast_to_scan fns cast_to cast_from = Ok (i <=? j).
Proof.
  revert i j. induction fns as [|fn rest IH]; intros i j Hi Hj; simpl in *.
  - discriminate Hi.
  - destruct (fn cast_to) eqn:Eto.
    + inversion Hi; subst. reflexivity.
    + destruct (fn cast_from) eqn:Efrom.
      * inversion Hj; subst.
        destruct (first_match rest cast_to); simpl in Hi; inversion Hi.
        reflexivity.
      * destruct (first_match rest cast_to) as [i'|]; simpl in Hi; inversion Hi.
        destruct (first_match rest cast_from) as [j'|]; simpl in Hj; inversion Hj.
        subst. apply (IH i' j'); reflexivity.
Qed.

Lemma first_match_category (d : torch.dtype) (k : pytype) :
  dtype_to_type d = Ok k ->
  first_match category_tests d = Some (3 - kind_rank k).
Proof.
  destruct d; vm_compute; intro H; inversion H; reflexivity.
Qed.

(** C7: for dtypes that have a category, [can_safe_cast_to] walks the tests
    complex, float, integer, boolean, asking [cast_to] before [cast_from],
    and answers whether [cast_to] is matched first; that is, it is false
    exactly when the category of [cast_from] is strictly higher than the
    category of [cast_to] in bool < int < float < complex. *)
Theorem can_safe_cast_to_by_category
  (cast_to cast_from : torch.dtype) (k_to k_from : pytype) :
  dtype_to_type cast_to = Ok k_to ->
  dtype_to_type cast_from = Ok k_from ->
  category_tests = [is_complex_dtype; is_float_dtype; is_integer_dtype; is_boolean_dtype] /\
  (exists i j,
      first_match category_tests cast_to = Some i /\
      first_match category_tests cast_from = Some j /\
      can_safe_cast_to cast_to cast_from = Ok (i <=? j)) /\
  can_safe_cast_to cast_to cast_from
  = Ok (negb (kind_rank k_to <? kind_rank k_from)).
Proof.
  intros Hto Hfrom.
  pose proof (first_match_category _ _ Hto) as Pto.
  pose proof (first_match_category _ _ Hfrom) as Pfrom.
  pose proof (can_safe_cast_to_scan_positions _ _ _ _ _ Pto Pfrom) as Hscan.
  split; [reflexivity|]. split.
  - exists (3 - kind_rank k_to), (3 - kind_rank k_from). auto.
  - unfold can_safe_cast_to. rewrite Hscan.
    destruct k_to, k_from; reflexivity.
Qed.

Lemma can_safe_cast_to_by_category_witness :
  can_safe_cast_to torch.int32 torch.float16 = Ok false /\
  can_safe_cast_to torch.float16 torch.int32 = Ok true.
Proof.
  split.
  - exact (proj2 (proj2 (can_safe_cast_to_by_category
             torch.int32 torch.float16 py_int py_float eq_refl eq_refl))).
  - exact (proj2 (proj2 (can_safe_cast_to_by_category
             torch.float16 torch.int32 py_float py_int eq_refl eq_refl))).
Defined.

End Classification.

(** ** get_higher_dtype *)

Section HigherDtype.

Lemma extract_accepts (x : pyobj) (d : option torch.dtype) :
  _extract_dtype x = Ok d -> accepts_dtype_like x = true.
Proof. destruct x; simpl; intro H; try reflexivity. discriminate H. Qed.

Lemma accepts_extract (x : pyobj) :
  accepts_dtype_like x = true -> exists d, _extract_dtype x = Ok d.
Proof.
  destruct x as [|k|t|d|s]; simpl; intro H; try discriminate H; eauto.
  destruct k; eexists; reflexivity.
Qed.

Lemma get_higher_dtype_extracted (a b : pyobj) (d1 d2 : torch.dtype) :
  _extract_dtype a = Ok (Some d1) ->
  _extract_dtype b = Ok (Some d2) ->
  get_higher_dtype a b
  = if dtype_eqb d1 d2 then Ok (Some d1)
    else get_higher_dtype_scan ordered_datatypes 0 d1 d2.
Proof.
  intros Ha Hb. unfold get_higher_dtype.
  rewrite (extract_accepts _ _ Ha), (extract_accepts _ _ Hb), Ha, Hb.
  reflexivity.
Qed.

Ltac read_buckets :=
  repeat match goal with
         | H : bucket_of _ = Some _ |- _ =>
             vm_compute in H; inversion H; clear H; subst
         end.

Lemma get_higher_dtype_scan_same_bucket (d1 d2 : torch.dtype) (i : nat) :
  bucket_of d1 = Some i -> bucket_of d2 = Some i -> d1 <> d2 ->
  exists d rest,
    nth_error ordered_datatypes (i + 1) = Some (d :: rest) /\
    get_higher_dtype_scan ordered_datatypes 0 d1 d2 = Ok (Some d).
Proof.
  intros H1 H2 Hne.
  destruct d1, d2; read_buckets; try congruence;
    eexists; eexists; split; reflexivity.
Qed.

Lemma get_higher_dtype_scan_ordered (d1 d2 : torch.dtype) (i j : nat) :
  bucket_of d1 = Some i -> bucket_of d2 = Some j ->
  (i < j -> get_higher_dtype_scan ordered_datatypes 0 d1 d2 = Ok (Some d2)) /\
  (j < i -> get_higher_dtype_scan ordered_datatypes 0 d1 d2 = Ok (Some d1)).
Proof.
  intros H1 H2.
  destruct d1, d2; read_buckets; split; intro Hlt;
    solve [ reflexivity | exfalso; lia ].
Qed.

(** C4, as the code has it: on two inputs that are a dtype, a tensor or a
    number, with extracted dtypes [d1] and [d2], [get_higher_dtype] returns
    [d1] when they are equal; when both lie in the order of the eleven
    buckets and differ, the first dtype of the next bucket if they lie in
    one bucket, and otherwise the one that lies in the higher bucket.  With
    one side [None] it returns the extracted dtype of the other side, and
    [None] when both are.  So uint8 with int8 gives int16 and float16 with
    bfloat16 gives float32. *)
Theorem get_higher_dtype_by_bucket :
  (forall (a b : pyobj) (d1 d2 : torch.dtype),
      _extract_dtype a = Ok (Some d1) ->
      _extract_dtype b = Ok (Some d2) ->
      (d1 = d2 -> get_higher_dtype a b = Ok (Some d1)) /\
      (forall i, bucket_of d1 = Some i -> bucket_of d2 = Some i -> d1 <> d2 ->
         exists d rest,
           nth_error ordered_datatypes (i + 1) = Some (d :: rest) /\
           get_higher_dtype a b = Ok (Some d)) /\
      (forall i j, bucket_of d1 = Some i -> bucket_of d2 = Some j -> i < j ->
         get_higher_dtype a b = Ok (Some d2)) /\
      (forall i j, bucket_of d1 = Some i -> bucket_of d2 = Some j -> j < i ->
         get_higher_dtype a b = Ok (Some d1))) /\
  (forall (x : pyobj), accepts_dtype_like x = true ->
      get_higher_dtype PyNone x = _extract_dtype x /\
      get_higher_dtype x PyNone = _extract_dtype x) /\
  get_higher_dtype PyNone PyNone = Ok None /\
  List.length ordered_datatypes = 11 /\
  get_higher_dtype (PyDtype torch.uint8) (PyDtype torch.int8) = Ok (Some torch.int16) /\
  get_higher_dtype (PyDtype torch.int8) (PyDtype torch.uint8) = Ok (Some torch.int16) /\
  get_higher_dtype (PyDtype torch.float16) (PyDtype torch.bfloat16)
    = Ok (Some torch.float32) /\
  get_higher_dtype (PyDtype torch.bfloat16) (PyDtype torch.float16)
    = Ok (Some torch.float32).
Proof.
  split; [|split; [|repeat split]].
  - intros a b d1 d2 Ha Hb.
    rewrite (get_higher_dtype_extracted a b d1 d2 Ha Hb).
    destruct (dtype_eqb d1 d2) eqn:E.
    + apply dtype_eqb_eq in E. subst d2.
      repeat split; intros; try reflexivity; try congruence;
        assert (i = j) by congruence; lia.
    + assert (Hne : d1 <> d2).
      { intro Heq. apply dtype_eqb_eq in Heq. congruence. }
      repeat split.
      * intro Heq. contradiction.
      * intros i H1 H2 _. apply get_higher_dtype_scan_same_bucket; assumption.
      * intros i j H1 H2. apply (get_higher_dtype_scan_ordered d1 d2 i j H1 H2).
      * intros i j H1 H2. apply (get_higher_dtype_scan_ordered d1 d2 i j H1 H2).
  - intros x Hx. unfold get_higher_dtype. rewrite Hx. simpl.
    destruct (accepts_extract x Hx) as [[d|] Hd]; rewrite Hd; simpl; auto.
Qed.

Lemma get_higher_dtype_by_bucket_witness :
  get_higher_dtype (PyDtype torch.int32) (PyNumber py_float) = Ok (Some torch.float64) /\
  (exists d rest,
      nth_error ordered_datatypes (5 + 1) = Some (d :: rest) /\
      get_higher_dtype (PyDtype torch.bfloat16) (PyDtype torch.float16) = Ok (Some d)) /\
  get_higher_dtype PyNone (PyDtype torch.int8) = Ok (Some torch.int8).
Proof.
  pose proof (proj1 get_higher_dtype_by_bucket) as H.
  pose proof (proj1 (proj2 get_higher_dtype_by_bucket)) as Habsent.
  split; [|split].
  - destruct (H (PyDtype torch.int32) (PyNumber py_float)
                torch.int32 torch.float64 eq_refl eq_refl) as (_ & _ & Hlt & _).
    apply (Hlt 3 7); [reflexivity | reflexivity | lia].
  - destruct (H (PyDtype torch.bfloat16) (PyDtype torch.float16)
                torch.bfloat16 torch.float16 eq_refl eq_refl) as (_ & Hsame & _).
    apply (Hsame 5); [reflexivity | reflexivity | discriminate].
  - exact (proj1 (Habsent (PyDtype torch.int8) eq_refl)).
Defined.

(** Dtypes that no bucket lists: the scan returns the unlisted one when the
    other is listed, and runs off the end of the table when both are
    unlisted and differ. *)
Lemma get_higher_dtype_scan_unlisted (d1 d2 : torch.dtype) :
  bucket_of d1 = None -> d1 <> d2 ->
  get_higher_dtype_scan ordered_datatypes 0 d1 d2
  = match bucket_of d2 with
    | Some _ => Ok (Some d1)
    | None => Raise (RuntimeError "Unexpected termination!")
    end.
Proof.
  intros H1 Hne.
  destruct d1; try discriminate H1; destruct d2; try congruence; reflexivity.
Qed.

(** C4 as stated fails on dtypes outside the bucket order: two different
    quantized dtypes make [get_higher_dtype] fail instead of returning a
    dtype, and a quantized dtype against float32 returns the quantized
    one, which lies in no bucket. *)
Lemma get_higher_dtype_outside_buckets :
  _extract_dtype (PyDtype torch.qint8) = Ok (Some torch.qint8) /\
  _extract_dtype (PyDtype torch.quint8) = Ok (Some torch.quint8) /\
  bucket_of torch.qint8 = None /\
  bucket_of torch.quint8 = None /\
  get_higher_dtype (PyDtype torch.qint8) (PyDtype torch.quint8)
  = Raise (RuntimeError "Unexpected termination!") /\
  get_higher_dtype (PyDtype torch.qint8) (PyDtype torch.float32)
  = Ok (Some torch.qint8).
Proof. repeat split. Qed.

End HigherDtype.

(** ** canonicalize_dim *)

Section CanonicalizeDim.

Local Open Scope Z_scope.

(** What [canonicalize_dim] does on every index, for a rank that is a
    length. *)
Lemma canonicalize_dim_cases (rank idx : Z) :
  0 <= rank ->
  (idx < - Z.max 1 rank -> raises (canonicalize_dim rank idx)) /\
  (- Z.max 1 rank <= idx < 0 ->
     canonicalize_dim rank idx = Ok (idx + Z.max 1 rank)) /\
  (0 <= idx <= Z.max 1 rank -> canonicalize_dim rank idx = Ok idx) /\
  (Z.max 1 rank < idx -> raises (canonicalize_dim rank idx)).
Proof.
  intro Hrank. unfold canonicalize_dim.
  destruct (Z.eqb_spec rank 0) as [E|E]; simpl;
    destruct (Z.geb_spec idx 0), (Z.ltb_spec idx (if rank =? 0 then 1 else rank));
    try (destruct (Z.eqb_spec rank 0); [|lia]);
    try (destruct (Z.eqb_spec rank 0); [lia|]).
  all: simpl.
  all: repeat split; intros; try lia; try reflexivity.
  all: repeat match goal with
         | |- context [?x <? ?y] => destruct (Z.ltb_spec x y); try lia
         | |- context [?x >? ?y] => rewrite (Z.gtb_ltb x y)
         end; simpl; auto with py; try (f_equal; lia).
Qed.

(** C5 on the code: the index equal to the rank is returned, not refused;
    an index above the rank is refused, and -1 is mapped to rank - 1. *)
Theorem canonicalize_dim_rank_5 :
  canonicalize_dim 5 5 = Ok 5 /\
  canonicalize_dim 5 (-1) = Ok 4 /\
  canonicalize_dim 5 6
  = Raise (ValueError "Received out of bounds index {0} for tensor of rank {1}!").
Proof. repeat split. Qed.

(** The same for every rank: the index [max 1 rank] passes through. *)
Lemma canonicalize_dim_at_rank (rank : Z) :
  0 <= rank -> canonicalize_dim rank (Z.max 1 rank) = Ok (Z.max 1 rank).
Proof.
  intro H. apply (canonicalize_dim_cases rank (Z.max 1 rank) H). lia.
Qed.

End CanonicalizeDim.

(** ** compare_tensor_meta *)

Section TensorMeta.

(** The shape loop accepts exactly the pairs of shapes that agree up to the
    shorter of the two. *)
Lemma compare_shape_pairs_prefix (s1 s2 : list Z) :
  compare_shape_pairs (combine s1 s2) = Ok tt <->
  firstn (Nat.min (List.length s1) (List.length s2)) s1
  = firstn (Nat.min (List.length s1) (List.length s2)) s2.
Proof.
  revert s2. induction s1 as [|x s1 IH]; intros [|y s2]; simpl;
    try (split; reflexivity).
  destruct (Z.eqb_spec x y) as [E|E]; simpl.
  - subst y. rewrite IH. split; intro H.
    + rewrite H. reflexivity.
    + inversion H. reflexivity.
  - split; intro H.
    + discriminate H.
    + inversion H. contradiction.
Qed.

(** C10: when the two shapes agree on the positions both have, the shape
    loop does not fail whatever the two ranks are, and the outcome of
    [compare_tensor_meta] is that of the dtype and device comparisons: it
    succeeds when dtype and device are equal. *)
Theorem compare_tensor_meta_common_prefix (a b : TensorLike) :
  firstn (Nat.min (ndim a) (ndim b)) (shape a)
  = firstn (Nat.min (ndim a) (ndim b)) (shape b) ->
  compare_shape_pairs (combine (shape a) (shape b)) = Ok tt /\
  compare_tensor_meta (PyTensor a) (PyTensor b)
  = (if negb (dtype_eqb (dtype a) (dtype b)) then
       Raise (AssertionError "Dtypes {0} and {1} are not equal!")
     else if negb (device_eqb (device a) (device b)) then
       Raise (AssertionError "Devices {0} and {1} are not equal!")
     else Ok tt) /\
  (dtype a = dtype b -> device a = device b ->
   compare_tensor_meta (PyTensor a) (PyTensor b) = Ok tt).
Proof.
  intro Hprefix. apply compare_shape_pairs_prefix in Hprefix.
  assert (Hmeta : compare_tensor_meta (PyTensor a) (PyTensor b)
    = (if negb (dtype_eqb (dtype a) (dtype b)) then
         Raise (AssertionError "Dtypes {0} and {1} are not equal!")
       else if negb (device_eqb (device a) (device b)) then
         Raise (AssertionError "Devices {0} and {1} are not equal!")
       else Ok tt)).
  { unfold compare_tensor_meta. simpl. rewrite Hprefix. reflexivity. }
  split; [assumption|]. split; [assumption|].
  intros Hd Hdev. rewrite Hmeta, Hd, Hdev, dtype_eqb_refl, device_eqb_refl.
  reflexivity.
Qed.

Lemma compare_tensor_meta_common_prefix_witness :
  ndim (tensor_of [2; 3]%Z torch.float32) <> ndim (tensor_of [2; 3; 4]%Z torch.float32) /\
  compare_tensor_meta (PyTensor (tensor_of [2; 3]%Z torch.float32))
                      (PyTensor (tensor_of [2; 3; 4]%Z torch.float32)) = Ok tt /\
  compare_tensor_meta (PyTensor (tensor_of [2; 3; 4]%Z torch.float32))
                      (PyTensor (tensor_of [2; 3]%Z torch.int8))
  = Raise (AssertionError "Dtypes {0} and {1} are not equal!").
Proof.
  split; [|split].
  - simpl. discriminate.
  - apply (compare_tensor_meta_common_prefix
             (tensor_of [2; 3]%Z torch.float32)
             (tensor_of [2; 3; 4]%Z torch.float32) eq_refl);
      reflexivity.
  - exact (proj1 (proj2 (compare_tensor_meta_common_prefix
             (tensor_of [2; 3; 4]%Z torch.float32)
             (tensor_of [2; 3]%Z torch.int8) eq_refl))).
Defined.

(** A differing length at a position both shapes have is refused. *)
Example compare_tensor_meta_shape_mismatch :
  compare_tensor_meta (PyTensor (tensor_of [2; 3]%Z torch.float32))
                      (PyTensor (tensor_of [2; 4; 4]%Z torch.float32))
  = Raise (AssertionError "Shapes {0} and {1} are not equal!").
Proof. reflexivity. Qed.

End TensorMeta.

(** ** check_same_device *)

Lemma forallb_false_exists {A : Type} (f : A -> Datatypes.bool) (l : list A) :
  forallb f l = false <-> exists x, In x l /\ f x = false.
Proof.
  induction l as [|a l IH]; simpl.
  - split; [discriminate | intros (x & [] & _)].
  - rewrite andb_false_iff, IH. split.
    + intros [H | (x & Hin & Hx)]; eauto.
    + intros (x & [<- | Hin] & Hx); eauto.
Qed.

Lemma raises_is_ok {A : Type} (m : result A) : raises m <-> is_ok m = false.
Proof.
  destruct m; simpl; split; intro H; auto with py.
  - destruct H as [e H]. discriminate H.
  - discriminate H.
Qed.

Section SameDevice.

Variable allow_cpu_scalar_tensors : Datatypes.bool.

Let loop := check_same_device_loop allow_cpu_scalar_tensors.
Let exempt := device_exempt allow_cpu_scalar_tensors.
Let checked := checked_devices allow_cpu_scalar_tensors.

(** An exempt argument leaves both the expected device and the outcome as
    they are. *)
Lemma check_same_device_loop_skip (device_ : option torch.device)
  (x : pyobj) (rest : list pyobj) :
  exempt x = true -> loop device_ (x :: rest) = loop device_ rest.
Proof.
  unfold exempt, device_exempt, loop.
  destruct x; simpl; intro H; try reflexivity;
    try (rewrite andb_false_r in H; discriminate H).
  rewrite H. reflexivity.
Qed.

Lemma check_same_device_loop_filter (device_ : option torch.device)
  (args : list pyobj) :
  loop device_ args = loop device_ (List.filter (fun x => negb (exempt x)) args).
Proof.
  revert device_. induction args as [|x rest IH]; intro device_; [reflexivity|].
  simpl List.filter. destruct (exempt x) eqn:E; simpl negb; cbv iota.
  - rewrite check_same_device_loop_skip by assumption. apply IH.
  - unfold loop in *. unfold exempt, device_exempt in E.
    destruct x; simpl in E |- *; try discriminate E; try reflexivity.
    rewrite E.
    destruct (negb (device_eqb _ _)); [reflexivity | apply IH].
Qed.

Lemma checked_cons_exempt (x : pyobj) (rest : list pyobj) :
  exempt x = true -> checked (x :: rest) = checked rest.
Proof.
  intro H. unfold checked, checked_devices. simpl.
  fold exempt. rewrite H. reflexivity.
Qed.

Lemma checked_cons_tensor (t : TensorLike) (rest : list pyobj) :
  exempt (PyTensor t) = false ->
  checked (PyTensor t :: rest) = device t :: checked rest.
Proof.
  intro H. unfold checked, checked_devices. simpl List.filter.
  fold exempt. rewrite H. reflexivity.
Qed.

(** With an expected device, the loop succeeds exactly on lists of numbers
    and tensors whose checked tensors are all on that device. *)
Lemma check_same_device_loop_expected (d0 : torch.device) (args : list pyobj) :
  is_ok (loop (Some d0) args)
  = forallb is_operand args && forallb (device_eqb d0) (checked args).
Proof.
  induction args as [|x rest IH]; [reflexivity|].
  destruct (exempt x) eqn:E.
  - rewrite check_same_device_loop_skip, checked_cons_exempt by assumption.
    rewrite IH. simpl. unfold exempt, device_exempt in E.
    destruct x; simpl in E; try reflexivity;
      rewrite andb_false_r in E; discriminate E.
  - unfold exempt, device_exempt in E.
    destruct x as [|k|t|d|s]; simpl in E; try discriminate E; try reflexivity.
    rewrite checked_cons_tensor
      by (unfold exempt, device_exempt; simpl; exact E).
    unfold loop in *. simpl. rewrite E.
    destruct (device_eqb d0 (device t)); simpl;
      [apply IH | rewrite andb_false_r; reflexivity].
Qed.

(** Without one, the first checked tensor sets it. *)
Lemma check_same_device_loop_first (args : list pyobj) :
  is_ok (loop None args)
  = forallb is_operand args &&
    match checked args with
    | [] => true
    | d0 :: ds => forallb (device_eqb d0) ds
    end.
Proof.
  induction args as [|x rest IH]; [reflexivity|].
  destruct (exempt x) eqn:E.
  - rewrite check_same_device_loop_skip, checked_cons_exempt by assumption.
    rewrite IH. simpl. unfold exempt, device_exempt in E.
    destruct x; simpl in E; try reflexivity;
      rewrite andb_false_r in E; discriminate E.
  - unfold exempt, device_exempt in E.
    destruct x as [|k|t|d|s]; simpl in E; try discriminate E; try reflexivity.
    rewrite checked_cons_tensor
      by (unfold exempt, device_exempt; simpl; exact E).
    pose proof (check_same_device_loop_expected (device t) rest) as Hexp.
    unfold loop in *. simpl. rewrite E, device_eqb_refl. simpl. exact Hexp.
Qed.

End SameDevice.

(** C6: with two or more arguments [check_same_device] passes over numbers
    and, when [allow_cpu_scalar_tensors] holds, over tensors of rank 0 on a
    cpu device: removing them changes nothing.  The first tensor that is
    not passed over sets the expected device, and the check fails exactly
    when a later such tensor is on another device or an argument is neither
    a number nor a tensor.  With at most one argument it does not fail. *)
Theorem check_same_device_fails_iff
  (allow_cpu_scalar_tensors : Datatypes.bool) (args : list pyobj) :
  (List.length args <= 1 -> check_same_device args allow_cpu_scalar_tensors = Ok tt) /\
  (2 <= List.length args ->
   (forall x, device_exempt allow_cpu_scalar_tensors x = true <->
      isinstance_Number x = true \/
      (allow_cpu_scalar_tensors = true /\
       exists t, x = PyTensor t /\ ndim t = 0 /\ torch.type (device t) = "cpu")) /\
   check_same_device args allow_cpu_scalar_tensors
   = check_same_device_loop allow_cpu_scalar_tensors None
       (List.filter (fun x => negb (device_exempt allow_cpu_scalar_tensors x)) args) /\
   (raises (check_same_device args allow_cpu_scalar_tensors) <->
    has_foreign_argument args \/ has_device_mismatch allow_cpu_scalar_tensors args)).
Proof.
  split.
  - intro Hlen. unfold check_same_device.
    destruct (Nat.leb_spec (List.length args) 1); [reflexivity | lia].
  - intro Hlen.
    assert (Hloop : check_same_device args allow_cpu_scalar_tensors
                    = check_same_device_loop allow_cpu_scalar_tensors None args).
    { unfold check_same_device.
      destruct (Nat.leb_spec (List.length args) 1); [lia | reflexivity]. }
    split; [|split].
    + intro x. unfold device_exempt. rewrite orb_true_iff, andb_true_iff.
      split; (intros [H | [Ha H]]; [left; exact H | right; split; [exact Ha|]]).
      * destruct x as [|k|t|d|s]; simpl in H; try discriminate H.
        apply andb_true_iff in H. destruct H as [Hn Hc].
        exists t. repeat split.
        -- apply Nat.eqb_eq. exact Hn.
        -- apply String.eqb_eq. exact Hc.
      * destruct H as (t & -> & Hn & Hc). simpl.
        rewrite Hn, Hc. reflexivity.
    + rewrite Hloop. apply check_same_device_loop_filter.
    + rewrite Hloop, raises_is_ok, check_same_device_loop_first.
      rewrite andb_false_iff, forallb_false_exists.
      unfold has_foreign_argument, has_device_mismatch.
      apply or_iff_compat_l.
      destruct (checked_devices allow_cpu_scalar_tensors args) as [|d0 ds].
      * split; [discriminate | intros (? & ? & ? & H & _); discriminate H].
      * rewrite forallb_false_exists. split.
        -- intros (d & Hin & Hne). exists d0, ds, d. repeat split; auto.
           intro Heq. subst d. rewrite device_eqb_refl in Hne. discriminate Hne.
        -- intros (d0' & ds' & d & Heq & Hin & Hne). inversion Heq; subst.
           exists d. split; [assumption|].
           destruct (device_eqb d0' d) eqn:E; [|reflexivity].
           apply device_eqb_eq in E. congruence.
Qed.

Lemma check_same_device_fails_iff_witness :
  2 <= List.length
         [PyTensor (tensor_on cuda0 [2%Z] torch.float32); PyNumber py_int;
          PyTensor (tensor_on cpu [] torch.float32)] /\
  raises (check_same_device
            [PyTensor (tensor_on cuda0 [2%Z] torch.float32); PyNumber py_int;
             PyTensor (tensor_on cpu [] torch.float32)] false) /\
  check_same_device
    [PyTensor (tensor_on cuda0 [2%Z] torch.float32); PyNumber py_int;
     PyTensor (tensor_on cpu [] torch.float32)] true = Ok tt.
Proof.
  assert (Hlen : 2 <= List.length
            [PyTensor (tensor_on cuda0 [2%Z] torch.float32); PyNumber py_int;
             PyTensor (tensor_on cpu [] torch.float32)]) by (simpl; lia).
  split; [exact Hlen|]. split.
  - apply (proj2 (check_same_device_fails_iff false _) Hlen).
    right. exists cuda0, [cpu], cpu. repeat split.
    + simpl. auto.
    + discriminate.
  - rewrite (proj1 (proj2 (proj2 (check_same_device_fails_iff true _) Hlen))).
    reflexivity.
Defined.

(** ** check_same_dtype *)

Section SameDtype.

Lemma check_same_dtype_loop_filter (full_dtype : option torch.dtype)
  (scalar_type : option pytype) (args : list pyobj) :
  check_same_dtype_loop full_dtype scalar_type args
  = check_same_dtype_loop full_dtype scalar_type
      (List.filter (fun x => negb (isinstance_Number x)) args).
Proof.
  revert full_dtype scalar_type.
  induction args as [|x rest IH]; intros full_dtype scalar_type; [reflexivity|].
  destruct x as [|k|t|d|s]; simpl; try reflexivity.
  - apply IH.
  - destruct (match scalar_type with
              | Some k => Ok k
              | None => dtype_to_type (dtype t)
              end) as [k|e]; simpl; [|reflexivity].
    destruct (negb (dtype_eqb _ (dtype t))); [reflexivity|].
    destruct (dtype_to_type (dtype t)) as [k'|e]; simpl; [|reflexivity].
    destruct (negb (pytype_eqb k' k)); [reflexivity | apply IH].
Qed.

(** Once a first tensor is seen, the loop succeeds exactly on lists of
    numbers and tensors whose tensors all have its dtype. *)
Lemma check_same_dtype_loop_expected (d0 : torch.dtype) (k0 : pytype)
  (args : list pyobj) :
  dtype_to_type d0 = Ok k0 ->
  is_ok (check_same_dtype_loop (Some d0) (Some k0) args)
  = forallb is_operand args &&
    forallb (fun t => dtype_eqb d0 (dtype t)) (tensors_of args).
Proof.
  intro Hk. induction args as [|x rest IH]; [reflexivity|].
  destruct x as [|k|t|d|s]; simpl; try reflexivity.
  - apply IH.
  - destruct (dtype_eqb d0 (dtype t)) eqn:E; simpl.
    + apply dtype_eqb_eq in E. rewrite <- E, Hk. simpl.
      replace (pytype_eqb k0 k0) with true
        by (symmetry; apply pytype_eqb_eq; reflexivity).
      simpl. apply IH.
    + rewrite andb_false_r. reflexivity.
Qed.

Lemma check_same_dtype_loop_first (args : list pyobj) :
  is_ok (check_same_dtype_loop None None args)
  = forallb is_operand args &&
    match tensors_of args with
    | [] => true
    | t0 :: ts =>
        is_ok (dtype_to_type (dtype t0)) &&
        forallb (fun t => dtype_eqb (dtype t0) (dtype t)) ts
    end.
Proof.
  induction args as [|x rest IH]; [reflexivity|].
  destruct x as [|k|t|d|s]; simpl; try reflexivity.
  - apply IH.
  - destruct (dtype_to_type (dtype t)) as [k|e] eqn:Hk; simpl.
    + rewrite dtype_eqb_refl. simpl.
      replace (pytype_eqb k k) with true
        by (symmetry; apply pytype_eqb_eq; reflexivity).
      simpl. apply (check_same_dtype_loop_expected (dtype t) k rest Hk).
    + rewrite andb_false_r. reflexivity.
Qed.

(** C9, as the code has it: numbers are passed over (removing them changes
    nothing), and [check_same_dtype] fails exactly when an argument is
    neither a number nor a tensor, or a tensor's dtype differs from the
    dtype of the first tensor, or a tensor's number type differs from the
    number type of the first tensor, or the dtype of a tensor has no number
    type, so that [dtype_to_type] refuses it. *)
Theorem check_same_dtype_fails_iff (args : list pyobj) :
  check_same_dtype args
  = check_same_dtype (List.filter (fun x => negb (isinstance_Number x)) args) /\
  (raises (check_same_dtype args) <->
   has_foreign_argument args \/ has_dtype_mismatch args \/
   has_kind_mismatch args \/ has_invalid_dtype args).
Proof.
  split; [apply check_same_dtype_loop_filter|].
  unfold check_same_dtype.
  rewrite raises_is_ok, check_same_dtype_loop_first, andb_false_iff,
    forallb_false_exists.
  unfold has_foreign_argument, has_dtype_mismatch, has_kind_mismatch,
    has_invalid_dtype.
  apply or_iff_compat_l.
  destruct (tensors_of args) as [|t0 ts].
  - split; [discriminate|].
    intros [(? & ? & ? & H & _) | [(? & ? & ? & H & _) | (? & [] & _)]];
      discriminate H.
  - rewrite andb_false_iff, forallb_false_exists. split.
    + intros [Hinv | (t & Hin & Hne)].
      * right. right. exists t0. split; [left; reflexivity|].
        apply raises_is_ok. exact Hinv.
      * left. exists t0, ts, t. repeat split; auto.
        intro Heq. rewrite Heq, dtype_eqb_refl in Hne. discriminate Hne.
    + assert (Hmis : forall t, In t ts -> dtype t <> dtype t0 ->
                exists x, In x ts /\ dtype_eqb (dtype t0) (dtype x) = false).
      { intros t Hin Hne. exists t. split; [assumption|].
        destruct (dtype_eqb (dtype t0) (dtype t)) eqn:E; [|reflexivity].
        apply dtype_eqb_eq in E. congruence. }
      intros [(t0' & ts' & t & Heq & Hin & Hne)
             | [(t0' & ts' & t & Heq & Hin & Hne) | (t & Hin & Hinv)]].
      * inversion Heq; subst. right. eauto.
      * inversion Heq; subst. right. apply (Hmis t Hin). congruence.
      * destruct Hin as [<- | Hin].
        -- left. apply raises_is_ok. exact Hinv.
        -- destruct (dtype_eq_dec (dtype t) (dtype t0)) as [E|E].
           ++ left. rewrite <- E. apply raises_is_ok. exact Hinv.
           ++ right. eauto.
Qed.

(** C9 as stated fails on a single tensor of a quantized dtype: the check
    fails although every argument is a tensor and no tensor differs from
    the first in dtype or number type. *)
Lemma check_same_dtype_invalid_dtype_fails :
  check_same_dtype [PyTensor (tensor_of [] torch.qint8)]
  = Raise (ValueError "Invalid dtype!") /\
  ~ (has_foreign_argument [PyTensor (tensor_of [] torch.qint8)] \/
     has_dtype_mismatch [PyTensor (tensor_of [] torch.qint8)] \/
     has_kind_mismatch [PyTensor (tensor_of [] torch.qint8)]).
Proof.
  split; [reflexivity|].
  intros [(x & [<- | []] & H) | [(t0 & ts & t & Heq & Hin & _)
                                | (t0 & ts & t & Heq & Hin & _)]].
  - discriminate H.
  - simpl in Heq. inversion Heq; subst. destruct Hin.
  - simpl in Heq. inversion Heq; subst. destruct Hin.
Qed.

(** On tensors of one dtype that has a number type the check succeeds,
    whatever numbers stand between them. *)
Example check_same_dtype_numbers_exempt :
  check_same_dtype
    [PyTensor (tensor_of [2%Z] torch.int8); PyNumber py_complex;
     PyTensor (tensor_of [] torch.int8); PyNumber py_bool] = Ok tt.
Proof. reflexivity. Qed.

End SameDtype.

(** ** elementwise_dtypes: the promotion kinds *)

Section PromotionKinds.

Variable st : torch_state.

Lemma _get_computation_dtype_table (d : torch.dtype) :
  _get_computation_dtype d = computation_mapped d.
Proof. destruct d; reflexivity. Qed.

Lemma elementwise_dtypes_of_result (_args : list pyobj) (R : torch.dtype)
  (kind : ELEMENTWISE_TYPE_PROMOTION_KIND) :
  elementwise_result_dtype st _args = Ok R ->
  elementwise_dtypes st _args kind = apply_type_promotion_kind st kind R.
Proof. intro H. unfold elementwise_dtypes. rewrite H. reflexivity. Qed.

(** What each promotion kind returns for the result dtype [R] of the base
    promotion.  BOOL_TO_LONG returns [R] itself as computation dtype when
    [R] is not the boolean dtype. *)
Lemma apply_type_promotion_kind_table (R : torch.dtype) :
  apply_type_promotion_kind st DEFAULT R = Ok (R, R) /\
  apply_type_promotion_kind st OP_MATH R = Ok (computation_mapped R, R) /\
  apply_type_promotion_kind st INT_TO_FLOAT R
  = (if is_integer_dtype R || is_boolean_dtype R
     then Ok (computation_mapped (get_default_dtype st), get_default_dtype st)
     else Ok (computation_mapped R, R)) /\
  (is_complex_dtype R = true ->
   exists r, corresponding_real_dtype R = Ok r /\
     apply_type_promotion_kind st COMPLEX_TO_FLOAT R = Ok (computation_mapped R, r)) /\
  (is_complex_dtype R = false ->
   apply_type_promotion_kind st COMPLEX_TO_FLOAT R = Ok (computation_mapped R, R)) /\
  (is_boolean_dtype R = true ->
   apply_type_promotion_kind st BOOL_TO_LONG R = Ok (torch.int64, torch.int64)) /\
  (is_boolean_dtype R = false ->
   apply_type_promotion_kind st BOOL_TO_LONG R = Ok (R, R)) /\
  apply_type_promotion_kind st ALWAYS_BOOL R = Ok (R, torch.bool).
Proof.
  repeat split.
  - simpl. rewrite _get_computation_dtype_table. reflexivity.
  - simpl. destruct (is_integer_dtype R || is_boolean_dtype R);
      rewrite _get_computation_dtype_table; reflexivity.
  - intro H. destruct R; try discriminate H; eexists; split; reflexivity.
  - intro H. simpl. rewrite H, _get_computation_dtype_table. reflexivity.
  - intro H. simpl. rewrite H. reflexivity.
  - intro H. simpl. rewrite H. reflexivity.
Qed.

(** C3 on the code: for a float16 tensor of rank 1 the base promotion gives
    float16, whose computation dtype is float32; OP_MATH returns
    (float32, float16), and BOOL_TO_LONG returns (float16, float16). *)
Theorem bool_to_long_computation_dtype :
  elementwise_result_dtype st [PyTensor (tensor_of [2%Z] torch.float16)]
  = Ok torch.float16 /\
  computation_mapped torch.float16 = torch.float32 /\
  elementwise_dtypes st [PyTensor (tensor_of [2%Z] torch.float16)] OP_MATH
  = Ok (torch.float32, torch.float16) /\
  elementwise_dtypes st [PyTensor (tensor_of [2%Z] torch.float16)] BOOL_TO_LONG
  = Ok (torch.float16, torch.float16).
Proof. repeat split. Qed.

Example elementwise_dtypes_float16_op_math :
  elementwise_dtypes st [PyTensor (tensor_of [] torch.float16)] OP_MATH
  = Ok (torch.float32, torch.float16).
Proof. reflexivity. Qed.

Example elementwise_dtypes_complex64_complex_to_float :
  elementwise_dtypes st [PyTensor (tensor_of [3%Z] torch.complex64)] COMPLEX_TO_FLOAT
  = Ok (torch.complex64, torch.float32) /\
  elementwise_dtypes st [PyTensor (tensor_of [] torch.complex64)] COMPLEX_TO_FLOAT
  = Ok (torch.complex64, torch.float32).
Proof. split; reflexivity. Qed.

Example elementwise_dtypes_bool_to_long :
  elementwise_dtypes st [PyTensor (tensor_of [3%Z] torch.bool)] BOOL_TO_LONG
  = Ok (torch.int64, torch.int64).
Proof. reflexivity. Qed.

End PromotionKinds.

(** ** elementwise_dtypes: the complex branch *)

Section ComplexBranch.

(** On complex dtypes [get_higher_dtype] keeps the one of the higher
    bucket. *)
Lemma get_higher_dtype_complex (acc : option torch.dtype) (c : torch.dtype) :
  complex_or_none acc = true -> is_complex_dtype c = true ->
  get_higher_dtype (optional_dtype acc) (PyDtype c) = Ok (track_highest acc c).
Proof.
  destruct acc as [a|]; simpl; intros Ha Hc.
  - destruct a; try discriminate Ha; destruct c; try discriminate Hc; reflexivity.
  - reflexivity.
Qed.

Lemma track_highest_complex (acc : option torch.dtype) (c : torch.dtype) :
  complex_or_none acc = true -> is_complex_dtype c = true ->
  complex_or_none (track_highest acc c) = true.
Proof.
  destruct acc as [a|]; simpl; intros Ha Hc; [|exact Hc].
  destruct (bucket_index a <? bucket_index c); assumption.
Qed.

Lemma float_as_complex_dtype (d : torch.dtype) :
  float_or_complex d = true ->
  (if true && is_float_dtype d then corresponding_complex_dtype d else Ok d)
  = Ok (as_complex d) /\
  is_complex_dtype (as_complex d) = true.
Proof. destruct d; intro H; try discriminate H; split; reflexivity. Qed.

Lemma zero_dim_branch (all_tensors_equal : Datatypes.bool) (t : TensorLike) :
  (ndim t =? 0) && negb all_tensors_equal
  = negb (counts_as_ranked all_tensors_equal t).
Proof.
  unfold counts_as_ranked. destruct all_tensors_equal, (ndim t); reflexivity.
Qed.

Lemma compared_dtypes_cons_other (keep : TensorLike -> Datatypes.bool)
  (x : pyobj) (rest : list pyobj) :
  isinstance_TensorLike x = false ->
  compared_dtypes keep (x :: rest) = compared_dtypes keep rest.
Proof. destruct x; simpl; intro H; try discriminate H; reflexivity. Qed.

Lemma compared_dtypes_cons_tensor (keep : TensorLike -> Datatypes.bool)
  (t : TensorLike) (rest : list pyobj) :
  compared_dtypes keep (PyTensor t :: rest)
  = if float_or_complex (dtype t) && keep t
    then as_complex (dtype t) :: compared_dtypes keep rest
    else compared_dtypes keep rest.
Proof.
  unfold compared_dtypes. simpl.
  destruct (float_or_complex (dtype t)); simpl; [|reflexivity].
  destruct (keep t); reflexivity.
Qed.

(** The loop of the scan, run on the float-or-complex filter with floats
    taken as complex, folds [track_highest] over the tensors of each of the
    two groups. *)
Lemma _find_highest_dtype_filtered_loop_complex
  (all_tensors_equal : Datatypes.bool) (args : list pyobj)
  (zero one : option torch.dtype) :
  complex_or_none zero = true -> complex_or_none one = true ->
  _find_highest_dtype_filtered_loop float_or_complex true all_tensors_equal
    zero one args
  = Ok (fold_left track_highest
          (compared_dtypes (fun t => negb (counts_as_ranked all_tensors_equal t)) args)
          zero,
        fold_left track_highest
          (compared_dtypes (counts_as_ranked all_tensors_equal) args)
          one).
Proof.
  revert zero one.
  induction args as [|x rest IH]; intros zero one Hz Ho; [reflexivity|].
  destruct x as [|k|t|d|s];
    try (rewrite !compared_dtypes_cons_other by reflexivity;
         simpl; apply IH; assumption).
  rewrite !compared_dtypes_cons_tensor.
  cbn [_find_highest_dtype_filtered_loop].
  destruct (float_or_complex (dtype t)) eqn:Ef; [|apply IH; assumption].
  destruct (float_as_complex_dtype (dtype t) Ef) as [Has Hc].
  rewrite Has. cbn [bind]. rewrite zero_dim_branch.
  destruct (counts_as_ranked all_tensors_equal t); cbn [negb andb].
  - rewrite (get_higher_dtype_complex one _ Ho Hc). cbn [bind fold_left].
    apply IH; [assumption | apply track_highest_complex; assumption].
  - rewrite (get_higher_dtype_complex zero _ Hz Hc). cbn [bind fold_left].
    apply IH; [apply track_highest_complex; assumption | assumption].
Qed.

Lemma _find_highest_dtype_filtered_complex
  (all_tensors_equal : Datatypes.bool) (args : list pyobj) :
  _find_highest_dtype_filtered args float_or_complex true all_tensors_equal
  = Ok (spec_complex_scan all_tensors_equal args).
Proof.
  unfold _find_highest_dtype_filtered.
  rewrite _find_highest_dtype_filtered_loop_complex by reflexivity.
  cbn [bind fst snd]. unfold spec_complex_scan, highest_of, compared_dtypes,
    counts_as_ranked.
  destruct (fold_left track_highest _ None); reflexivity.
Qed.

Lemma tensors_of_not_None (_args : list pyobj) :
  tensors_of (List.filter (fun x => negb (is_None x)) _args) = tensors_of _args.
Proof.
  induction _args as [|x rest IH]; [reflexivity|].
  destruct x; simpl; rewrite ?IH; reflexivity.
Qed.

Lemma spec_complex_scan_not_None (ignore_rank : Datatypes.bool) (_args : list pyobj) :
  spec_complex_scan ignore_rank (List.filter (fun x => negb (is_None x)) _args)
  = spec_complex_scan ignore_rank _args.
Proof. unfold spec_complex_scan. rewrite tensors_of_not_None. reflexivity. Qed.

Lemma has_one_plus_dim_complex_tensor_iff (_args : list pyobj) :
  has_one_plus_dim_complex_tensor (List.filter (fun x => negb (is_None x)) _args) = true
  <-> exists t, In (PyTensor t) _args /\ 0 < ndim t /\ is_complex_dtype (dtype t) = true.
Proof.
  unfold has_one_plus_dim_complex_tensor. rewrite existsb_exists. split.
  - intros (x & Hin & Hx). apply filter_In in Hin. destruct Hin as [Hin _].
    destruct x as [|k|t|d|s]; try discriminate Hx.
    apply andb_true_iff in Hx. destruct Hx as [Hn Hc].
    exists t. repeat split; [assumption | apply Nat.ltb_lt; exact Hn | exact Hc].
  - intros (t & Hin & Hn & Hc). exists (PyTensor t). split.
    + apply filter_In. split; [assumption | reflexivity].
    + apply andb_true_iff. split; [apply Nat.ltb_lt; exact Hn | exact Hc].
Qed.

(** [highest_of] picks a dtype of the list that no dtype of the list lies
    above. *)
Lemma fold_track_highest_max (ds : list torch.dtype) (acc : option torch.dtype) :
  exists m, fold_left track_highest ds acc = m /\
    match m with
    | None => acc = None /\ ds = []
    | Some m =>
        (acc = Some m \/ In m ds) /\
        (forall a, acc = Some a -> bucket_index a <= bucket_index m) /\
        (forall d, In d ds -> bucket_index d <= bucket_index m)
    end.
Proof.
  revert acc. induction ds as [|d ds IH]; intro acc.
  - exists acc. split; [reflexivity|]. destruct acc as [a|].
    + split; [left; reflexivity|]. split.
      * intros a' H. inversion H; subst. lia.
      * intros d [].
    + split; reflexivity.
  - simpl. destruct (IH (track_highest acc d)) as (m & Hm & Hspec).
    exists m. split; [exact Hm|]. destruct m as [m|].
    + destruct Hspec as (Hin & Hacc & Hds).
      assert (Hstep : exists a', track_highest acc d = Some a' /\
                (acc = Some a' \/ a' = d) /\
                (forall a, acc = Some a -> bucket_index a <= bucket_index a') /\
                bucket_index d <= bucket_index a').
      { destruct acc as [a|]; simpl.
        - destruct (Nat.ltb_spec (bucket_index a) (bucket_index d)).
          + exists d. repeat split; auto. intros a' H'. inversion H'; subst. lia.
          + exists a. repeat split; auto. intros a' H'. inversion H'; subst. lia.
        - exists d. repeat split; auto. intros a' H'. discriminate H'. }
      destruct Hstep as (a' & Ha' & Hsrc & Hle & Hd).
      pose proof (Hacc a' Ha') as Hm'.
      split; [|split].
      * destruct Hin as [Hin | Hin].
        -- rewrite Ha' in Hin. inversion Hin; subst.
           destruct Hsrc as [Hsrc | Hsrc]; [left; exact Hsrc | right; left; auto].
        -- right. right. exact Hin.
      * intros a Ha. specialize (Hle a Ha). lia.
      * intros d' [<- | Hin']; [lia | apply Hds; exact Hin'].
    + destruct Hspec as [Hnone _]. destruct acc; discriminate Hnone.
Qed.

Lemma highest_of_max (ds : list torch.dtype) :
  match highest_of ds with
  | None => ds = []
  | Some m => In m ds /\ forall d, In d ds -> bucket_index d <= bucket_index m
  end.
Proof.
  unfold highest_of.
  destruct (fold_track_highest_max ds None) as (m & Hm & Hspec).
  rewrite Hm. destruct m as [m|].
  - destruct Hspec as ([H | H] & _ & Hds); [discriminate H | auto].
  - apply Hspec.
Qed.

(** C1: when the highest number type of the operands is complex, the result
    dtype of the base promotion is, if some tensor has rank > 0 and a complex
    dtype, the highest dtype among the tensors of float or complex dtype
    (floats taken as their complex dtype) of rank > 0, and else of rank 0;
    if no tensor has rank > 0 and a complex dtype, the highest among all of
    them whatever their rank; and when the scan finds no dtype, the complex
    dtype of the default float dtype. *)
Theorem elementwise_complex_result_dtype (st : torch_state) (_args : list pyobj) :
  highest_type_loop py_bool (List.filter (fun x => negb (is_None x)) _args)
  = Ok py_complex ->
  ((exists t, In (PyTensor t) _args /\ 0 < ndim t /\ is_complex_dtype (dtype t) = true) ->
   elementwise_result_dtype st _args
   = match spec_complex_scan false _args with
     | Some d => Ok d
     | None => corresponding_complex_dtype (get_default_dtype st)
     end) /\
  (~ (exists t, In (PyTensor t) _args /\ 0 < ndim t /\ is_complex_dtype (dtype t) = true) ->
   elementwise_result_dtype st _args
   = match spec_complex_scan true _args with
     | Some d => Ok d
     | None => corresponding_complex_dtype (get_default_dtype st)
     end) /\
  (forall R, elementwise_result_dtype st _args = Ok R ->
             elementwise_dtypes st _args DEFAULT = Ok (R, R)).
Proof.
  intro Hkind.
  pose proof (has_one_plus_dim_complex_tensor_iff _args) as Hiff.
  assert (Hbranch : elementwise_result_dtype st _args
    = match spec_complex_scan
              (negb (has_one_plus_dim_complex_tensor
                       (List.filter (fun x => negb (is_None x)) _args))) _args with
      | Some d => Ok d
      | None => corresponding_complex_dtype (get_default_dtype st)
      end).
  { unfold elementwise_result_dtype. rewrite Hkind. cbn [bind].
    destruct (has_one_plus_dim_complex_tensor _);
      rewrite _find_highest_dtype_filtered_complex, spec_complex_scan_not_None;
      reflexivity. }
  split; [|split].
  - intro Hex. apply Hiff in Hex. rewrite Hbranch, Hex. reflexivity.
  - intro Hnex. rewrite Hbranch.
    destruct (has_one_plus_dim_complex_tensor _); [|reflexivity].
    exfalso. apply Hnex. apply Hiff. reflexivity.
  - intros R HR. unfold elementwise_dtypes. rewrite HR. reflexivity.
Qed.

End ComplexBranch.

Lemma elementwise_complex_result_dtype_witness :
  highest_type_loop py_bool
    (List.filter (fun x => negb (is_None x))
       [PyTensor (tensor_of [2%Z] torch.complex32); PyNone;
        PyTensor (tensor_of [] torch.float64)]) = Ok py_complex /\
  elementwise_result_dtype float32_default
    [PyTensor (tensor_of [2%Z] torch.complex32); PyNone;
     PyTensor (tensor_of [] torch.float64)] = Ok torch.complex32 /\
  elementwise_result_dtype float32_default
    [PyTensor (tensor_of [] torch.complex32);
     PyTensor (tensor_of [] torch.float64)] = Ok torch.complex128 /\
  elementwise_result_dtype float32_default
    [PyTensor (tensor_of [2%Z] torch.float16);
     PyTensor (tensor_of [] torch.complex64)] = Ok torch.complex64 /\
  elementwise_result_dtype float32_default
    [PyTensor (tensor_of [2%Z] torch.int32); PyNumber py_complex] = Ok torch.complex64.
Proof.
  split; [reflexivity|]. split; [|split; [|split]].
  - rewrite (proj1 (elementwise_complex_result_dtype float32_default
               [PyTensor (tensor_of [2%Z] torch.complex32); PyNone;
                PyTensor (tensor_of [] torch.float64)] eq_refl)).
    + reflexivity.
    + exists (tensor_of [2%Z] torch.complex32).
      split; [left; reflexivity|]. split; [cbv; lia | reflexivity].
  - rewrite (proj1 (proj2 (elementwise_complex_result_dtype float32_default
               [PyTensor (tensor_of [] torch.complex32);
                PyTensor (tensor_of [] torch.float64)] eq_refl))).
    + reflexivity.
    + intros (t & [E | [E | []]] & Hn & _); inversion E; subst;
        cbv in Hn; lia.
  - rewrite (proj1 (proj2 (elementwise_complex_result_dtype float32_default
               [PyTensor (tensor_of [2%Z] torch.float16);
                PyTensor (tensor_of [] torch.complex64)] eq_refl))).
    + reflexivity.
    + intros (t & [E | [E | []]] & Hn & Hc); inversion E; subst;
        [discriminate Hc | cbv in Hn; lia].
  - rewrite (proj1 (proj2 (elementwise_complex_result_dtype float32_default
               [PyTensor (tensor_of [2%Z] torch.int32); PyNumber py_complex] eq_refl))).
    + reflexivity.
    + intros (t & [E | [E | []]] & Hn & Hc); inversion E; subst.
      discriminate Hc.
Defined.

(** * Further properties of the module *)

(** ** Number types and dtype tables *)

Section NumberTypes.

(** [get_higher_type] never fails and returns the later of its arguments in
    bool, int, float, complex; so it is commutative and associative. *)
Theorem get_higher_type_is_max (a b c : pytype) :
  get_higher_type a b = Ok (if kind_rank a <? kind_rank b then b else a) /\
  get_higher_type a b = get_higher_type b a /\
  (x <- get_higher_type a b ;; get_higher_type x c)
  = (y <- get_higher_type b c ;; get_higher_type a y).
Proof. destruct a, b, c; repeat split. Qed.

(** [is_weakly_lesser_type] never fails and decides the same order; it
    answers true exactly when [get_higher_type] returns the second
    argument. *)
Theorem is_weakly_lesser_type_order (a b : pytype) :
  is_weakly_lesser_type a b = Ok (kind_rank a <=? kind_rank b) /\
  (is_weakly_lesser_type a b = Ok true <-> get_higher_type a b = Ok b).
Proof.
  destruct a, b; split; try reflexivity; split; intro H;
    solve [ reflexivity | discriminate H ].
Qed.

(** The dtype of a number type has that number type; the other way round
    only bool, int64, float64 and complex128 come back. *)
Theorem type_to_dtype_to_type (k : pytype) (d : torch.dtype) :
  (d' <- type_to_dtype k ;; dtype_to_type d') = Ok k /\
  ((k' <- dtype_to_type d ;; type_to_dtype k') = Ok d <->
   In d [torch.bool; torch.int64; torch.float64; torch.complex128]).
Proof.
  split; [destruct k; reflexivity|].
  split.
  - destruct d; vm_compute; intro H; try discriminate H; tauto.
  - simpl. intros [<- | [<- | [<- | [<- | []]]]]; reflexivity.
Qed.

(** A dtype passes at most one of the four category tests; [dtype_to_type]
    names the one it passes and fails exactly when it passes none. *)
Theorem dtype_categories_partition (d : torch.dtype) :
  List.length
    (List.filter (fun test : torch.dtype -> Datatypes.bool => test d)
       [is_boolean_dtype; is_integer_dtype; is_float_dtype; is_complex_dtype]) <= 1 /\
  (dtype_to_type d = Ok py_bool <-> is_boolean_dtype d = true) /\
  (dtype_to_type d = Ok py_int <-> is_integer_dtype d = true) /\
  (dtype_to_type d = Ok py_float <-> is_float_dtype d = true) /\
  (dtype_to_type d = Ok py_complex <-> is_complex_dtype d = true) /\
  (dtype_to_type d = Raise (ValueError "Invalid dtype!") <->
   is_boolean_dtype d || is_integer_dtype d || is_float_dtype d
   || is_complex_dtype d = false).
Proof.
  destruct d; repeat split; try (vm_compute; lia);
    vm_compute; intro H; solve [ reflexivity | discriminate H ].
Qed.

Lemma corresponding_real_dtype_domain_facts (d : torch.dtype) :
  match corresponding_real_dtype d with
  | Ok r =>
      is_complex_dtype d = true /\ is_float_dtype r = true /\
      corresponding_complex_dtype r = Ok d
  | Raise e => e = KeyError /\ is_complex_dtype d = false
  end.
Proof. destruct d; vm_compute; repeat split. Qed.

(** [corresponding_real_dtype] is defined exactly on the complex dtypes and
    gives a float dtype whose complex dtype is the argument; on any other
    dtype it fails with a key error. *)
Theorem corresponding_real_dtype_domain (d : torch.dtype) :
  match corresponding_real_dtype d with
  | Ok r =>
      is_complex_dtype d = true /\ is_float_dtype r = true /\
      corresponding_complex_dtype r = Ok d
  | Raise e => e = KeyError /\ is_complex_dtype d = false
  end.
Proof. exact (corresponding_real_dtype_domain_facts d). Qed.

Lemma corresponding_complex_dtype_domain_facts (d : torch.dtype) :
  match corresponding_complex_dtype d with
  | Ok c =>
      is_float_dtype d = true /\ is_complex_dtype c = true /\
      corresponding_real_dtype c
      = Ok (if dtype_eqb d torch.bfloat16 then torch.float32 else d)
  | Raise e => e = KeyError /\ is_float_dtype d = false
  end.
Proof. destruct d; vm_compute; repeat split. Qed.

(** [corresponding_complex_dtype] is defined exactly on the float dtypes
    and gives a complex dtype; taking the real dtype of the result gives the
    argument back except for bfloat16, which comes back as float32. *)
Theorem corresponding_complex_dtype_domain (d : torch.dtype) :
  match corresponding_complex_dtype d with
  | Ok c =>
      is_float_dtype d = true /\ is_complex_dtype c = true /\
      corresponding_real_dtype c
      = Ok (if dtype_eqb d torch.bfloat16 then torch.float32 else d)
  | Raise e => e = KeyError /\ is_float_dtype d = false
  end.
Proof. exact (corresponding_complex_dtype_domain_facts d). Qed.

Lemma _get_computation_dtype_properties_facts (d : torch.dtype) :
  dtype_to_type (_get_computation_dtype d) = dtype_to_type d /\
  ~ In (_get_computation_dtype d) [torch.float16; torch.bfloat16; torch.complex32] /\
  bucket_index d <= bucket_index (_get_computation_dtype d) /\
  _get_computation_dtype (_get_computation_dtype d) = _get_computation_dtype d.
Proof.
  destruct d; repeat split;
    try (intros [H | [H | [H | []]]]; discriminate H);
    vm_compute; lia.
Qed.

(** The computation dtype keeps the number type of a dtype, is never
    float16, bfloat16 or complex32, is never lower in the dtype order, and
    taking it twice changes nothing. *)
Theorem _get_computation_dtype_properties (d : torch.dtype) :
  dtype_to_type (_get_computation_dtype d) = dtype_to_type d /\
  ~ In (_get_computation_dtype d) [torch.float16; torch.bfloat16; torch.complex32] /\
  bucket_index d <= bucket_index (_get_computation_dtype d) /\
  _get_computation_dtype (_get_computation_dtype d) = _get_computation_dtype d.
Proof. exact (_get_computation_dtype_properties_facts d). Qed.

End NumberTypes.

(** ** get_higher_dtype as a join *)

Section HigherDtypeJoin.

Lemma can_safe_cast_to_rank
  (cast_to cast_from : torch.dtype) (k_to k_from : pytype) :
  dtype_to_type cast_to = Ok k_to ->
  dtype_to_type cast_from = Ok k_from ->
  can_safe_cast_to cast_to cast_from
  = Ok (negb (kind_rank k_to <? kind_rank k_from)).
Proof.
  intros Hto Hfrom. unfold can_safe_cast_to.
  rewrite (can_safe_cast_to_scan_positions _ _ _ _ _
             (first_match_category _ _ Hto) (first_match_category _ _ Hfrom)).
  destruct k_to, k_from; reflexivity.
Qed.

Lemma get_higher_dtype_listed (a b : torch.dtype) :
  listed a = true -> listed b = true ->
  exists r,
    get_higher_dtype (PyDtype a) (PyDtype b) = Ok (Some r) /\
    listed r = true /\
    bucket_index a <= bucket_index r /\
    bucket_index b <= bucket_index r /\
    dtype_to_type r
    = (ka <- dtype_to_type a ;; kb <- dtype_to_type b ;; get_higher_type ka kb).
Proof.
  intros Ha Hb.
  destruct a; try discriminate Ha; destruct b; try discriminate Hb;
    eexists; (split; [reflexivity|]); repeat split; vm_compute; lia.
Qed.

Lemma get_higher_dtype_assoc (a b c : torch.dtype) :
  listed a = true -> listed b = true -> listed c = true ->
  (x <- get_higher_dtype (PyDtype a) (PyDtype b) ;;
   get_higher_dtype (optional_dtype x) (PyDtype c))
  = (y <- get_higher_dtype (PyDtype b) (PyDtype c) ;;
     get_higher_dtype (PyDtype a) (optional_dtype y)).
Proof.
  intros Ha Hb Hc.
  destruct a; try discriminate Ha; destruct b; try discriminate Hb;
    destruct c; try discriminate Hc; reflexivity.
Qed.

(** On dtypes that have a number type [get_higher_dtype] never fails; its
    result is such a dtype, lies in a bucket at least as high as both
    arguments, and has the higher of the two number types.  The operation is
    idempotent, commutative and associative. *)
Theorem get_higher_dtype_join (a b c : torch.dtype) :
  listed a = true -> listed b = true -> listed c = true ->
  (exists r,
      get_higher_dtype (PyDtype a) (PyDtype b) = Ok (Some r) /\
      listed r = true /\
      bucket_index a <= bucket_index r /\
      bucket_index b <= bucket_index r /\
      dtype_to_type r
      = (ka <- dtype_to_type a ;; kb <- dtype_to_type b ;; get_higher_type ka kb)) /\
  get_higher_dtype (PyDtype a) (PyDtype a) = Ok (Some a) /\
  get_higher_dtype (PyDtype a) (PyDtype b) = get_higher_dtype (PyDtype b) (PyDtype a) /\
  (x <- get_higher_dtype (PyDtype a) (PyDtype b) ;;
   get_higher_dtype (optional_dtype x) (PyDtype c))
  = (y <- get_higher_dtype (PyDtype b) (PyDtype c) ;;
     get_higher_dtype (PyDtype a) (optional_dtype y)).
Proof.
  intros Ha Hb Hc. split; [|split; [|split]].
  - apply get_higher_dtype_listed; assumption.
  - unfold get_higher_dtype. simpl. rewrite dtype_eqb_refl. reflexivity.
  - destruct a; try discriminate Ha; destruct b; try discriminate Hb; reflexivity.
  - apply get_higher_dtype_assoc; assumption.
Qed.

Lemma get_higher_dtype_join_witness :
  listed torch.uint8 = true /\ listed torch.int8 = true /\ listed torch.float16 = true /\
  (x <- get_higher_dtype (PyDtype torch.uint8) (PyDtype torch.int8) ;;
   get_higher_dtype (optional_dtype x) (PyDtype torch.float16))
  = (y <- get_higher_dtype (PyDtype torch.int8) (PyDtype torch.float16) ;;
     get_higher_dtype (PyDtype torch.uint8) (optional_dtype y)).
Proof.
  split; [reflexivity|]. split; [reflexivity|]. split; [reflexivity|].
  exact (proj2 (proj2 (proj2 (get_higher_dtype_join
           torch.uint8 torch.int8 torch.float16 eq_refl eq_refl eq_refl)))).
Defined.

(** [can_safe_cast_to] fails only when neither dtype has a number type; a
    dtype without one can be cast to from nothing that has one, and
    anything can be cast to a dtype that has one from a dtype without. *)
Theorem can_safe_cast_to_unlisted (cast_to cast_from : torch.dtype) :
  match listed cast_to, listed cast_from with
  | false, false =>
      can_safe_cast_to cast_to cast_from
      = Raise (ValueError "Received unknown dtypes {0}, {1}!")
  | false, true => can_safe_cast_to cast_to cast_from = Ok false
  | true, false => can_safe_cast_to cast_to cast_from = Ok true
  | true, true => exists answer, can_safe_cast_to cast_to cast_from = Ok answer
  end.
Proof.
  destruct cast_to, cast_from; vm_compute; try reflexivity; eexists; reflexivity.
Qed.

(** The dtype [get_higher_dtype] returns can be safely cast to from both of
    its arguments. *)
Theorem can_safe_cast_to_higher_dtype (a b r : torch.dtype) :
  listed a = true -> listed b = true ->
  get_higher_dtype (PyDtype a) (PyDtype b) = Ok (Some r) ->
  can_safe_cast_to r a = Ok true /\ can_safe_cast_to r b = Ok true.
Proof.
  intros Ha Hb Hr.
  destruct (get_higher_dtype_listed a b Ha Hb) as (r' & Hr' & Hl & _ & _ & Hk).
  rewrite Hr in Hr'. inversion Hr'; subst r'. clear Hr'.
  unfold listed in Ha, Hb, Hl.
  destruct (dtype_to_type a) as [ka|] eqn:Eka; [|discriminate Ha].
  destruct (dtype_to_type b) as [kb|] eqn:Ekb; [|discriminate Hb].
  destruct (dtype_to_type r) as [kr|] eqn:Ekr; [|discriminate Hl].
  simpl in Hk.
  rewrite (can_safe_cast_to_rank r a kr ka Ekr Eka).
  rewrite (can_safe_cast_to_rank r b kr kb Ekr Ekb).
  destruct ka, kb; vm_compute in Hk; inversion Hk; subst; split; reflexivity.
Qed.

Lemma can_safe_cast_to_higher_dtype_witness :
  listed torch.int64 = true /\ listed torch.float16 = true /\
  get_higher_dtype (PyDtype torch.int64) (PyDtype torch.float16) = Ok (Some torch.float16) /\
  can_safe_cast_to torch.float16 torch.int64 = Ok true /\
  can_safe_cast_to torch.float16 torch.float16 = Ok true.
Proof.
  split; [reflexivity|]. split; [reflexivity|]. split; [reflexivity|].
  exact (can_safe_cast_to_higher_dtype torch.int64 torch.float16 torch.float16
           eq_refl eq_refl eq_refl).
Defined.

End HigherDtypeJoin.

(** ** Indices and permutations *)

Lemma map_raising_ok {A B : Type} (f : A -> result B) (xs : list A) (ys : list B) :
  map_raising f xs = Ok ys <-> Forall2 (fun x y => f x = Ok y) xs ys.
Proof.
  revert ys. induction xs as [|x xs IH]; intro ys; simpl.
  - split; intro H.
    + inversion H. constructor.
    + inversion H. reflexivity.
  - split; intro H.
    + destruct (f x) as [y|e] eqn:Ey; [|discriminate H]. simpl in H.
      destruct (map_raising f xs) as [ys'|e] eqn:Eys; [|discriminate H].
      inversion H; subst. constructor; [assumption|]. apply IH. reflexivity.
    + inversion H as [|x' y xs' ys' Hy Hys]; subst. rewrite Hy. simpl.
      apply IH in Hys. rewrite Hys. reflexivity.
Qed.

Lemma map_raising_raises {A B : Type} (f : A -> result B) (xs : list A) :
  raises (map_raising f xs) <-> exists x, In x xs /\ raises (f x).
Proof.
  induction xs as [|x xs IH]; simpl.
  - split; [intros [e H]; discriminate H | intros (x & [] & _)].
  - destruct (f x) as [y|e] eqn:Ey; simpl.
    + destruct (map_raising f xs) as [ys|e] eqn:Eys; simpl.
      * split; [intros [e H]; discriminate H|].
        intros (x' & [<- | Hin] & Hx).
        -- rewrite Ey in Hx. destruct Hx as [e H]. discriminate H.
        -- exfalso. apply (not_raises_Ok ys). apply IH. eauto.
      * split; [|intros _; apply raises_Raise].
        intros _. destruct (proj1 IH (raises_Raise e)) as (x' & Hin & Hx). eauto.
    + split; [|intros _; apply raises_Raise].
      intros _. exists x. split; [left; reflexivity|]. rewrite Ey. apply raises_Raise.
Qed.

Section Indices.

Local Open Scope Z_scope.

Lemma canonicalize_dim_range_facts (rank idx : Z) :
  0 <= rank ->
  (is_ok (canonicalize_dim rank idx)
   = (- Z.max 1 rank <=? idx) && (idx <=? Z.max 1 rank)) /\
  (forall i, canonicalize_dim rank idx = Ok i ->
     0 <= i <= Z.max 1 rank /\
     (i = idx \/ i = idx + Z.max 1 rank) /\
     canonicalize_dim rank i = Ok i).
Proof.
  intro Hrank.
  destruct (canonicalize_dim_cases rank idx Hrank) as (Hlow & Hneg & Hpos & Hhigh).
  split.
  - destruct (Z.leb_spec (- Z.max 1 rank) idx), (Z.leb_spec idx (Z.max 1 rank));
      simpl.
    + destruct (Z.lt_ge_cases idx 0).
      * rewrite Hneg by lia. reflexivity.
      * rewrite Hpos by lia. reflexivity.
    + apply raises_is_ok. apply Hhigh. lia.
    + apply raises_is_ok. apply Hlow. lia.
    + apply raises_is_ok. apply Hlow. lia.
  - intros i Hi.
    assert (Hin : - Z.max 1 rank <= idx <= Z.max 1 rank).
    { destruct (Z.lt_ge_cases idx (- Z.max 1 rank)) as [H|H].
      - exfalso. apply (not_raises_Ok i). rewrite <- Hi. apply Hlow. exact H.
      - destruct (Z.lt_ge_cases (Z.max 1 rank) idx) as [H'|H']; [|lia].
        exfalso. apply (not_raises_Ok i). rewrite <- Hi. apply Hhigh. exact H'. }
    assert (Hval : 0 <= i <= Z.max 1 rank /\ (i = idx \/ i = idx + Z.max 1 rank)).
    { destruct (Z.lt_ge_cases idx 0).
      - rewrite Hneg in Hi by lia. inversion Hi. lia.
      - rewrite Hpos in Hi by lia. inversion Hi. lia. }
    destruct Hval as [Hr Hs]. repeat split; try lia; try assumption.
    apply (canonicalize_dim_cases rank i Hrank). lia.
Qed.

(** For a rank that is a length, [canonicalize_dim] succeeds exactly on the
    indices from [- max 1 rank] to [max 1 rank], both included; its result
    lies between 0 and [max 1 rank] and is a fixed point of the function. *)
Theorem canonicalize_dim_range (rank idx : Z) :
  0 <= rank ->
  (is_ok (canonicalize_dim rank idx)
   = (- Z.max 1 rank <=? idx) && (idx <=? Z.max 1 rank)) /\
  (forall i, canonicalize_dim rank idx = Ok i ->
     0 <= i <= Z.max 1 rank /\
     (i = idx \/ i = idx + Z.max 1 rank) /\
     canonicalize_dim rank i = Ok i).
Proof. exact (canonicalize_dim_range_facts rank idx). Qed.

Lemma canonicalize_dim_range_witness :
  0 <= 3 /\ canonicalize_dim 3 (-3) = Ok 0 /\ canonicalize_dim 3 0 = Ok 0 /\
  is_ok (canonicalize_dim 3 (-4)) = false.
Proof.
  split; [lia|]. split; [reflexivity|]. split.
  - apply (proj2 (canonicalize_dim_range 3 (-3) ltac:(lia)) 0 eq_refl).
  - rewrite (proj1 (canonicalize_dim_range 3 (-4) ltac:(lia))). reflexivity.
Defined.

Lemma validate_idx_iff (shape : list Z) (idx : Z) :
  validate_idx shape idx = Ok tt <-> 0 <= idx < Z.max 1 (len shape).
Proof.
  unfold validate_idx, py_assert.
  assert (Hlen : 0 <= len shape) by (unfold len; lia).
  destruct (Z.eqb_spec (len shape) 0) as [E|E]; simpl;
    destruct (Z.geb_spec idx 0); simpl;
    try (split; [discriminate | lia]);
    match goal with
    | |- context [?x <? ?y] => destruct (Z.ltb_spec x y)
    end; split; intro Hres; try reflexivity; try discriminate Hres; lia.
Qed.

(** [validate_idx] accepts exactly the indices from 0 up to, and not
    including, [max 1 (len shape)]; a negative index is refused on every
    shape.  An accepted index is left as it is by [canonicalize_dim], and
    [canonicalize_dim] produces an accepted index unless it returns
    [max 1 (len shape)] itself. *)
Theorem validate_idx_canonical (shape : list Z) (idx : Z) :
  (validate_idx shape idx = Ok tt <-> 0 <= idx < Z.max 1 (len shape)) /\
  (validate_idx shape idx <> Ok tt -> validate_idx shape idx = Raise (AssertionError "")) /\
  (validate_idx shape idx = Ok tt -> canonicalize_dim (len shape) idx = Ok idx) /\
  (forall i, canonicalize_dim (len shape) idx = Ok i ->
     (validate_idx shape i = Ok tt <-> i <> Z.max 1 (len shape))).
Proof.
  assert (Hlen : 0 <= len shape) by (unfold len; lia).
  split; [apply validate_idx_iff|]. split; [|split].
  - unfold validate_idx, py_assert.
    destruct (_ && _); [intro H; contradiction H; reflexivity | reflexivity].
  - intro H. apply validate_idx_iff in H.
    apply (canonicalize_dim_cases (len shape) idx Hlen). lia.
  - intros i Hi.
    destruct (proj2 (canonicalize_dim_range_facts (len shape) idx Hlen) i Hi) as (Hr & _).
    rewrite validate_idx_iff. lia.
Qed.

End Indices.

Section CanonicalizeDims.

(** On a sequence [canonicalize_dims] succeeds exactly when
    [canonicalize_dim] succeeds on every index, and then returns the
    canonical indices in the same order; on a single int it is
    [canonicalize_dim]. *)
Theorem canonicalize_dims_sequence (rank : Z) (xs : list Z) (idx : Z) :
  (forall r, canonicalize_dims rank (DimsSeq xs) = Ok r <->
     exists ys, r = DimsSeq ys /\
       Forall2 (fun x y => canonicalize_dim rank x = Ok y) xs ys) /\
  (raises (canonicalize_dims rank (DimsSeq xs)) <->
   exists x, In x xs /\ raises (canonicalize_dim rank x)) /\
  (forall i, canonicalize_dims rank (DimsInt idx) = Ok (DimsInt i) <->
     canonicalize_dim rank idx = Ok i).
Proof.
  split; [|split].
  - intro r. unfold canonicalize_dims. split.
    + destruct (map_raising (canonicalize_dim rank) xs) as [ys|e] eqn:E;
        simpl; intro H; [|discriminate H].
      inversion H. exists ys. split; [reflexivity|].
      apply map_raising_ok. exact E.
    + intros (ys & -> & H). apply map_raising_ok in H. rewrite H. reflexivity.
  - rewrite <- map_raising_raises. unfold canonicalize_dims.
    destruct (map_raising (canonicalize_dim rank) xs); simpl; split;
      intro H; auto with py; destruct H as [e H]; discriminate H.
  - intro i. unfold canonicalize_dims.
    destruct (canonicalize_dim rank idx); simpl; split; intro H;
      inversion H; reflexivity.
Qed.

End CanonicalizeDims.

(** ** is_valid_permutation *)

Section ValidPermutation.

Local Open Scope Z_scope.

Lemma insert_ascending_perm (x : Z) (l : list Z) :
  Permutation (insert_ascending x l) (x :: l).
Proof.
  induction l as [|y l IH]; simpl; [reflexivity|].
  destruct (x <=? y); [reflexivity|].
  rewrite IH. apply perm_swap.
Qed.

Lemma sorted_perm (xs : list Z) : Permutation (sorted xs) xs.
Proof.
  induction xs as [|x xs IH]; simpl; [reflexivity|].
  rewrite insert_ascending_perm. constructor. exact IH.
Qed.

Lemma insert_ascending_comm (x y : Z) (l : list Z) :
  insert_ascending x (insert_ascending y l)
  = insert_ascending y (insert_ascending x l).
Proof.
  induction l as [|z l IH]; simpl.
  - destruct (Z.leb_spec x y), (Z.leb_spec y x); try reflexivity; try lia.
    assert (x = y) by lia. subst. reflexivity.
  - destruct (Z.leb_spec y z), (Z.leb_spec x z); simpl;
      repeat match goal with
        | |- context [?a <=? ?b] => destruct (Z.leb_spec a b); simpl
        end; try reflexivity; try lia.
    + assert (x = y) by lia. subst. reflexivity.
    + rewrite IH. reflexivity.
Qed.

(** [sorted] depends on the elements only, not on their order. *)
Lemma sorted_of_perm (xs ys : list Z) :
  Permutation xs ys -> sorted xs = sorted ys.
Proof.
  induction 1; simpl.
  - reflexivity.
  - rewrite IHPermutation. reflexivity.
  - apply insert_ascending_comm.
  - congruence.
Qed.

Lemma insert_ascending_le (x y : Z) (l : list Z) :
  x <= y -> insert_ascending x (y :: l) = x :: y :: l.
Proof. intro H. simpl. destruct (Z.leb_spec x y); [reflexivity | lia]. Qed.

Lemma sorted_ascending_run (start : Z) (s n : nat) :
  sorted (map (fun i => start + Z.of_nat i) (seq s n))
  = map (fun i => start + Z.of_nat i) (seq s n).
Proof.
  revert s. induction n as [|n IH]; intro s; [reflexivity|].
  change (seq s (S n)) with (s :: seq (S s) n). rewrite map_cons.
  change (sorted (?x :: ?l)) with (insert_ascending x (sorted l)).
  rewrite IH. destruct n as [|n]; [reflexivity|].
  change (seq (S s) (S n)) with (S s :: seq (S (S s)) n). rewrite map_cons.
  apply insert_ascending_le. lia.
Qed.

Lemma sorted_range (start stop : Z) : sorted (range start stop) = range start stop.
Proof. apply sorted_ascending_run. Qed.

Lemma ints_eqb_eq (a b : list Z) : ints_eqb a b = true <-> a = b.
Proof.
  unfold ints_eqb. destruct (list_eq_dec Z.eq_dec a b); split; congruence.
Qed.

(** [is_valid_permutation] holds exactly of the rearrangements of
    [0, ..., rank - 1]; such a list has [rank] entries, all different. *)
Theorem is_valid_permutation_iff (rank : Z) (perm : list Z) :
  (is_valid_permutation rank perm = true <-> Permutation perm (range 0 rank)) /\
  (is_valid_permutation rank perm = true ->
   len perm = Z.max 0 rank /\ NoDup perm /\
   forall i, In i perm <-> 0 <= i < rank).
Proof.
  assert (Hiff : is_valid_permutation rank perm = true
                 <-> Permutation perm (range 0 rank)).
  { unfold is_valid_permutation.
    destruct (ints_eqb (sorted perm) (range 0 rank)) eqn:E; simpl.
    - apply ints_eqb_eq in E. split; [|reflexivity].
      intros _. rewrite <- E. symmetry. apply sorted_perm.
    - split; [discriminate|]. intro Hp. apply sorted_of_perm in Hp.
      rewrite sorted_range in Hp. apply ints_eqb_eq in Hp. congruence. }
  split; [exact Hiff|].
  intro H. apply Hiff in H.
  assert (Hnd : NoDup (range 0 rank)).
  { unfold range. apply Finite.Injective_map_NoDup; [|apply seq_NoDup].
    intros a b Hab. lia. }
  assert (Hin : forall i, In i (range 0 rank) <-> 0 <= i < rank).
  { intro i. unfold range. rewrite in_map_iff. split.
    - intros (n & <- & Hn). apply in_seq in Hn. lia.
    - intro Hi. exists (Z.to_nat i). split; [lia|]. apply in_seq. lia. }
  split; [|split].
  - unfold len. rewrite (Permutation_length H). unfold range.
    rewrite length_map, length_seq. lia.
  - apply (Permutation_NoDup (Permutation_sym H)). exact Hnd.
  - intro i. rewrite <- Hin. split; apply Permutation_in;
      [exact H | apply Permutation_sym; exact H].
Qed.

Example is_valid_permutation_examples :
  is_valid_permutation 3 [2; 0; 1] = true /\
  is_valid_permutation 3 [0; 0; 1] = false /\
  is_valid_permutation 3 [0; 1] = false /\
  is_valid_permutation 0 [] = true /\
  is_valid_permutation (-2) [] = true.
Proof. repeat split. Qed.

End ValidPermutation.

(** ** check_same_shape *)

Section SameShape.

Variable allow_cpu_scalar_tensors : Datatypes.bool.

Let loop := check_same_shape_loop allow_cpu_scalar_tensors.
Let exempt := device_exempt allow_cpu_scalar_tensors.
Let checked := checked_shapes allow_cpu_scalar_tensors.

Lemma check_same_shape_loop_skip (shape_ : option (list Z))
  (x : pyobj) (rest : list pyobj) :
  exempt x = true -> loop shape_ (x :: rest) = loop shape_ rest.
Proof.
  unfold exempt, device_exempt, loop.
  destruct x; simpl; intro H; try reflexivity;
    try (rewrite andb_false_r in H; discriminate H).
  rewrite H. reflexivity.
Qed.

Lemma checked_shapes_cons_exempt (x : pyobj) (rest : list pyobj) :
  exempt x = true -> checked (x :: rest) = checked rest.
Proof.
  intro H. unfold checked, checked_shapes. simpl.
  fold exempt. rewrite H. reflexivity.
Qed.

Lemma checked_shapes_cons_tensor (t : TensorLike) (rest : list pyobj) :
  exempt (PyTensor t) = false ->
  checked (PyTensor t :: rest) = shape t :: checked rest.
Proof.
  intro H. unfold checked, checked_shapes. simpl List.filter.
  fold exempt. rewrite H. reflexivity.
Qed.

Lemma is_same_shape_refl (s : list Z) : is_same_shape s s = true.
Proof. apply ints_eqb_eq. reflexivity. Qed.

Lemma check_same_shape_loop_expected (s0 : list Z) (args : list pyobj) :
  is_ok (loop (Some s0) args)
  = forallb is_operand args && forallb (is_same_shape s0) (checked args).
Proof.
  induction args as [|x rest IH]; [reflexivity|].
  destruct (exempt x) eqn:E.
  - rewrite check_same_shape_loop_skip, checked_shapes_cons_exempt by assumption.
    rewrite IH. simpl. unfold exempt, device_exempt in E.
    destruct x; simpl in E; try reflexivity;
      rewrite andb_false_r in E; discriminate E.
  - unfold exempt, device_exempt in E.
    destruct x as [|k|t|d|s]; simpl in E; try discriminate E; try reflexivity.
    rewrite checked_shapes_cons_tensor
      by (unfold exempt, device_exempt; simpl; exact E).
    unfold loop in *. simpl. rewrite E.
    destruct (is_same_shape s0 (shape t)); simpl;
      [apply IH | rewrite andb_false_r; reflexivity].
Qed.

Lemma check_same_shape_loop_first (args : list pyobj) :
  is_ok (loop None args)
  = forallb is_operand args &&
    match checked args with
    | [] => true
    | s0 :: ss => forallb (is_same_shape s0) ss
    end.
Proof.
  induction args as [|x rest IH]; [reflexivity|].
  destruct (exempt x) eqn:E.
  - rewrite check_same_shape_loop_skip, checked_shapes_cons_exempt by assumption.
    rewrite IH. simpl. unfold exempt, device_exempt in E.
    destruct x; simpl in E; try reflexivity;
      rewrite andb_false_r in E; discriminate E.
  - unfold exempt, device_exempt in E.
    destruct x as [|k|t|d|s]; simpl in E; try discriminate E; try reflexivity.
    rewrite checked_shapes_cons_tensor
      by (unfold exempt, device_exempt; simpl; exact E).
    pose proof (check_same_shape_loop_expected (shape t) rest) as Hexp.
    unfold loop in *. simpl. rewrite E, is_same_shape_refl. simpl. exact Hexp.
Qed.

End SameShape.

(** [check_same_shape] fails exactly when an argument is neither a number
    nor a tensor, or a checked tensor after the first has another shape
    (rank or a length) than the first checked tensor; numbers, and rank-0
    cpu tensors when allowed, are not checked.  Unlike [check_same_device]
    it looks at a lone argument too. *)
Theorem check_same_shape_fails_iff
  (allow_cpu_scalar_tensors : Datatypes.bool) (args : list pyobj) (x : pyobj) :
  (raises (check_same_shape args allow_cpu_scalar_tensors) <->
   has_foreign_argument args \/ has_shape_mismatch allow_cpu_scalar_tensors args) /\
  (is_operand x = false ->
   raises (check_same_shape [x] allow_cpu_scalar_tensors) /\
   check_same_device [x] allow_cpu_scalar_tensors = Ok tt).
Proof.
  split.
  - unfold check_same_shape.
    rewrite raises_is_ok, check_same_shape_loop_first.
    rewrite andb_false_iff, forallb_false_exists.
    unfold has_foreign_argument, has_shape_mismatch.
    apply or_iff_compat_l.
    destruct (checked_shapes allow_cpu_scalar_tensors args) as [|s0 ss].
    + split; [discriminate | intros (? & ? & ? & H & _); discriminate H].
    + rewrite forallb_false_exists. split.
      * intros (s & Hin & Hne). exists s0, ss, s. repeat split; auto.
        intro Heq. subst s. rewrite is_same_shape_refl in Hne. discriminate Hne.
      * intros (s0' & ss' & s & Heq & Hin & Hne). inversion Heq; subst.
        exists s. split; [assumption|].
        destruct (is_same_shape s0' s) eqn:E; [|reflexivity].
        apply ints_eqb_eq in E. congruence.
  - intro Hx. split; [|reflexivity].
    destruct x; try discriminate Hx; apply raises_Raise.
Qed.

Lemma check_same_shape_fails_iff_witness :
  is_operand (PyStr "mean") = false /\
  raises (check_same_shape [PyStr "mean"] false) /\
  check_same_device [PyStr "mean"] false = Ok tt.
Proof.
  split; [reflexivity|].
  exact (proj2 (check_same_shape_fails_iff false [] (PyStr "mean")) eq_refl).
Defined.

(** ** compare_tensor_meta, in full *)

Section TensorMetaFull.

Lemma compare_tensor_meta_ok_iff (a b : TensorLike) :
  compare_tensor_meta (PyTensor a) (PyTensor b) = Ok tt <->
  firstn (Nat.min (ndim a) (ndim b)) (shape a)
  = firstn (Nat.min (ndim a) (ndim b)) (shape b) /\
  dtype a = dtype b /\ device a = device b.
Proof.
  unfold compare_tensor_meta, ndim. simpl.
  rewrite <- compare_shape_pairs_prefix.
  destruct (compare_shape_pairs (combine (shape a) (shape b))) as [[]|e]; simpl.
  - destruct (dtype_eqb (dtype a) (dtype b)) eqn:Ed; simpl.
    + apply dtype_eqb_eq in Ed.
      destruct (device_eqb (device a) (device b)) eqn:Ev; simpl.
      * apply device_eqb_eq in Ev. tauto.
      * split; [discriminate|]. intros (_ & _ & H).
        apply device_eqb_eq in H. congruence.
    + split; [discriminate|]. intros (_ & H & _).
      apply dtype_eqb_eq in H. congruence.
  - split; [discriminate|]. intros (H & _). discriminate H.
Qed.

(** [compare_tensor_meta] succeeds exactly when the shapes agree up to the
    shorter rank and dtype and device are equal; for tensors of one rank
    that is: shape, dtype and device are equal.  The comparison is
    symmetric, does not look at the strides, and fails with an assertion
    error on an argument that is not a tensor. *)
Theorem compare_tensor_meta_characterised (a b : TensorLike)
  (strides_a strides_b : list Z) (x : pyobj) :
  (compare_tensor_meta (PyTensor a) (PyTensor b) = Ok tt <->
   firstn (Nat.min (ndim a) (ndim b)) (shape a)
   = firstn (Nat.min (ndim a) (ndim b)) (shape b) /\
   dtype a = dtype b /\ device a = device b) /\
  (ndim a = ndim b ->
   (compare_tensor_meta (PyTensor a) (PyTensor b) = Ok tt <->
    shape a = shape b /\ dtype a = dtype b /\ device a = device b)) /\
  (compare_tensor_meta (PyTensor a) (PyTensor b) = Ok tt <->
   compare_tensor_meta (PyTensor b) (PyTensor a) = Ok tt) /\
  compare_tensor_meta (PyTensor (with_strides a strides_a))
                      (PyTensor (with_strides b strides_b))
  = compare_tensor_meta (PyTensor a) (PyTensor b) /\
  (isinstance_TensorLike x = false ->
   compare_tensor_meta x (PyTensor b) = Raise (AssertionError "") /\
   compare_tensor_meta (PyTensor a) x = Raise (AssertionError "")).
Proof.
  split; [apply compare_tensor_meta_ok_iff|]. split; [|split; [|split]].
  - intro Hrank. rewrite compare_tensor_meta_ok_iff.
    unfold ndim in *. rewrite <- Hrank, Nat.min_id.
    rewrite firstn_all. rewrite Hrank, firstn_all. tauto.
  - rewrite !compare_tensor_meta_ok_iff. rewrite (Nat.min_comm (ndim b) (ndim a)).
    split; intros (H1 & H2 & H3); repeat split; congruence.
  - reflexivity.
  - intro Hx. destruct x; try discriminate Hx; split; reflexivity.
Qed.

Lemma compare_tensor_meta_characterised_witness :
  ndim (tensor_of [2; 3]%Z torch.int8) = ndim (tensor_of [2; 4]%Z torch.int8) /\
  compare_tensor_meta (PyTensor (tensor_of [2; 3]%Z torch.int8))
                      (PyTensor (tensor_of [2; 4]%Z torch.int8)) <> Ok tt /\
  compare_tensor_meta PyNone (PyTensor (tensor_of [2; 4]%Z torch.int8))
  = Raise (AssertionError "").
Proof.
  split; [reflexivity|]. split.
  - intro H.
    apply (proj1 (proj2 (compare_tensor_meta_characterised
             (tensor_of [2; 3]%Z torch.int8) (tensor_of [2; 4]%Z torch.int8)
             [] [] PyNone)) eq_refl) in H.
    destruct H as [H _]. discriminate H.
  - exact (proj1 (proj2 (proj2 (proj2 (proj2 (compare_tensor_meta_characterised
             (tensor_of [2; 3]%Z torch.int8) (tensor_of [2; 4]%Z torch.int8)
             [] [] PyNone)))) eq_refl)).
Defined.

End TensorMetaFull.

(** ** make_contiguous_strides_for *)

Section ContiguousStrides.

Local Open Scope Z_scope.
Local Open Scope list_scope.

#[local] Arguments Z.mul : simpl never.

Lemma for_each_ok {A : Type} (f : A -> result unit) (xs : list A) :
  is_ok (for_each f xs) = forallb (fun x => is_ok (f x)) xs.
Proof.
  induction xs as [|x xs IH]; [reflexivity|].
  simpl. destruct (f x) as [[]|e]; simpl; [exact IH | reflexivity].
Qed.

Lemma for_each_assert (c : Z -> Datatypes.bool) (xs : list Z) :
  for_each (fun x => py_assert (c x)) xs
  = if forallb c xs then Ok tt else Raise (AssertionError "").
Proof.
  induction xs as [|x xs IH]; [reflexivity|].
  simpl. destruct (c x); simpl; [exact IH | reflexivity].
Qed.

Lemma validate_shape_spec (shape : list Z) :
  validate_shape shape
  = if forallb (fun l => l >=? 0) shape then Ok tt else Raise (AssertionError "").
Proof. apply for_each_assert. Qed.

Lemma product_snoc (xs : list Z) (l : Z) :
  product (xs ++ [l]) = product xs * l.
Proof.
  unfold product. induction xs as [|x xs IH]; simpl; [ring|].
  rewrite IH. ring.
Qed.

Lemma suffix_products_snoc (xs : list Z) (l : Z) :
  product (xs ++ [l]) :: suffix_products (xs ++ [l])
  = map (fun v => v * l) (product xs :: suffix_products xs) ++ [1].
Proof.
  induction xs as [|x xs IH].
  - simpl. f_equal. ring.
  - change (suffix_products ((x :: xs) ++ [l]))
      with (product (xs ++ [l]) :: suffix_products (xs ++ [l])).
    rewrite IH. rewrite product_snoc. reflexivity.
Qed.

(** What the stride loop leaves in [strides], read backwards. *)
Lemma make_contiguous_strides_loop_rev (ls : list Z) (m : Z) (acc : list Z) :
  rev (make_contiguous_strides_loop ls m (acc ++ [m]))
  = map (Z.mul m) (product (rev ls) :: suffix_products (rev ls)) ++ rev acc.
Proof.
  revert m acc. induction ls as [|l rest IH]; intros m acc.
  - simpl. rewrite rev_app_distr. simpl. f_equal. ring.
  - change (make_contiguous_strides_loop (l :: rest) m (acc ++ [m]))
      with (make_contiguous_strides_loop rest (l * m) ((acc ++ [m]) ++ [l * m])).
    rewrite (IH (l * m) (acc ++ [m])).
    change (rev (l :: rest)) with (rev rest ++ [l]).
    rewrite suffix_products_snoc, rev_app_distr, map_app, map_map.
    rewrite <- app_assoc. simpl. f_equal; [ring|]. f_equal.
    + apply map_ext. intro v. ring.
    + f_equal. ring.
Qed.

Lemma make_contiguous_strides_for_spec (shape : list Z) :
  make_contiguous_strides_for shape
  = if forallb (fun l => l >=? 0) shape then Ok (suffix_products shape)
    else Raise (AssertionError "").
Proof.
  unfold make_contiguous_strides_for. rewrite validate_shape_spec.
  destruct (forallb _ shape); [|reflexivity]. simpl.
  destruct shape as [|x tail]; [reflexivity|].
  f_equal.
  pose proof (make_contiguous_strides_loop_rev (rev tail) 1 []) as Hloop.
  cbn [app] in Hloop. rewrite Hloop.
  rewrite rev_involutive. cbn [rev]. rewrite app_nil_r. cbn [map].
  change (suffix_products (x :: tail)) with (product tail :: suffix_products tail).
  f_equal; [ring|].
  rewrite <- (map_id (suffix_products tail)) at 2.
  apply map_ext. intro v. ring.
Qed.

Lemma suffix_products_nth (shape : list Z) (i : nat) :
  (i < List.length shape)%nat ->
  nth i (suffix_products shape) 0 = product (skipn (S i) shape).
Proof.
  revert i. induction shape as [|x rest IH]; intros i Hi.
  - simpl in Hi. lia.
  - destruct i as [|i]; [reflexivity|].
    simpl in Hi. simpl nth. rewrite IH by lia. reflexivity.
Qed.

Lemma skipn_nth_cons (l : list Z) (n : nat) :
  (n < List.length l)%nat -> skipn n l = nth n l 0 :: skipn (S n) l.
Proof.
  revert n. induction l as [|x l IH]; intros n H; simpl in H; [lia|].
  destruct n as [|n]; [reflexivity|].
  simpl. apply IH. lia.
Qed.

Lemma suffix_products_length (shape : list Z) :
  List.length (suffix_products shape) = List.length shape.
Proof. induction shape; simpl; congruence. Qed.

(** [make_contiguous_strides_for] fails exactly when some length is
    negative.  Otherwise it returns one stride per dimension, the stride of
    a dimension being the product of the lengths to its right: the last
    stride is 1 and each stride is the next length times the next
    stride. *)
Theorem make_contiguous_strides_for_products (shape : list Z) :
  is_ok (make_contiguous_strides_for shape) = forallb (fun l => l >=? 0) shape /\
  (forall strides, make_contiguous_strides_for shape = Ok strides ->
     List.length strides = List.length shape /\
     (forall i, (i < List.length shape)%nat ->
        nth i strides 0 = product (skipn (S i) shape)) /\
     (forall i, (S i < List.length shape)%nat ->
        nth i strides 0 = nth (S i) shape 0 * nth (S i) strides 0) /\
     (shape <> [] -> last strides 0 = 1)).
Proof.
  rewrite make_contiguous_strides_for_spec.
  destruct (forallb (fun l => l >=? 0) shape); split; try reflexivity;
    intros strides H; [|discriminate H].
  inversion H; subst strides. clear H.
  split; [apply suffix_products_length|]. split; [|split].
  - intros i Hi. apply suffix_products_nth. exact Hi.
  - intros i Hi. rewrite !suffix_products_nth by lia.
    pose proof (skipn_nth_cons shape (S i) Hi) as Hs.
    rewrite Hs. reflexivity.
  - intro Hne. induction shape as [|x rest IH]; [contradiction|].
    destruct rest as [|y rest']; [reflexivity|].
    change (suffix_products (x :: y :: rest'))
      with (product (y :: rest') :: suffix_products (y :: rest')).
    change (last (?a :: suffix_products (y :: rest')) 0)
      with (last (suffix_products (y :: rest')) 0).
    apply IH. discriminate.
Qed.

Example make_contiguous_strides_for_examples :
  make_contiguous_strides_for [2; 3; 4] = Ok [12; 4; 1] /\
  make_contiguous_strides_for [] = Ok [] /\
  make_contiguous_strides_for [2; 0; 3] = Ok [0; 3; 1] /\
  make_contiguous_strides_for [2; -1] = Raise (AssertionError "").
Proof. repeat split. Qed.

End ContiguousStrides.

(** ** Reductions *)

Section Reductions.

Local Open Scope Z_scope.
Local Open Scope list_scope.

Lemma range_NoDup (start stop : Z) : NoDup (range start stop).
Proof.
  unfold range. apply Finite.Injective_map_NoDup; [|apply seq_NoDup].
  intros a b Hab. lia.
Qed.

Lemma range_In (stop i : Z) : In i (range 0 stop) <-> 0 <= i < stop.
Proof.
  unfold range. rewrite in_map_iff. split.
  - intros (n & <- & Hn). apply in_seq in Hn. lia.
  - intro Hi. exists (Z.to_nat i). split; [lia|]. apply in_seq. lia.
Qed.

Lemma range_length (stop : Z) : len (range 0 stop) = Z.max 0 stop.
Proof. unfold len, range. rewrite length_map, length_seq. lia. Qed.

Lemma map_nth_seq (l : list Z) :
  map (fun i => nth i l 0) (seq 0 (List.length l)) = l.
Proof.
  induction l as [|x rest IH]; [reflexivity|].
  simpl List.length. cbn [seq map nth]. f_equal.
  rewrite <- seq_shift, map_map. exact IH.
Qed.

Lemma map_nth_range (shape : list Z) :
  map (fun i => nth (Z.to_nat i) shape 0) (range 0 (len shape)) = shape.
Proof.
  unfold range, len. rewrite map_map.
  replace (Z.to_nat (Z.of_nat (List.length shape) - 0)) with (List.length shape) by lia.
  transitivity (map (fun i => nth i shape 0) (seq 0 (List.length shape)));
    [|apply map_nth_seq].
  apply map_ext. intro i. f_equal. lia.
Qed.

Lemma reduction_output_loop_spec (shape dimensions idxs new_shape : list Z) :
  reduction_output_loop shape dimensions idxs new_shape
  = new_shape ++
    map (fun i => nth (Z.to_nat i) shape 0)
      (List.filter (fun i => negb (existsb (Z.eqb i) dimensions)) idxs).
Proof.
  revert new_shape. induction idxs as [|i rest IH]; intro new_shape; simpl.
  - rewrite app_nil_r. reflexivity.
  - destruct (existsb (Z.eqb i) dimensions); simpl; rewrite IH; [reflexivity|].
    rewrite <- app_assoc. reflexivity.
Qed.

Lemma existsb_eqb_In (i : Z) (l : list Z) :
  existsb (Z.eqb i) l = true <-> In i l.
Proof.
  rewrite existsb_exists. split.
  - intros (x & Hin & Hx). apply Z.eqb_eq in Hx. subst. exact Hin.
  - intro Hin. exists i. split; [exact Hin | apply Z.eqb_refl].
Qed.

Lemma compute_reduction_output_shape_spec (shape dimensions : list Z) :
  compute_reduction_output_shape shape dimensions
  = if forallb (fun d => (d >=? 0) && (d <? Z.max 1 (len shape))) dimensions
    then Ok (kept_lengths shape dimensions)
    else Raise (AssertionError "").
Proof.
  unfold compute_reduction_output_shape, validate_idx.
  rewrite for_each_assert.
  assert (Hnd : (if negb (len shape =? 0) then len shape else 1) = Z.max 1 (len shape)).
  { unfold len. destruct (Z.eqb_spec (Z.of_nat (List.length shape)) 0); simpl; lia. }
  rewrite Hnd. destruct (forallb _ dimensions); [|reflexivity].
  simpl. rewrite reduction_output_loop_spec. reflexivity.
Qed.

(** The positions of a shape that a list of valid, distinct dimensions
    leaves are as many as the rank minus the number of dimensions. *)
Lemma kept_lengths_length (shape dimensions : list Z) :
  NoDup dimensions ->
  (forall d, In d dimensions -> 0 <= d < len shape) ->
  (List.length (kept_lengths shape dimensions) + List.length dimensions
   = List.length shape)%nat.
Proof.
  intros Hnd Hin. unfold kept_lengths. rewrite length_map.
  pose proof (filter_length (fun i => existsb (Z.eqb i) dimensions)
                (range 0 (len shape))) as Hsplit.
  assert (Hperm : Permutation
            (List.filter (fun i => existsb (Z.eqb i) dimensions) (range 0 (len shape)))
            dimensions).
  { apply NoDup_Permutation.
    - apply NoDup_filter. apply range_NoDup.
    - exact Hnd.
    - intro i. rewrite filter_In, existsb_eqb_In, range_In. split.
      + intros [_ H]. exact H.
      + intro H. split; [apply Hin; exact H | exact H]. }
  apply Permutation_length in Hperm.
  assert (Hlen : List.length (range 0 (len shape)) = List.length shape).
  { pose proof (range_length (len shape)) as H. unfold len in *. lia. }
  lia.
Qed.

Lemma filter_none {A : Type} (f : A -> Datatypes.bool) (l : list A) :
  (forall x, In x l -> f x = false) -> List.filter f l = [].
Proof.
  induction l as [|x l IH]; intro H; [reflexivity|].
  simpl. rewrite (H x (or_introl eq_refl)). apply IH.
  intros y Hy. apply H. right. exact Hy.
Qed.

(** [compute_reduction_output_shape] succeeds exactly when every dimension
    is at least 0 and below [max 1 (len shape)].  It then returns the
    lengths at the positions that are not listed, in order: the shape
    itself when no dimension is listed, the empty shape for the empty
    shape, and [len shape] minus the number of dimensions many lengths
    when the dimensions are distinct and the shape is not empty. *)
Theorem compute_reduction_output_shape_kept (shape dimensions : list Z) :
  is_ok (compute_reduction_output_shape shape dimensions)
  = forallb (fun d => (d >=? 0) && (d <? Z.max 1 (len shape))) dimensions /\
  (forall out, compute_reduction_output_shape shape dimensions = Ok out ->
     out = kept_lengths shape dimensions /\
     (shape = [] -> out = []) /\
     (NoDup dimensions -> shape <> [] ->
      (List.length out + List.length dimensions = List.length shape)%nat)) /\
  compute_reduction_output_shape shape [] = Ok shape.
Proof.
  rewrite !compute_reduction_output_shape_spec.
  split; [|split].
  - destruct (forallb _ dimensions); reflexivity.
  - intros out Hout.
    destruct (forallb (fun d => (d >=? 0) && (d <? Z.max 1 (len shape))) dimensions)
      eqn:Hvalid; [|discriminate Hout].
    inversion Hout; subst out. clear Hout.
    split; [reflexivity|]. split.
    + intros ->. reflexivity.
    + intros Hnd Hne. apply kept_lengths_length; [exact Hnd|].
      intros d Hd. rewrite forallb_forall in Hvalid. specialize (Hvalid d Hd).
      apply andb_true_iff in Hvalid. destruct Hvalid as [H0 H1].
      assert (0 < len shape).
      { destruct shape; [contradiction | unfold len; simpl; lia]. }
      lia.
  - simpl. unfold kept_lengths. simpl existsb.
    assert (Hall : List.filter (fun _ : Z => negb false) (range 0 (len shape))
                   = range 0 (len shape)).
    { apply forallb_filter_id. apply forallb_forall. reflexivity. }
    rewrite Hall, map_nth_range. reflexivity.
Qed.

Lemma nodup_length_le (l : list Z) :
  (List.length (nodup Z.eq_dec l) <= List.length l)%nat.
Proof.
  induction l as [|x l IH]; simpl; [lia|].
  destruct (in_dec Z.eq_dec x l); simpl; lia.
Qed.

Lemma nodup_length_eq (l : list Z) :
  (len l =? len (nodup Z.eq_dec l)) = true <-> NoDup l.
Proof.
  rewrite Z.eqb_eq. unfold len. split.
  - intro H. apply Nat2Z.inj in H.
    induction l as [|x l IH]; [constructor|].
    simpl in H. destruct (in_dec Z.eq_dec x l) as [Hin|Hnin].
    + pose proof (nodup_length_le l). lia.
    + simpl in H. constructor; [exact Hnin | apply IH; lia].
  - intro H. rewrite (nodup_fixed_point Z.eq_dec H). reflexivity.
Qed.

Lemma reduction_dims_canonical_facts (shape dims : list Z) :
  reduction_dims shape None = Ok (range 0 (len shape)) /\
  (r <- reduction_dims shape None ;; compute_reduction_output_shape shape r) = Ok [] /\
  (forall out, reduction_dims shape (Some dims) = Ok out ->
     Forall2 (fun d c => canonicalize_dim (len shape) d = Ok c) dims out /\
     NoDup out /\
     Forall (fun c => 0 <= c <= Z.max 1 (len shape)) out) /\
  (raises (reduction_dims shape (Some dims)) <->
   (exists d, In d dims /\ raises (canonicalize_dim (len shape) d)) \/
   (exists cs, Forall2 (fun d c => canonicalize_dim (len shape) d = Ok c) dims cs /\
               ~ NoDup cs)).
Proof.
  assert (Hlen : 0 <= len shape) by (unfold len; lia).
  split; [reflexivity|]. split; [|split].
  - simpl. rewrite compute_reduction_output_shape_spec.
    assert (Hvalid : forallb (fun d => (d >=? 0) && (d <? Z.max 1 (len shape)))
                       (range 0 (len shape)) = true).
    { apply forallb_forall. intros d Hd. apply range_In in Hd.
      apply andb_true_iff. split; [apply Z.geb_le | apply Z.ltb_lt]; lia. }
    rewrite Hvalid. f_equal. unfold kept_lengths.
    assert (Hnone : List.filter
              (fun i => negb (existsb (Z.eqb i) (range 0 (len shape))))
              (range 0 (len shape)) = []).
    { apply filter_none. intros i Hi.
      apply negb_false_iff. apply existsb_eqb_In. exact Hi. }
    rewrite Hnone. reflexivity.
  - intros out Hout. unfold reduction_dims in Hout.
    destruct (map_raising (canonicalize_dim (len shape)) dims) as [cs|e] eqn:Ecs;
      simpl in Hout; [|discriminate Hout].
    destruct (len cs =? len (nodup Z.eq_dec cs)) eqn:Edup; simpl in Hout;
      [|discriminate Hout].
    inversion Hout; subst out. clear Hout.
    apply map_raising_ok in Ecs. apply nodup_length_eq in Edup.
    split; [exact Ecs|]. split; [exact Edup|].
    clear Edup. induction Ecs as [|d c ds cs Hc _ IH]; constructor; [|exact IH].
    apply (proj2 (canonicalize_dim_range_facts (len shape) d Hlen) c Hc).
  - unfold reduction_dims.
    destruct (map_raising (canonicalize_dim (len shape)) dims) as [cs|e] eqn:Ecs;
      simpl.
    + pose proof (proj1 (map_raising_ok _ _ _) Ecs) as Hcs.
      destruct (len cs =? len (nodup Z.eq_dec cs)) eqn:Edup; simpl.
      * apply nodup_length_eq in Edup. split.
        -- intros [e H]. discriminate H.
        -- intros [(d & Hin & Hr) | (cs' & Hcs' & Hdup)].
           ++ exfalso. apply (not_raises_Ok cs). rewrite <- Ecs.
              apply map_raising_raises. eauto.
           ++ apply map_raising_ok in Hcs'. rewrite Ecs in Hcs'.
              inversion Hcs'; subst. contradiction.
      * split; [|intros _; apply raises_Raise].
        intros _. right. exists cs. split; [exact Hcs|].
        intro Hnd. apply nodup_length_eq in Hnd. congruence.
    + split; [|intros _; apply raises_Raise].
      intros _. left. apply map_raising_raises. rewrite Ecs. apply raises_Raise.
Qed.

(** [reduction_dims] without dims lists every position of the shape, and
    reducing over all of them leaves the empty shape.  With dims it returns
    their canonical forms, which are pairwise different and lie between 0
    and [max 1 (len shape)]; it fails exactly when some dim is refused by
    [canonicalize_dim] or two dims have the same canonical form. *)
Theorem reduction_dims_canonical (shape dims : list Z) :
  reduction_dims shape None = Ok (range 0 (len shape)) /\
  (r <- reduction_dims shape None ;; compute_reduction_output_shape shape r) = Ok [] /\
  (forall out, reduction_dims shape (Some dims) = Ok out ->
     Forall2 (fun d c => canonicalize_dim (len shape) d = Ok c) dims out /\
     NoDup out /\
     Forall (fun c => 0 <= c <= Z.max 1 (len shape)) out) /\
  (raises (reduction_dims shape (Some dims)) <->
   (exists d, In d dims /\ raises (canonicalize_dim (len shape) d)) \/
   (exists cs, Forall2 (fun d c => canonicalize_dim (len shape) d = Ok c) dims cs /\
               ~ NoDup cs)).
Proof. exact (reduction_dims_canonical_facts shape dims). Qed.

Example reduction_dims_examples :
  reduction_dims [2; 3; 4] (Some [-1; 0]) = Ok [2; 0] /\
  reduction_dims [2; 3; 4] (Some [-1; 2])
  = Raise (RuntimeError "duplicate value in the list of dims") /\
  reduction_dims [2; 3; 4] (Some [4])
  = Raise (ValueError "Received out of bounds index {0} for tensor of rank {1}!") /\
  reduction_dims [] (Some [-1; 0])
  = Raise (RuntimeError "duplicate value in the list of dims").
Proof. repeat split. Qed.

End Reductions.

Section ReductionComposition.

Local Open Scope Z_scope.
Local Open Scope list_scope.

(** Dims between [- len shape] and [len shape - 1] that [reduction_dims]
    accepts are accepted by [compute_reduction_output_shape] too, and the
    reduced shape has one length fewer per dim.  The dim [len shape] itself
    is accepted by [reduction_dims] and refused by
    [compute_reduction_output_shape]. *)
Theorem reduction_dims_then_output_shape (shape dims out : list Z) :
  (forall d, In d dims -> - len shape <= d < len shape) ->
  reduction_dims shape (Some dims) = Ok out ->
  (exists reduced,
      compute_reduction_output_shape shape out = Ok reduced /\
      (List.length reduced + List.length dims = List.length shape)%nat) /\
  (shape <> [] ->
   reduction_dims shape (Some [len shape]) = Ok [len shape] /\
   compute_reduction_output_shape shape [len shape] = Raise (AssertionError "")).
Proof.
  intros Hrange Hout.
  assert (Hlen : 0 <= len shape) by (unfold len; lia).
  split.
  - destruct (proj1 (proj2 (proj2 (reduction_dims_canonical_facts shape dims))) out Hout)
      as (Hcanon & Hnd & _).
    assert (Hin : forall c, In c out -> 0 <= c < len shape).
    { clear Hout Hnd. induction Hcanon as [|d c ds cs Hc _ IH];
        intros c' Hc'; [destruct Hc'|].
      destruct Hc' as [<- | Hc'].
      - assert (Hd : - len shape <= d < len shape)
          by (apply Hrange; left; reflexivity).
        destruct (canonicalize_dim_cases (len shape) d Hlen) as (_ & Hneg & Hpos & _).
        destruct (Z.lt_ge_cases d 0).
        + rewrite Hneg in Hc by lia. inversion Hc. lia.
        + rewrite Hpos in Hc by lia. inversion Hc. lia.
      - apply IH; [|exact Hc']. intros d' Hd'. apply Hrange. right. exact Hd'. }
    exists (kept_lengths shape out). split.
    + rewrite compute_reduction_output_shape_spec.
      assert (Hvalid : forallb (fun d => (d >=? 0) && (d <? Z.max 1 (len shape))) out
                       = true).
      { apply forallb_forall. intros c Hc. specialize (Hin c Hc).
        apply andb_true_iff. split; [apply Z.geb_le | apply Z.ltb_lt]; lia. }
      rewrite Hvalid. reflexivity.
    + rewrite (Forall2_length Hcanon).
      apply kept_lengths_length; assumption.
  - intro Hne.
    assert (Hpos : 0 < len shape).
    { destruct shape; [contradiction | unfold len; simpl; lia]. }
    split.
    + unfold reduction_dims. simpl.
      rewrite (proj1 (proj2 (proj2 (canonicalize_dim_cases (len shape) (len shape) Hlen))))
        by lia.
      reflexivity.
    + rewrite compute_reduction_output_shape_spec. simpl.
      destruct (Z.geb_spec (len shape) 0); [|lia].
      destruct (Z.ltb_spec (len shape) (Z.max 1 (len shape))); [lia|].
      reflexivity.
Qed.

Lemma reduction_dims_then_output_shape_witness :
  (forall d, In d [-1; 0] -> - len [2; 3; 4] <= d < len [2; 3; 4]) /\
  reduction_dims [2; 3; 4] (Some [-1; 0]) = Ok [2; 0] /\
  (exists reduced,
      compute_reduction_output_shape [2; 3; 4] [2; 0] = Ok reduced /\
      (List.length reduced + List.length [(-1)%Z; 0%Z]
       = List.length [2%Z; 3%Z; 4%Z])%nat).
Proof.
  assert (Hr : forall d, In d [-1; 0] -> - len [2; 3; 4] <= d < len [2; 3; 4]).
  { intros d [<- | [<- | []]]; unfold len; simpl; lia. }
  split; [exact Hr|]. split; [reflexivity|].
  exact (proj1 (reduction_dims_then_output_shape [2; 3; 4] [-1; 0] [2; 0]
                  Hr eq_refl)).
Defined.

End ReductionComposition.

(** ** TensorMeta *)

Section TensorMetaNew.



End TensorMetaNew.

(** ** elementwise_dtypes: the scans in general *)

Lemma fold_left_permutation {A B : Type} (f : A -> B -> A)
  (I : A -> Prop) (Q : B -> Prop) :
  (forall a x, I a -> Q x -> I (f a x)) ->
  (forall a x y, I a -> Q x -> Q y -> f (f a x) y = f (f a y) x) ->
  forall l l', Permutation l l' -> Forall Q l ->
  forall a, I a -> fold_left f l a = fold_left f l' a.
Proof.
  intros Hstep Hcomm l l' Hperm.
  induction Hperm as [|x l l' Hp IH|x y l|l l' l'' Hp1 IH1 Hp2 IH2];
    intros HQ a Ha.
  - reflexivity.
  - inversion HQ; subst. simpl. apply IH; [assumption|]. apply Hstep; assumption.
  - inversion HQ as [|? ? Hy HQ']; subst. inversion HQ' as [|? ? Hx HQ'']; subst.
    simpl. rewrite (Hcomm a y x); auto.
  - rewrite IH1 by assumption. apply IH2; [|assumption].
    apply (Permutation_Forall Hp1). exact HQ.
Qed.

Section Scan.

Variable filter_ : torch.dtype -> Datatypes.bool.
Variable float_as_complex : Datatypes.bool.
Variable P : torch.dtype -> Datatypes.bool.

Hypothesis filtered_view : forall d, filter_ d = true ->
  (if float_as_complex && is_float_dtype d
   then corresponding_complex_dtype d else Ok d)
  = Ok (scan_view float_as_complex d) /\
  P (scan_view float_as_complex d) = true.

Hypothesis class_closed : forall a c, P a = true -> P c = true ->
  exists r, get_higher_dtype (PyDtype a) (PyDtype c) = Ok (Some r) /\ P r = true.

Lemma higher_of_step (acc : option torch.dtype) (c : torch.dtype) :
  absent_or P acc = true -> P c = true ->
  get_higher_dtype (optional_dtype acc) (PyDtype c) = Ok (higher_of acc c) /\
  absent_or P (higher_of acc c) = true.
Proof.
  intros Ha Hc. unfold higher_of. destruct acc as [a|]; simpl in Ha.
  - destruct (class_closed a c Ha Hc) as (r & Hr & HP).
    simpl optional_dtype. rewrite Hr. split; [reflexivity | exact HP].
  - split; [reflexivity | exact Hc].
Qed.

Lemma fold_higher_of_class (ds : list torch.dtype) (acc : option torch.dtype) :
  absent_or P acc = true -> Forall (fun d => P d = true) ds ->
  absent_or P (fold_left higher_of ds acc) = true.
Proof.
  revert acc. induction ds as [|d ds IH]; intros acc Ha Hds; [exact Ha|].
  inversion Hds; subst. simpl. apply IH; [|assumption].
  apply higher_of_step; assumption.
Qed.

Lemma scanned_dtypes_class (keep : TensorLike -> Datatypes.bool) (args : list pyobj) :
  Forall (fun d => P d = true) (scanned_dtypes filter_ float_as_complex keep args).
Proof.
  unfold scanned_dtypes. apply Forall_forall. intros d Hd.
  apply in_map_iff in Hd. destruct Hd as (t & <- & Ht).
  apply filter_In in Ht. destruct Ht as [Ht _].
  apply filter_In in Ht. destruct Ht as [_ Ht].
  apply (filtered_view (dtype t) Ht).
Qed.

Lemma scanned_dtypes_cons_other (keep : TensorLike -> Datatypes.bool)
  (x : pyobj) (rest : list pyobj) :
  isinstance_TensorLike x = false ->
  scanned_dtypes filter_ float_as_complex keep (x :: rest)
  = scanned_dtypes filter_ float_as_complex keep rest.
Proof. destruct x; simpl; intro H; try discriminate H; reflexivity. Qed.

Lemma scanned_dtypes_cons_tensor (keep : TensorLike -> Datatypes.bool)
  (t : TensorLike) (rest : list pyobj) :
  scanned_dtypes filter_ float_as_complex keep (PyTensor t :: rest)
  = if filter_ (dtype t) && keep t
    then scan_view float_as_complex (dtype t)
         :: scanned_dtypes filter_ float_as_complex keep rest
    else scanned_dtypes filter_ float_as_complex keep rest.
Proof.
  unfold scanned_dtypes. simpl.
  destruct (filter_ (dtype t)); simpl; [|reflexivity].
  destruct (keep t); reflexivity.
Qed.

(** The loop of the scan never fails on a class of dtypes that is closed
    under [get_higher_dtype], and folds [higher_of] over each of the two
    groups of tensors. *)
Lemma _find_highest_dtype_filtered_loop_closed
  (all_tensors_equal : Datatypes.bool) (args : list pyobj)
  (zero one : option torch.dtype) :
  absent_or P zero = true -> absent_or P one = true ->
  _find_highest_dtype_filtered_loop filter_ float_as_complex all_tensors_equal
    zero one args
  = Ok (fold_left higher_of
          (scanned_dtypes filter_ float_as_complex
             (fun t => negb (counts_as_ranked all_tensors_equal t)) args) zero,
        fold_left higher_of
          (scanned_dtypes filter_ float_as_complex
             (counts_as_ranked all_tensors_equal) args) one).
Proof.
  revert zero one.
  induction args as [|x rest IH]; intros zero one Hz Ho; [reflexivity|].
  destruct x as [|k|t|d|s];
    try (rewrite !scanned_dtypes_cons_other by reflexivity;
         simpl; apply IH; assumption).
  rewrite !scanned_dtypes_cons_tensor.
  cbn [_find_highest_dtype_filtered_loop].
  destruct (filter_ (dtype t)) eqn:Ef; [|apply IH; assumption].
  destruct (filtered_view (dtype t) Ef) as [Hview Hc].
  rewrite Hview. cbn [bind]. rewrite zero_dim_branch.
  destruct (counts_as_ranked all_tensors_equal t); cbn [negb andb].
  - destruct (higher_of_step one _ Ho Hc) as [Hstep Hcls].
    rewrite Hstep. cbn [bind fold_left]. apply IH; assumption.
  - destruct (higher_of_step zero _ Hz Hc) as [Hstep Hcls].
    rewrite Hstep. cbn [bind fold_left]. apply IH; assumption.
Qed.

Lemma _find_highest_dtype_filtered_closed
  (all_tensors_equal : Datatypes.bool) (args : list pyobj) :
  _find_highest_dtype_filtered args filter_ float_as_complex all_tensors_equal
  = Ok (preferred_highest filter_ float_as_complex all_tensors_equal args) /\
  absent_or P (preferred_highest filter_ float_as_complex all_tensors_equal args)
  = true.
Proof.
  unfold _find_highest_dtype_filtered, preferred_highest, highest_dtype.
  rewrite _find_highest_dtype_filtered_loop_closed by reflexivity.
  cbn [bind fst snd].
  pose proof (fold_higher_of_class
                (scanned_dtypes filter_ float_as_complex
                   (counts_as_ranked all_tensors_equal) args)
                None eq_refl (scanned_dtypes_class _ args)) as Hone.
  pose proof (fold_higher_of_class
                (scanned_dtypes filter_ float_as_complex
                   (fun t => negb (counts_as_ranked all_tensors_equal t)) args)
                None eq_refl (scanned_dtypes_class _ args)) as Hzero.
  destruct (fold_left higher_of
              (scanned_dtypes filter_ float_as_complex
                 (counts_as_ranked all_tensors_equal) args) None) as [d|];
    split; try reflexivity; assumption.
Qed.

Hypothesis class_commutes : forall a x y,
  absent_or P a = true -> P x = true -> P y = true ->
  higher_of (higher_of a x) y = higher_of (higher_of a y) x.

Lemma scanned_dtypes_permutation (keep : TensorLike -> Datatypes.bool)
  (args args' : list pyobj) :
  Permutation args args' ->
  Permutation (scanned_dtypes filter_ float_as_complex keep args)
              (scanned_dtypes filter_ float_as_complex keep args').
Proof.
  intro Hp. unfold scanned_dtypes. apply Permutation_map.
  assert (Hfilter : forall (A : Type) (f : A -> Datatypes.bool) (l l' : list A),
             Permutation l l' -> Permutation (List.filter f l) (List.filter f l')).
  { intros A f l l' H. induction H; simpl.
    - constructor.
    - destruct (f x); [constructor|]; assumption.
    - destruct (f x), (f y); try reflexivity. apply perm_swap.
    - etransitivity; eassumption. }
  apply Hfilter. apply Hfilter. unfold tensors_of.
  apply Permutation_flat_map. exact Hp.
Qed.

Lemma preferred_highest_permutation (all_tensors_equal : Datatypes.bool)
  (args args' : list pyobj) :
  Permutation args args' ->
  preferred_highest filter_ float_as_complex all_tensors_equal args
  = preferred_highest filter_ float_as_complex all_tensors_equal args'.
Proof.
  intro Hp. unfold preferred_highest, highest_dtype.
  assert (Hfold : forall keep,
             fold_left higher_of (scanned_dtypes filter_ float_as_complex keep args) None
             = fold_left higher_of (scanned_dtypes filter_ float_as_complex keep args') None).
  { intro keep.
    apply (fold_left_permutation higher_of
             (fun a => absent_or P a = true) (fun d => P d = true)).
    - intros a x Ha Hx. apply higher_of_step; assumption.
    - intros a x y Ha Hx Hy. apply class_commutes; assumption.
    - apply scanned_dtypes_permutation. exact Hp.
    - apply scanned_dtypes_class.
    - reflexivity. }
  rewrite !Hfold. reflexivity.
Qed.

End Scan.

(** ** elementwise_dtypes: the three classes of dtypes *)

Section Classes.

Lemma float_class_view (d : torch.dtype) :
  is_float_dtype d = true ->
  (if false && is_float_dtype d then corresponding_complex_dtype d else Ok d)
  = Ok (scan_view false d) /\
  is_float_dtype (scan_view false d) = true.
Proof. intro H. split; [reflexivity | exact H]. Qed.

Lemma integer_class_view (d : torch.dtype) :
  is_integer_dtype d = true ->
  (if false && is_float_dtype d then corresponding_complex_dtype d else Ok d)
  = Ok (scan_view false d) /\
  is_integer_dtype (scan_view false d) = true.
Proof. intro H. split; [reflexivity | exact H]. Qed.

Lemma complex_class_view (d : torch.dtype) :
  float_or_complex d = true ->
  (if true && is_float_dtype d then corresponding_complex_dtype d else Ok d)
  = Ok (scan_view true d) /\
  is_complex_dtype (scan_view true d) = true.
Proof. destruct d; intro H; try discriminate H; split; reflexivity. Qed.

Ltac close_class a c Ha Hc :=
  destruct a; try discriminate Ha; destruct c; try discriminate Hc;
  eexists; split; reflexivity.

Lemma float_class_closed (a c : torch.dtype) :
  is_float_dtype a = true -> is_float_dtype c = true ->
  exists r, get_higher_dtype (PyDtype a) (PyDtype c) = Ok (Some r) /\
            is_float_dtype r = true.
Proof. intros Ha Hc. close_class a c Ha Hc. Qed.

Lemma integer_class_closed (a c : torch.dtype) :
  is_integer_dtype a = true -> is_integer_dtype c = true ->
  exists r, get_higher_dtype (PyDtype a) (PyDtype c) = Ok (Some r) /\
            is_integer_dtype r = true.
Proof. intros Ha Hc. close_class a c Ha Hc. Qed.

Lemma complex_class_closed (a c : torch.dtype) :
  is_complex_dtype a = true -> is_complex_dtype c = true ->
  exists r, get_higher_dtype (PyDtype a) (PyDtype c) = Ok (Some r) /\
            is_complex_dtype r = true.
Proof. intros Ha Hc. close_class a c Ha Hc. Qed.

Ltac commute_class a x y Ha Hx Hy :=
  destruct x; try discriminate Hx; destruct y; try discriminate Hy;
  (destruct a as [a|]; [destruct a; try discriminate Ha|]); reflexivity.

Lemma float_class_commutes (a : option torch.dtype) (x y : torch.dtype) :
  absent_or is_float_dtype a = true ->
  is_float_dtype x = true -> is_float_dtype y = true ->
  higher_of (higher_of a x) y = higher_of (higher_of a y) x.
Proof. intros Ha Hx Hy. commute_class a x y Ha Hx Hy. Qed.

Lemma integer_class_commutes (a : option torch.dtype) (x y : torch.dtype) :
  absent_or is_integer_dtype a = true ->
  is_integer_dtype x = true -> is_integer_dtype y = true ->
  higher_of (higher_of a x) y = higher_of (higher_of a y) x.
Proof. intros Ha Hx Hy. commute_class a x y Ha Hx Hy. Qed.

Lemma complex_class_commutes (a : option torch.dtype) (x y : torch.dtype) :
  absent_or is_complex_dtype a = true ->
  is_complex_dtype x = true -> is_complex_dtype y = true ->
  higher_of (higher_of a x) y = higher_of (higher_of a y) x.
Proof. intros Ha Hx Hy. commute_class a x y Ha Hx Hy. Qed.

Lemma class_number_type (d : torch.dtype) :
  (is_integer_dtype d = true -> dtype_to_type d = Ok py_int) /\
  (is_float_dtype d = true -> dtype_to_type d = Ok py_float) /\
  (is_complex_dtype d = true -> dtype_to_type d = Ok py_complex).
Proof. destruct d; repeat split; intro H; try discriminate H; reflexivity. Qed.

Lemma find_float (all_tensors_equal : Datatypes.bool) (args : list pyobj) :
  _find_highest_dtype_filtered args is_float_dtype false all_tensors_equal
  = Ok (preferred_highest is_float_dtype false all_tensors_equal args) /\
  absent_or is_float_dtype
    (preferred_highest is_float_dtype false all_tensors_equal args) = true.
Proof.
  apply (_find_highest_dtype_filtered_closed is_float_dtype false is_float_dtype
           float_class_view float_class_closed).
Qed.

Lemma find_integer (all_tensors_equal : Datatypes.bool) (args : list pyobj) :
  _find_highest_dtype_filtered args is_integer_dtype false all_tensors_equal
  = Ok (preferred_highest is_integer_dtype false all_tensors_equal args) /\
  absent_or is_integer_dtype
    (preferred_highest is_integer_dtype false all_tensors_equal args) = true.
Proof.
  apply (_find_highest_dtype_filtered_closed is_integer_dtype false is_integer_dtype
           integer_class_view integer_class_closed).
Qed.

Lemma find_complex (all_tensors_equal : Datatypes.bool) (args : list pyobj) :
  _find_highest_dtype_filtered args float_or_complex true all_tensors_equal
  = Ok (preferred_highest float_or_complex true all_tensors_equal args) /\
  absent_or is_complex_dtype
    (preferred_highest float_or_complex true all_tensors_equal args) = true.
Proof.
  apply (_find_highest_dtype_filtered_closed float_or_complex true is_complex_dtype
           complex_class_view complex_class_closed).
Qed.

End Classes.

(** ** elementwise_dtypes: the whole function *)

Section Elementwise.

Variable st : torch_state.

Lemma get_higher_type_max (a b : pytype) :
  get_higher_type a b = Ok (max_kind a b).
Proof. destruct a, b; reflexivity. Qed.

Lemma promotable_kind (x : pyobj) :
  promotable x = true ->
  match x with
  | PyNumber typ => kind_of x = typ
  | PyTensor t => dtype_to_type (dtype t) = Ok (kind_of x)
  | _ => False
  end.
Proof.
  destruct x as [|k|t|d|s]; simpl; intro H; try discriminate H; [reflexivity|].
  unfold listed in H. destruct (dtype_to_type (dtype t)); [reflexivity | discriminate H].
Qed.

Lemma highest_type_loop_ok (args : list pyobj) (h : pytype) :
  forallb promotable args = true ->
  highest_type_loop h args = Ok (fold_left max_kind (map kind_of args) h).
Proof.
  revert h. induction args as [|x rest IH]; intros h H; [reflexivity|].
  simpl in H. apply andb_true_iff in H. destruct H as [Hx Hrest].
  pose proof (promotable_kind x Hx) as Hk.
  destruct x as [|k|t|d|s]; try contradiction.
  - simpl. rewrite get_higher_type_max. simpl. apply IH. exact Hrest.
  - cbn [highest_type_loop]. rewrite Hk. cbn [bind].
    rewrite get_higher_type_max. cbn [bind map fold_left]. apply IH. exact Hrest.
Qed.

Lemma highest_type_loop_fail (args : list pyobj) (h : pytype) :
  forallb promotable args = false ->
  exists msg, highest_type_loop h args = Raise (ValueError msg).
Proof.
  revert h. induction args as [|x rest IH]; intros h H; [discriminate H|].
  simpl in H. destruct (promotable x) eqn:Hx.
  - simpl in H. pose proof (promotable_kind x Hx) as Hk.
    destruct x as [|k|t|d|s]; try contradiction.
    + simpl. rewrite get_higher_type_max. simpl. apply IH. exact H.
    + cbn [highest_type_loop]. rewrite Hk. cbn [bind].
      rewrite get_higher_type_max. cbn [bind]. apply IH. exact H.
  - destruct x as [|k|t|d|s]; try discriminate Hx;
      try (eexists; reflexivity).
    cbn [highest_type_loop]. simpl in Hx. unfold listed in Hx.
    destruct (dtype_to_type (dtype t)) as [k|e] eqn:E; [discriminate Hx|].
    assert (He : e = ValueError "Invalid dtype!").
    { destruct (dtype t); vm_compute in E; congruence. }
    subst e. eexists. reflexivity.
Qed.

Lemma fold_max_kind_bounds (l : list pytype) (h : pytype) :
  kind_rank h <= kind_rank (fold_left max_kind l h) /\
  (forall x, In x l -> kind_rank x <= kind_rank (fold_left max_kind l h)) /\
  (fold_left max_kind l h = h \/ In (fold_left max_kind l h) l).
Proof.
  revert h. induction l as [|x l IH]; intro h; simpl.
  - split; [lia|]. split; [intros x []|left; reflexivity].
  - destruct (IH (max_kind h x)) as (Hh & Hl & Hsrc).
    assert (Hmax : kind_rank h <= kind_rank (max_kind h x) /\
                   kind_rank x <= kind_rank (max_kind h x) /\
                   (max_kind h x = h \/ max_kind h x = x)).
    { unfold max_kind. destruct (Nat.ltb_spec (kind_rank h) (kind_rank x)).
      - repeat split; try lia. right. reflexivity.
      - repeat split; try lia. left. reflexivity. }
    destruct Hmax as (H1 & H2 & H3).
    split; [lia|]. split.
    + intros y [<- | Hy]; [lia | apply Hl; exact Hy].
    + destruct Hsrc as [Hsrc | Hsrc]; [|right; right; exact Hsrc].
      rewrite Hsrc. destruct H3 as [H3 | H3]; rewrite H3; auto.
Qed.

Lemma elementwise_highest_type_facts (args : list pyobj) :
  is_ok (highest_type_loop py_bool args) = forallb promotable args /\
  (forall k, highest_type_loop py_bool args = Ok k ->
     (forall x, In x args -> kind_rank (kind_of x) <= kind_rank k) /\
     (k = py_bool \/ exists x, In x args /\ kind_of x = k)).
Proof.
  destruct (forallb promotable args) eqn:Hall.
  - rewrite (highest_type_loop_ok args py_bool Hall). split; [reflexivity|].
    intros k Hk. inversion Hk; subst k. clear Hk.
    destruct (fold_max_kind_bounds (map kind_of args) py_bool) as (_ & Hl & Hsrc).
    split.
    + intros x Hx. apply Hl. apply in_map. exact Hx.
    + destruct Hsrc as [Hsrc | Hsrc]; [left; exact Hsrc|].
      right. apply in_map_iff in Hsrc. destruct Hsrc as (x & Hx & Hin). eauto.
  - destruct (highest_type_loop_fail args py_bool Hall) as (msg & Hmsg).
    rewrite Hmsg. split; [reflexivity|]. intros k Hk. discriminate Hk.
Qed.


Lemma preferred_highest_not_None (f : torch.dtype -> Datatypes.bool)
  (fac ate : Datatypes.bool) (_args : list pyobj) :
  preferred_highest f fac ate (List.filter (fun x => negb (is_None x)) _args)
  = preferred_highest f fac ate _args.
Proof.
  unfold preferred_highest, scanned_dtypes. rewrite tensors_of_not_None. reflexivity.
Qed.

(** The result dtype of the base promotion once step 1 has found the
    highest type. *)
Lemma elementwise_result_dtype_closed (_args : list pyobj) (k : pytype) :
  highest_type_loop py_bool (List.filter (fun x => negb (is_None x)) _args) = Ok k ->
  elementwise_result_dtype st _args
  = match k with
    | py_bool => Ok torch.bool
    | py_int =>
        Ok (or_else (preferred_highest is_integer_dtype false false _args) torch.long)
    | py_float =>
        Ok (or_else (preferred_highest is_float_dtype false false _args)
              (get_default_dtype st))
    | py_complex =>
        match preferred_highest float_or_complex true
                (negb (has_one_plus_dim_complex_tensor
                         (List.filter (fun x => negb (is_None x)) _args))) _args with
        | Some d => Ok d
        | None => corresponding_complex_dtype (get_default_dtype st)
        end
    end.
Proof.
  intro Hk. unfold elementwise_result_dtype. rewrite Hk. cbn [bind].
  destruct k.
  - reflexivity.
  - rewrite (proj1 (find_integer false _)), preferred_highest_not_None. reflexivity.
  - rewrite (proj1 (find_float false _)), preferred_highest_not_None. reflexivity.
  - destruct (has_one_plus_dim_complex_tensor _);
      rewrite (proj1 (find_complex _ _)), preferred_highest_not_None; reflexivity.
Qed.

Lemma preferred_highest_class (_args : list pyobj) (ate : Datatypes.bool) :
  absent_or is_integer_dtype (preferred_highest is_integer_dtype false ate _args) = true /\
  absent_or is_float_dtype (preferred_highest is_float_dtype false ate _args) = true /\
  absent_or is_complex_dtype (preferred_highest float_or_complex true ate _args) = true.
Proof.
  split; [apply find_integer | split; [apply find_float | apply find_complex]].
Qed.

Lemma elementwise_result_dtype_category_facts (_args : list pyobj) (k : pytype) :
  is_float_dtype (get_default_dtype st) = true ->
  highest_type_loop py_bool (List.filter (fun x => negb (is_None x)) _args) = Ok k ->
  exists R, elementwise_result_dtype st _args = Ok R /\ dtype_to_type R = Ok k.
Proof.
  intros Hdef Hk. rewrite (elementwise_result_dtype_closed _args k Hk).
  destruct k.
  - exists torch.bool. split; reflexivity.
  - destruct (preferred_highest_class _args false) as (Hi & _ & _).
    destruct (preferred_highest is_integer_dtype false false _args) as [d|];
      simpl in *; eexists; split; try reflexivity.
    apply (class_number_type d). exact Hi.
  - destruct (preferred_highest_class _args false) as (_ & Hf & _).
    destruct (preferred_highest is_float_dtype false false _args) as [d|];
      simpl in *; eexists; split; try reflexivity.
    + apply (class_number_type d). exact Hf.
    + apply (class_number_type (get_default_dtype st)). exact Hdef.
  - destruct (preferred_highest_class _args
                (negb (has_one_plus_dim_complex_tensor
                         (List.filter (fun x => negb (is_None x)) _args))))
      as (_ & _ & Hc).
    destruct (preferred_highest float_or_complex true _ _args) as [d|]; simpl in Hc.
    + exists d. split; [reflexivity|]. apply (class_number_type d). exact Hc.
    + pose proof (corresponding_complex_dtype_domain_facts (get_default_dtype st)) as Hdom.
      destruct (corresponding_complex_dtype (get_default_dtype st)) as [c|e].
      * exists c. split; [reflexivity|].
        apply (class_number_type c). apply Hdom.
      * destruct Hdom as [_ Hnot]. congruence.
Qed.

(** With a float dtype as default the base promotion succeeds whenever
    step 1 does, and its result dtype has the highest type step 1 found. *)
Theorem elementwise_result_dtype_category (_args : list pyobj) (k : pytype) :
  is_float_dtype (get_default_dtype st) = true ->
  highest_type_loop py_bool (List.filter (fun x => negb (is_None x)) _args) = Ok k ->
  exists R, elementwise_result_dtype st _args = Ok R /\ dtype_to_type R = Ok k.
Proof. exact (elementwise_result_dtype_category_facts _args k). Qed.

End Elementwise.

Lemma elementwise_result_dtype_category_witness :
  is_float_dtype (get_default_dtype float32_default) = true /\
  highest_type_loop py_bool
    (List.filter (fun x => negb (is_None x))
       [PyTensor (tensor_of [2%Z] torch.int32); PyNone; PyNumber py_float])
  = Ok py_float /\
  exists R,
    elementwise_result_dtype float32_default
      [PyTensor (tensor_of [2%Z] torch.int32); PyNone; PyNumber py_float] = Ok R /\
    dtype_to_type R = Ok py_float.
Proof.
  split; [reflexivity|]. split; [reflexivity|].
  exact (elementwise_result_dtype_category float32_default
           [PyTensor (tensor_of [2%Z] torch.int32); PyNone; PyNumber py_float]
           py_float eq_refl eq_refl).
Defined.

Section ElementwiseOutcome.

Variable st : torch_state.




(** What the promotion kinds guarantee about the returned pair, with a
    float dtype as default: ALWAYS_BOOL always answers bool; INT_TO_FLOAT
    never answers an integer or boolean dtype; COMPLEX_TO_FLOAT never
    answers a complex dtype; BOOL_TO_LONG never answers bool; OP_MATH,
    INT_TO_FLOAT and COMPLEX_TO_FLOAT never compute in float16, bfloat16 or
    complex32; and except for COMPLEX_TO_FLOAT and ALWAYS_BOOL the
    computation dtype has the number type of the result dtype. *)
Theorem elementwise_dtypes_guarantees (_args : list pyobj)
  (kind : ELEMENTWISE_TYPE_PROMOTION_KIND) (c r : torch.dtype) :
  is_float_dtype (get_default_dtype st) = true ->
  elementwise_dtypes st _args kind = Ok (c, r) ->
  match kind with
  | DEFAULT => c = r
  | OP_MATH =>
      ~ In c [torch.float16; torch.bfloat16; torch.complex32] /\
      dtype_to_type c = dtype_to_type r
  | INT_TO_FLOAT =>
      is_integer_dtype r = false /\ is_boolean_dtype r = false /\
      ~ In c [torch.float16; torch.bfloat16; torch.complex32] /\
      dtype_to_type c = dtype_to_type r
  | COMPLEX_TO_FLOAT =>
      is_complex_dtype r = false /\
      ~ In c [torch.float16; torch.bfloat16; torch.complex32]
  | BOOL_TO_LONG => is_boolean_dtype r = false /\ c = r
  | ALWAYS_BOOL => r = torch.bool
  end.
Proof.
  intros Hdef H. unfold elementwise_dtypes in H.
  destruct (elementwise_result_dtype st _args) as [R|e]; [|discriminate H].
  cbn [bind] in H.
  pose proof (_get_computation_dtype_properties_facts R) as (HkR & HnR & _).
  pose proof (_get_computation_dtype_properties_facts (get_default_dtype st))
    as (HkD & HnD & _).
  destruct kind; simpl in H.
  - inversion H. reflexivity.
  - destruct (is_integer_dtype R || is_boolean_dtype R) eqn:E;
      inversion H; subst c r.
    + repeat split; try assumption;
        destruct (get_default_dtype st); try discriminate Hdef; reflexivity.
    + apply orb_false_iff in E. destruct E. repeat split; assumption.
  - inversion H. reflexivity.
  - inversion H; subst c r. split; assumption.
  - destruct (is_complex_dtype R) eqn:E.
    + pose proof (corresponding_real_dtype_domain_facts R) as Hdom.
      destruct (corresponding_real_dtype R) as [r'|e]; [|discriminate H].
      cbn [bind] in H. inversion H; subst c r. split; [|assumption].
      destruct Hdom as (_ & Hfl & _).
      destruct r'; try discriminate Hfl; reflexivity.
    + inversion H; subst c r. split; assumption.
  - destruct (is_boolean_dtype R) eqn:E; inversion H; subst c r.
    + split; reflexivity.
    + split; [exact E | reflexivity].
Qed.

End ElementwiseOutcome.


Lemma elementwise_dtypes_guarantees_witness :
  is_float_dtype (get_default_dtype float32_default) = true /\
  elementwise_dtypes float32_default
    [PyTensor (tensor_of [2%Z] torch.int32)] INT_TO_FLOAT
  = Ok (torch.float32, torch.float32) /\
  is_integer_dtype torch.float32 = false.
Proof.
  split; [reflexivity|]. split; [reflexivity|].
  exact (proj1 (elementwise_dtypes_guarantees float32_default
                  [PyTensor (tensor_of [2%Z] torch.int32)] INT_TO_FLOAT
                  torch.float32 torch.float32 eq_refl eq_refl)).
Defined.

(** ** elementwise_dtypes: operand order and tensor rank *)

Lemma filter_permutation {A : Type} (f : A -> Datatypes.bool) (l l' : list A) :
  Permutation l l' -> Permutation (List.filter f l) (List.filter f l').
Proof.
  intro H. induction H; simpl.
  - constructor.
  - destruct (f x); [constructor|]; assumption.
  - destruct (f x), (f y); try reflexivity. apply perm_swap.
  - etransitivity; eassumption.
Qed.

Lemma forallb_permutation {A : Type} (f : A -> Datatypes.bool) (l l' : list A) :
  Permutation l l' -> forallb f l = forallb f l'.
Proof.
  intro H. induction H; simpl; try congruence.
  destruct (f x), (f y); reflexivity.
Qed.

Lemma existsb_permutation {A : Type} (f : A -> Datatypes.bool) (l l' : list A) :
  Permutation l l' -> existsb f l = existsb f l'.
Proof.
  intro H. induction H; simpl; try congruence.
  destruct (f x), (f y); reflexivity.
Qed.

Section OrderIndependence.

Variable st : torch_state.

Lemma highest_type_loop_permutation (args args' : list pyobj) (k : pytype) :
  Permutation args args' ->
  highest_type_loop py_bool args = Ok k ->
  highest_type_loop py_bool args' = Ok k.
Proof.
  intros Hp Hk.
  assert (Hall : forallb promotable args = true).
  { rewrite <- (proj1 (elementwise_highest_type_facts args)), Hk. reflexivity. }
  rewrite (highest_type_loop_ok args py_bool Hall) in Hk.
  rewrite (forallb_permutation promotable _ _ Hp) in Hall.
  rewrite (highest_type_loop_ok args' py_bool Hall), <- Hk. f_equal.
  symmetry.
  apply (fold_left_permutation max_kind (fun _ => True) (fun _ => True)).
  - trivial.
  - intros a x y _ _ _. destruct a, x, y; reflexivity.
  - apply Permutation_map. exact Hp.
  - apply Forall_forall. trivial.
  - exact I.
Qed.

(** The dtypes [elementwise_dtypes] returns do not depend on the order of
    the operands. *)
Theorem elementwise_dtypes_order_independent (_args _args' : list pyobj)
  (kind : ELEMENTWISE_TYPE_PROMOTION_KIND) (p : torch.dtype * torch.dtype) :
  Permutation _args _args' ->
  elementwise_dtypes st _args kind = Ok p ->
  elementwise_dtypes st _args' kind = Ok p.
Proof.
  intros Hp H.
  assert (Hf : Permutation (List.filter (fun x => negb (is_None x)) _args)
                           (List.filter (fun x => negb (is_None x)) _args'))
    by (apply filter_permutation; exact Hp).
  unfold elementwise_dtypes in *.
  destruct (elementwise_result_dtype st _args) as [R|e] eqn:HR; [|discriminate H].
  assert (HR' : elementwise_result_dtype st _args' = Ok R).
  { destruct (highest_type_loop py_bool
                (List.filter (fun x => negb (is_None x)) _args)) as [k|e] eqn:Hk.
    - pose proof (highest_type_loop_permutation _ _ k Hf Hk) as Hk'.
      rewrite (elementwise_result_dtype_closed st _args k Hk) in HR.
      rewrite (elementwise_result_dtype_closed st _args' k Hk'), <- HR.
      rewrite (preferred_highest_permutation is_integer_dtype false is_integer_dtype
                 integer_class_view integer_class_closed integer_class_commutes
                 false _ _ (Permutation_sym Hp)).
      rewrite (preferred_highest_permutation is_float_dtype false is_float_dtype
                 float_class_view float_class_closed float_class_commutes
                 false _ _ (Permutation_sym Hp)).
      unfold has_one_plus_dim_complex_tensor.
      rewrite (existsb_permutation _ _ _ (Permutation_sym Hf)).
      rewrite (preferred_highest_permutation float_or_complex true is_complex_dtype
                 complex_class_view complex_class_closed complex_class_commutes
                 _ _ _ (Permutation_sym Hp)).
      reflexivity.
    - unfold elementwise_result_dtype in HR. rewrite Hk in HR. discriminate HR. }
  rewrite HR'. exact H.
Qed.

End OrderIndependence.

Lemma elementwise_dtypes_order_independent_witness :
  Permutation [PyTensor (tensor_of [] torch.float64); PyNumber py_int;
               PyTensor (tensor_of [3%Z] torch.bfloat16)]
              [PyNumber py_int; PyTensor (tensor_of [3%Z] torch.bfloat16);
               PyTensor (tensor_of [] torch.float64)] /\
  elementwise_dtypes float32_default
    [PyNumber py_int; PyTensor (tensor_of [3%Z] torch.bfloat16);
     PyTensor (tensor_of [] torch.float64)] OP_MATH
  = Ok (torch.float32, torch.bfloat16).
Proof.
  assert (Hp : Permutation
            [PyTensor (tensor_of [] torch.float64); PyNumber py_int;
             PyTensor (tensor_of [3%Z] torch.bfloat16)]
            [PyNumber py_int; PyTensor (tensor_of [3%Z] torch.bfloat16);
             PyTensor (tensor_of [] torch.float64)]).
  { apply (Permutation_cons_app [PyNumber py_int;
                                 PyTensor (tensor_of [3%Z] torch.bfloat16)] []).
    rewrite app_nil_r. reflexivity. }
  split; [exact Hp|].
  exact (elementwise_dtypes_order_independent float32_default _ _ OP_MATH
           (torch.float32, torch.bfloat16) Hp eq_refl).
Defined.

Section RankPreference.

Variable st : torch_state.

Lemma scanned_dtypes_In (f : torch.dtype -> Datatypes.bool)
  (keep : TensorLike -> Datatypes.bool) (args : list pyobj) (d : torch.dtype) :
  In d (scanned_dtypes f false keep args) <->
  exists t, In (PyTensor t) args /\ f (dtype t) = true /\ keep t = true /\ dtype t = d.
Proof.
  unfold scanned_dtypes, scan_view. rewrite in_map_iff. split.
  - intros (t & Hd & Ht). apply filter_In in Ht. destruct Ht as [Ht Hk].
    apply filter_In in Ht. destruct Ht as [Ht Hf].
    exists t. repeat split; try assumption.
    unfold tensors_of in Ht. apply in_flat_map in Ht.
    destruct Ht as (x & Hx & Hxt). destruct x; try destruct Hxt as [Hxt | []];
      try destruct Hxt. subst. exact Hx.
  - intros (t & Hin & Hf & Hk & Hd). exists t. split; [exact Hd|].
    apply filter_In. split; [|exact Hk]. apply filter_In. split; [|exact Hf].
    unfold tensors_of. apply in_flat_map. exists (PyTensor t).
    split; [exact Hin | left; reflexivity].
Qed.

Lemma highest_dtype_nonempty (P : torch.dtype -> Datatypes.bool)
  (ds : list torch.dtype) :
  (forall a c, P a = true -> P c = true ->
     exists r, get_higher_dtype (PyDtype a) (PyDtype c) = Ok (Some r) /\ P r = true) ->
  Forall (fun d => P d = true) ds -> ds <> [] ->
  exists d, highest_dtype ds = Some d.
Proof.
  intros Hclosed Hds Hne. destruct ds as [|d ds]; [contradiction|].
  inversion Hds as [|? ? Hd Hrest]; subst. unfold highest_dtype. simpl.
  change (higher_of None d) with (Some d).
  clear Hds Hne. revert d Hd. induction ds as [|c ds IH]; intros d Hd.
  - exists d. reflexivity.
  - inversion Hrest as [|? ? Hc Hrest']; subst. simpl.
    destruct (Hclosed d c Hd Hc) as (r & Hr & HPr).
    unfold higher_of at 2. simpl optional_dtype. rewrite Hr.
    apply IH; assumption.
Qed.

Lemma preferred_highest_cases (f P : torch.dtype -> Datatypes.bool)
  (args : list pyobj) (fallback R : torch.dtype) :
  (forall d, f d = true -> P d = true) ->
  (forall a c, P a = true -> P c = true ->
     exists r, get_higher_dtype (PyDtype a) (PyDtype c) = Ok (Some r) /\ P r = true) ->
  or_else (preferred_highest f false false args) fallback = R ->
  (dims_dtypes f args <> [] -> highest_dtype (dims_dtypes f args) = Some R) /\
  (dims_dtypes f args = [] -> scalar_dtypes f args <> [] ->
   highest_dtype (scalar_dtypes f args) = Some R) /\
  (dims_dtypes f args = [] -> scalar_dtypes f args = [] -> R = fallback).
Proof.
  intros HfP Hclosed HR. unfold preferred_highest in HR.
  unfold dims_dtypes, scalar_dtypes.
  assert (Hall : forall keep,
             Forall (fun d => P d = true) (scanned_dtypes f false keep args)).
  { intro keep. apply Forall_forall. intros d Hd. apply scanned_dtypes_In in Hd.
    destruct Hd as (t & _ & Hf & _ & <-). apply HfP. exact Hf. }
  split; [|split].
  - intro Hne.
    destruct (highest_dtype_nonempty P _ Hclosed (Hall _) Hne) as (d & Hd).
    rewrite Hd in HR |- *. simpl in HR. congruence.
  - intros Hnil Hne. rewrite Hnil in HR.
    change (highest_dtype []) with (@None torch.dtype) in HR. cbv iota in HR.
    destruct (highest_dtype_nonempty P _ Hclosed (Hall _) Hne) as (d & Hd).
    rewrite Hd in HR |- *. simpl in HR. congruence.
  - intros Hnil Hnil'. rewrite Hnil, Hnil' in HR.
    change (highest_dtype []) with (@None torch.dtype) in HR.
    simpl in HR. congruence.
Qed.

(** When the highest type is float, the result dtype is the highest dtype,
    in the sense of [get_higher_dtype], among the float dtypes of the
    tensors with one or more dimensions; the tensors without dimensions
    count only when there is no such tensor, and the default dtype is the
    result only when no tensor has a float dtype.  Numbers and tensors of
    other dtypes never change it. *)
Theorem elementwise_float_result (_args : list pyobj) (R : torch.dtype) :
  highest_type_loop py_bool (List.filter (fun x => negb (is_None x)) _args)
  = Ok py_float ->
  elementwise_result_dtype st _args = Ok R ->
  (forall d, In d (dims_dtypes is_float_dtype _args) <->
     exists t, In (PyTensor t) _args /\ is_float_dtype (dtype t) = true /\
               0 < ndim t /\ dtype t = d) /\
  (dims_dtypes is_float_dtype _args <> [] ->
   highest_dtype (dims_dtypes is_float_dtype _args) = Some R) /\
  (dims_dtypes is_float_dtype _args = [] ->
   scalar_dtypes is_float_dtype _args <> [] ->
   highest_dtype (scalar_dtypes is_float_dtype _args) = Some R) /\
  (dims_dtypes is_float_dtype _args = [] ->
   scalar_dtypes is_float_dtype _args = [] -> R = get_default_dtype st).
Proof.
  intros Hk HR.
  rewrite (elementwise_result_dtype_closed st _args py_float Hk) in HR.
  injection HR as HR'. split.
  - intro d. unfold dims_dtypes. rewrite scanned_dtypes_In.
    unfold counts_as_ranked. simpl.
    split; intros (t & H1 & H2 & H3 & H4); exists t; repeat split; try assumption;
      [apply Nat.ltb_lt; exact H3 | apply Nat.ltb_lt; exact H3].
  - apply (preferred_highest_cases is_float_dtype is_float_dtype _args
             (get_default_dtype st) R (fun d H => H) float_class_closed HR').
Qed.

(** The same for the highest type int, with the integer dtypes and int64
    as the dtype of last resort. *)
Theorem elementwise_integer_result (_args : list pyobj) (R : torch.dtype) :
  highest_type_loop py_bool (List.filter (fun x => negb (is_None x)) _args)
  = Ok py_int ->
  elementwise_result_dtype st _args = Ok R ->
  (forall d, In d (dims_dtypes is_integer_dtype _args) <->
     exists t, In (PyTensor t) _args /\ is_integer_dtype (dtype t) = true /\
               0 < ndim t /\ dtype t = d) /\
  (dims_dtypes is_integer_dtype _args <> [] ->
   highest_dtype (dims_dtypes is_integer_dtype _args) = Some R) /\
  (dims_dtypes is_integer_dtype _args = [] ->
   scalar_dtypes is_integer_dtype _args <> [] ->
   highest_dtype (scalar_dtypes is_integer_dtype _args) = Some R) /\
  (dims_dtypes is_integer_dtype _args = [] ->
   scalar_dtypes is_integer_dtype _args = [] -> R = torch.int64).
Proof.
  intros Hk HR.
  rewrite (elementwise_result_dtype_closed st _args py_int Hk) in HR.
  injection HR as HR'. split.
  - intro d. unfold dims_dtypes. rewrite scanned_dtypes_In.
    unfold counts_as_ranked. simpl.
    split; intros (t & H1 & H2 & H3 & H4); exists t; repeat split; try assumption;
      [apply Nat.ltb_lt; exact H3 | apply Nat.ltb_lt; exact H3].
  - apply (preferred_highest_cases is_integer_dtype is_integer_dtype _args
             torch.long R (fun d H => H) integer_class_closed HR').
Qed.


End RankPreference.

Lemma elementwise_float_result_witness :
  highest_type_loop py_bool
    (List.filter (fun x => negb (is_None x))
       [PyTensor (tensor_of [4%Z] torch.int64);
        PyTensor (tensor_of [] torch.float16)]) = Ok py_float /\
  elementwise_result_dtype float32_default
    [PyTensor (tensor_of [4%Z] torch.int64);
     PyTensor (tensor_of [] torch.float16)] = Ok torch.float16 /\
  highest_dtype
    (scalar_dtypes is_float_dtype
       [PyTensor (tensor_of [4%Z] torch.int64);
        PyTensor (tensor_of [] torch.float16)]) = Some torch.float16.
Proof.
  split; [reflexivity|]. split; [reflexivity|].
  apply (proj1 (proj2 (proj2 (elementwise_float_result float32_default
           [PyTensor (tensor_of [4%Z] torch.int64);
            PyTensor (tensor_of [] torch.float16)] torch.float16
           eq_refl eq_refl)))).
  - reflexivity.
  - discriminate.
Defined.

Lemma elementwise_integer_result_witness :
  highest_type_loop py_bool
    (List.filter (fun x => negb (is_None x))
       [PyTensor (tensor_of [4%Z] torch.uint8);
        PyTensor (tensor_of [2%Z] torch.int8);
        PyTensor (tensor_of [] torch.int64)]) = Ok py_int /\
  elementwise_result_dtype float32_default
    [PyTensor (tensor_of [4%Z] torch.uint8);
     PyTensor (tensor_of [2%Z] torch.int8);
     PyTensor (tensor_of [] torch.int64)] = Ok torch.int16 /\
  highest_dtype
    (dims_dtypes is_integer_dtype
       [PyTensor (tensor_of [4%Z] torch.uint8);
        PyTensor (tensor_of [2%Z] torch.int8);
        PyTensor (tensor_of [] torch.int64)]) = Some torch.int16.
Proof.
  split; [reflexivity|]. split; [reflexivity|].
  apply (proj1 (proj2 (elementwise_integer_result float32_default
           [PyTensor (tensor_of [4%Z] torch.uint8);
            PyTensor (tensor_of [2%Z] torch.int8);
            PyTensor (tensor_of [] torch.int64)] torch.int16
           eq_refl eq_refl))).
  discriminate.
Defined.

